(** * HWComposer: display registry, hotplug resolver, vsync filter,
      composition negotiation and fence tracking

    A shallow embedding of
    [services/surfaceflinger/DisplayHardware/HWComposer.cpp].

    The C++ object [HWComposer] becomes a record that is threaded through
    every member function; the hardware compositing device (reached through
    [mComposer] and the [HWC2::Display] objects) is an opaque collaborator,
    modelled by the replies it gives ([Composer]) and by the log of calls made
    on it.  Early returns (the [RETURN_IF_...] macros) are the [Returned]
    outcome of a small state monad. *)

From Stdlib Require Import ZArith Bool Sorting.Sorted.
From stdpp Require Import base option list gmap strings.

Local Open Scope Z_scope.

(** ** Scalar types of the HAL and of libui *)

(** [hal::HWDisplayId] (uint64_t), [DisplayId::value] (uint64_t),
    [HWC2::Layer*] (an address) and [hal::Error] (an int32 backed enum that is
    [static_cast] from what the device answers) are all integers. *)
Abbreviation HWDisplayId := Z (only parsing).
Abbreviation DisplayId := Z (only parsing).
Abbreviation LayerPtr := Z (only parsing).
Abbreviation Error := Z (only parsing).
Abbreviation nsecs_t := Z (only parsing).

(** [hal::Error::NONE]. *)
Definition NONE : Error := 0.

(** The members of [status_t] this file returns. *)
Inductive status_t : Type :=
  | NO_ERROR
  | UNKNOWN_ERROR
  | BAD_INDEX
  | BAD_VALUE
  | INVALID_OPERATION.

Definition UINT32_MAX : Z := 2 ^ 32 - 1.

(** [static_cast<uint32_t>] of an [int32_t]. *)
Definition static_cast_uint32 (x : Z) : Z := x mod 2 ^ 32.

(** [sp<Fence>]: a null pointer, the shared [Fence::NO_FENCE] sentinel, or a
    fence wrapping a file descriptor. *)
Inductive Fence : Type :=
  | NullFence
  | NO_FENCE
  | FenceFd (fd : Z).

Global Instance Fence_eq_dec : EqDecision Fence.
Proof. solve_decision. Defined.

(** [Fence::SIGNAL_TIME_PENDING] is [INT64_MAX]. *)
Definition SIGNAL_TIME_PENDING : nsecs_t := 2 ^ 63 - 1.

(** [FenceTime]: only its signal time is consulted. *)
Record FenceTime : Type := { getSignalTime : nsecs_t }.

(** [ui::Size]. *)
Record Size : Type := { width : Z; height : Z }.

(** Modelled from the spec: [ui::Size::isValid] is declared in libui, outside
    of this file; the spec asks for a resolution that is "non-degenerate",
    that is, both extents positive. *)
Definition isValid (s : Size) : bool := (0 <? width s) && (0 <? height s).

(** The payload of [DeviceProductInfo] is only passed along here. *)
Definition DeviceProductInfo : Type := list Z.

Record DisplayIdentificationInfo : Type := {
  id : DisplayId;
  name : string;
  deviceProductInfo : option DeviceProductInfo;
}.

(** ** HWC2::Display, as far as this file reads and writes it *)

Inductive DisplayType : Type := PHYSICAL | VIRTUAL.

Record Display : Type := {
  getId : HWDisplayId;
  getType : DisplayType;
  isConnected_ : bool;
}.

Definition setConnected (connected : bool) (d : Display) : Display :=
  {| getId := getId d; getType := getType d; isConnected_ := connected |}.

(** ** DisplayData *)

Inductive Vsync : Type := ENABLE | DISABLE.

Record DisplayData : Type := {
  isVirtual : bool;
  hwcDisplay : Display;
  lastPresentFence : Fence;
  releaseFences : gmap Z Fence;
  validateWasSkipped : bool;
  presentError : Error;
  vsyncTraceToggle : bool;
  vsyncEnabled : Vsync;
  lastHwVsync : nsecs_t;
}.

(** Modelled from the spec: the declaration of [DisplayData] lives in
    HWComposer.h, which is not among the sources; a record created by
    [mDisplayData[displayId]] has the fields of the spec's DisplayRecord,
    value-initialised, and receives its [hwcDisplay] right away. *)
Definition newDisplayData (display : Display) : DisplayData :=
  {| isVirtual := false;
     hwcDisplay := display;
     lastPresentFence := NO_FENCE;
     releaseFences := ∅;
     validateWasSkipped := false;
     presentError := NONE;
     vsyncTraceToggle := false;
     vsyncEnabled := DISABLE;
     lastHwVsync := 0 |}.

Definition set_isVirtual (v : bool) (d : DisplayData) : DisplayData :=
  {| isVirtual := v; hwcDisplay := hwcDisplay d;
     lastPresentFence := lastPresentFence d; releaseFences := releaseFences d;
     validateWasSkipped := validateWasSkipped d; presentError := presentError d;
     vsyncTraceToggle := vsyncTraceToggle d; vsyncEnabled := vsyncEnabled d;
     lastHwVsync := lastHwVsync d |}.

Definition set_hwcDisplay (v : Display) (d : DisplayData) : DisplayData :=
  {| isVirtual := isVirtual d; hwcDisplay := v;
     lastPresentFence := lastPresentFence d; releaseFences := releaseFences d;
     validateWasSkipped := validateWasSkipped d; presentError := presentError d;
     vsyncTraceToggle := vsyncTraceToggle d; vsyncEnabled := vsyncEnabled d;
     lastHwVsync := lastHwVsync d |}.

Definition set_lastPresentFence (v : Fence) (d : DisplayData) : DisplayData :=
  {| isVirtual := isVirtual d; hwcDisplay := hwcDisplay d;
     lastPresentFence := v; releaseFences := releaseFences d;
     validateWasSkipped := validateWasSkipped d; presentError := presentError d;
     vsyncTraceToggle := vsyncTraceToggle d; vsyncEnabled := vsyncEnabled d;
     lastHwVsync := lastHwVsync d |}.

Definition set_releaseFences (v : gmap Z Fence) (d : DisplayData) : DisplayData :=
  {| isVirtual := isVirtual d; hwcDisplay := hwcDisplay d;
     lastPresentFence := lastPresentFence d; releaseFences := v;
     validateWasSkipped := validateWasSkipped d; presentError := presentError d;
     vsyncTraceToggle := vsyncTraceToggle d; vsyncEnabled := vsyncEnabled d;
     lastHwVsync := lastHwVsync d |}.

Definition set_validateWasSkipped (v : bool) (d : DisplayData) : DisplayData :=
  {| isVirtual := isVirtual d; hwcDisplay := hwcDisplay d;
     lastPresentFence := lastPresentFence d; releaseFences := releaseFences d;
     validateWasSkipped := v; presentError := presentError d;
     vsyncTraceToggle := vsyncTraceToggle d; vsyncEnabled := vsyncEnabled d;
     lastHwVsync := lastHwVsync d |}.

Definition set_presentError (v : Error) (d : DisplayData) : DisplayData :=
  {| isVirtual := isVirtual d; hwcDisplay := hwcDisplay d;
     lastPresentFence := lastPresentFence d; releaseFences := releaseFences d;
     validateWasSkipped := validateWasSkipped d; presentError := v;
     vsyncTraceToggle := vsyncTraceToggle d; vsyncEnabled := vsyncEnabled d;
     lastHwVsync := lastHwVsync d |}.

Definition set_vsyncTraceToggle (v : bool) (d : DisplayData) : DisplayData :=
  {| isVirtual := isVirtual d; hwcDisplay := hwcDisplay d;
     lastPresentFence := lastPresentFence d; releaseFences := releaseFences d;
     validateWasSkipped := validateWasSkipped d; presentError := presentError d;
     vsyncTraceToggle := v; vsyncEnabled := vsyncEnabled d;
     lastHwVsync := lastHwVsync d |}.

Definition set_lastHwVsync (v : nsecs_t) (d : DisplayData) : DisplayData :=
  {| isVirtual := isVirtual d; hwcDisplay := hwcDisplay d;
     lastPresentFence := lastPresentFence d; releaseFences := releaseFences d;
     validateWasSkipped := validateWasSkipped d; presentError := presentError d;
     vsyncTraceToggle := vsyncTraceToggle d; vsyncEnabled := vsyncEnabled d;
     lastHwVsync := v |}.

(** ** The HWComposer object *)

Record HWComposer : Type := {
  mDisplayData : gmap Z DisplayData;
  mPhysicalDisplayIdMap : gmap Z Z;
  mInternalHwcDisplayId : option HWDisplayId;
  mExternalHwcDisplayId : option HWDisplayId;
  mHasMultiDisplaySupport : bool;
  mMaxVirtualDisplayDimension : Z;
  mUpdateDeviceProductInfoOnHotplugReconnect : bool;
}.

Definition set_mDisplayData (v : gmap Z DisplayData) (h : HWComposer) : HWComposer :=
  {| mDisplayData := v;
     mPhysicalDisplayIdMap := mPhysicalDisplayIdMap h;
     mInternalHwcDisplayId := mInternalHwcDisplayId h;
     mExternalHwcDisplayId := mExternalHwcDisplayId h;
     mHasMultiDisplaySupport := mHasMultiDisplaySupport h;
     mMaxVirtualDisplayDimension := mMaxVirtualDisplayDimension h;
     mUpdateDeviceProductInfoOnHotplugReconnect :=
       mUpdateDeviceProductInfoOnHotplugReconnect h |}.

Definition set_mPhysicalDisplayIdMap (v : gmap Z Z) (h : HWComposer) : HWComposer :=
  {| mDisplayData := mDisplayData h;
     mPhysicalDisplayIdMap := v;
     mInternalHwcDisplayId := mInternalHwcDisplayId h;
     mExternalHwcDisplayId := mExternalHwcDisplayId h;
     mHasMultiDisplaySupport := mHasMultiDisplaySupport h;
     mMaxVirtualDisplayDimension := mMaxVirtualDisplayDimension h;
     mUpdateDeviceProductInfoOnHotplugReconnect :=
       mUpdateDeviceProductInfoOnHotplugReconnect h |}.

Definition set_mInternalHwcDisplayId (v : option HWDisplayId) (h : HWComposer) : HWComposer :=
  {| mDisplayData := mDisplayData h;
     mPhysicalDisplayIdMap := mPhysicalDisplayIdMap h;
     mInternalHwcDisplayId := v;
     mExternalHwcDisplayId := mExternalHwcDisplayId h;
     mHasMultiDisplaySupport := mHasMultiDisplaySupport h;
     mMaxVirtualDisplayDimension := mMaxVirtualDisplayDimension h;
     mUpdateDeviceProductInfoOnHotplugReconnect :=
       mUpdateDeviceProductInfoOnHotplugReconnect h |}.

Definition set_mExternalHwcDisplayId (v : option HWDisplayId) (h : HWComposer) : HWComposer :=
  {| mDisplayData := mDisplayData h;
     mPhysicalDisplayIdMap := mPhysicalDisplayIdMap h;
     mInternalHwcDisplayId := mInternalHwcDisplayId h;
     mExternalHwcDisplayId := v;
     mHasMultiDisplaySupport := mHasMultiDisplaySupport h;
     mMaxVirtualDisplayDimension := mMaxVirtualDisplayDimension h;
     mUpdateDeviceProductInfoOnHotplugReconnect :=
       mUpdateDeviceProductInfoOnHotplugReconnect h |}.

Definition set_mHasMultiDisplaySupport (v : bool) (h : HWComposer) : HWComposer :=
  {| mDisplayData := mDisplayData h;
     mPhysicalDisplayIdMap := mPhysicalDisplayIdMap h;
     mInternalHwcDisplayId := mInternalHwcDisplayId h;
     mExternalHwcDisplayId := mExternalHwcDisplayId h;
     mHasMultiDisplaySupport := v;
     mMaxVirtualDisplayDimension := mMaxVirtualDisplayDimension h;
     mUpdateDeviceProductInfoOnHotplugReconnect :=
       mUpdateDeviceProductInfoOnHotplugReconnect h |}.

(** ** The device: replies and the log of calls *)

(** One frame's negotiation result. *)
Record DeviceRequestedChanges : Type := {
  changedTypes : gmap Z Z;
  displayRequests : Z;
  layerRequests : gmap Z Z;
  clientTargetProperty : Z * Z;
}.

(** What [HWC2::Display::presentOrValidate] hands back: its error, and for each
    out-parameter the value written, if it wrote one. *)
Record PresentOrValidateReply : Type := {
  pov_error : Error;
  pov_numTypes : option Z;
  pov_numRequests : option Z;
  pov_presentFence : option Fence;
  pov_state : option Z;
}.

(** The protocol of [presentOrValidate] as the comment at the call has it:
    state 1 and state 2 both stand for a validate and commit that succeeded,
    so a reply that carries one of them carries no error. *)
Definition followsCommitProtocol (reply : PresentOrValidateReply) : Prop :=
  ∀ state, pov_state reply = Some state → state = 1 ∨ state = 2 →
    pov_error reply = NONE.

(** The replies of the hardware compositing device to the calls made here. *)
Record Composer : Type := {
  dev_createVirtualDisplay :
    Z → Z → Z → option HWDisplayId → Error * HWDisplayId;
  dev_getDisplayIdentificationData :
    HWDisplayId → Error * Z * list Z;
  dev_presentOrValidate : HWDisplayId → PresentOrValidateReply;
  dev_validate : HWDisplayId → Error * Z * Z;
  dev_getReleaseFences : HWDisplayId → Error * gmap Z Fence;
  dev_getChangedCompositionTypes : HWDisplayId → Error * gmap Z Z;
  dev_getRequests : HWDisplayId → Error * Z * gmap Z Z;
  dev_getClientTargetProperty : HWDisplayId → Error * (Z * Z);
  dev_acceptChanges : HWDisplayId → Error;
  dev_present : HWDisplayId → Error * option Fence;
  dev_executeCommands : Error;
  dev_setClientTarget : HWDisplayId → Z → Z → Fence → Z → Error;
}.

(** What leaves the object: calls on the device, the pacing sleep and the
    trace marker. *)
Inductive Event : Type :=
  | CreateVirtualDisplay (w h : Z) (mirror : option HWDisplayId)
  | GetDisplayIdentificationData (hwcDisplayId : HWDisplayId)
  | PresentOrValidate (hwcDisplayId : HWDisplayId)
  | Validate (hwcDisplayId : HWDisplayId)
  | GetReleaseFences (hwcDisplayId : HWDisplayId)
  | GetChangedCompositionTypes (hwcDisplayId : HWDisplayId)
  | GetRequests (hwcDisplayId : HWDisplayId)
  | GetClientTargetProperty (hwcDisplayId : HWDisplayId)
  | AcceptChanges (hwcDisplayId : HWDisplayId)
  | Present (hwcDisplayId : HWDisplayId)
  | ExecuteCommands
  | SetClientTarget (hwcDisplayId : HWDisplayId) (slot target : Z)
      (acquireFence : Fence) (dataspace : Z)
  | SleepUntil (t : Z)
  | ATRACE_INT (displayId : DisplayId) (value : bool).

Global Instance Event_eq_dec : EqDecision Event.
Proof. solve_decision. Defined.

(** ** The monad of member functions

    A member function runs on the object and appends to the log; each log
    entry keeps the object as it was when the entry was made, so that the
    order of stores and calls can be told afterwards. *)

Inductive Outcome (R A : Type) : Type :=
  | Returned (r : R)
  | Continue (a : A).
Arguments Returned {R A} r.
Arguments Continue {R A} a.

Definition Log : Type := list (Event * HWComposer).

Definition Op (R A : Type) : Type :=
  HWComposer → Log → Outcome R A * HWComposer * Log.

Definition op_ret {R A} (a : A) : Op R A := λ this log, (Continue a, this, log).

Definition op_bind {R A B} (f : A → Op R B) (m : Op R A) : Op R B :=
  λ this log,
    match m this log with
    | (Returned r, this', log') => (Returned r, this', log')
    | (Continue a, this', log') => f a this' log'
    end.

Global Instance Op_ret {R} : MRet (Op R) := @op_ret R.
Global Instance Op_bind {R} : MBind (Op R) := @op_bind R.

(** [return r;] *)
Definition Return_ {R A} (r : R) : Op R A := λ this log, (Returned r, this, log).

(** Reading and writing [*this]. *)
Definition get_this {R} : Op R HWComposer := λ this log, (Continue this, this, log).
Definition modify_this {R} (f : HWComposer → HWComposer) : Op R () :=
  λ this log, (Continue (), f this, log).

(** An observable action with reply [a]. *)
Definition call {R A} (e : Event) (a : A) : Op R A :=
  λ this log, (Continue a, this, log ++ [(e, this)]).

(** A store through the reference [auto& displayData = mDisplayData[displayId]]. *)
Definition modifyDisplayData {R} (displayId : DisplayId)
    (f : DisplayData → DisplayData) : Op R () :=
  modify_this (λ this, set_mDisplayData (alter f displayId (mDisplayData this)) this).

(** [RETURN_IF_INVALID_DISPLAY(displayId, r)], followed by the
    [mDisplayData[displayId]] (or [.at(displayId)]) that every caller does
    next: the record found is handed on. *)
Definition RETURN_IF_INVALID_DISPLAY {R} (displayId : DisplayId) (r : R) : Op R DisplayData :=
  λ this log,
    match mDisplayData this !! displayId with
    | None => (Returned r, this, log)
    | Some displayData => (Continue displayData, this, log)
    end.

(** [RETURN_IF_HWC_ERROR_FOR(what, error, displayId, r)]. *)
Definition RETURN_IF_HWC_ERROR_FOR {R} (error : Error) (r : R) : Op R () :=
  if bool_decide (error ≠ NONE) then Return_ r else mret ().

(** A member function from entry to exit, on an empty log. *)
Definition run {R} (op : Op R R) (this : HWComposer) : R * HWComposer * Log :=
  match op this [] with
  | (Returned r, this', log) => (r, this', log)
  | (Continue r, this', log) => (r, this', log)
  end.

Definition result {R} (x : R * HWComposer * Log) : R := x.1.1.
Definition after {R} (x : R * HWComposer * Log) : HWComposer := x.1.2.
Definition events {R} (x : R * HWComposer * Log) : list Event := x.2.*1.
Definition snapshots {R} (x : R * HWComposer * Log) : Log := x.2.

(** ** Fence tracker *)

Definition getLayerReleaseFence (this : HWComposer) (displayId : DisplayId)
    (layer : LayerPtr) : Fence :=
  match mDisplayData this !! displayId with
  | None => NO_FENCE
  | Some displayData =>
      let displayFences := releaseFences displayData in
      match displayFences !! layer with
      | None => NO_FENCE
      | Some fence => fence
      end
  end.

(** ** Composition negotiator *)

Definition setClientTarget (dev : Composer) (displayId : DisplayId) (slot : Z)
    (acquireFence : Fence) (target : Z) (dataspace : Z) : Op status_t status_t :=
  displayData ← RETURN_IF_INVALID_DISPLAY displayId BAD_INDEX;
  if validateWasSkipped displayData then Return_ NO_ERROR else
  let hwcDisplay := hwcDisplay displayData in
  error ← call (SetClientTarget (getId hwcDisplay) slot target acquireFence dataspace)
             (dev_setClientTarget dev (getId hwcDisplay) slot target acquireFence dataspace);
  RETURN_IF_HWC_ERROR_FOR error BAD_VALUE;;
  mret NO_ERROR.

Section Negotiator.

(** [hasChangesError] is declared with the HWC2 wrappers, outside of this
    file: it recognises the device code that stands for "the validated frame
    has pending changes". *)
Variable hasChangesError : Error → bool.

Definition canSkipValidate : bool := true.

(** The out-parameter [outChanges] is the second component of what is
    returned: [None] when the function never emplaced it. *)
Definition getDeviceCompositionChanges (dev : Composer) (displayId : DisplayId)
  : Op (status_t * option DeviceRequestedChanges)
       (status_t * option DeviceRequestedChanges) :=
  displayData ← RETURN_IF_INVALID_DISPLAY displayId (BAD_INDEX, None);
  let hwcDisplay := hwcDisplay displayData in
  if negb (isConnected_ hwcDisplay) then Return_ (NO_ERROR, None) else
  modifyDisplayData displayId (set_validateWasSkipped false);;
  '(error, numTypes, numRequests, state) ←
    (if canSkipValidate then
       reply ← call (PresentOrValidate (getId hwcDisplay))
                  (dev_presentOrValidate dev (getId hwcDisplay));
       let numTypes := default 0 (pov_numTypes reply) in
       let numRequests := default 0 (pov_numRequests reply) in
       let outPresentFence := default NullFence (pov_presentFence reply) in
       let state := default UINT32_MAX (pov_state reply) in
       let error := pov_error reply in
       (if negb (hasChangesError error)
        then RETURN_IF_HWC_ERROR_FOR error (UNKNOWN_ERROR, None)
        else mret ());;
       error ←
         (if (state =? 1) || (state =? 2) then
            '(error, releaseFences) ←
              call (GetReleaseFences (getId hwcDisplay))
                (dev_getReleaseFences dev (getId hwcDisplay));
            modifyDisplayData displayId (set_releaseFences releaseFences);;
            modifyDisplayData displayId (set_lastPresentFence outPresentFence);;
            modifyDisplayData displayId (set_validateWasSkipped true);;
            modifyDisplayData displayId (set_presentError error);;
            mret error
          else mret error);
       if state =? 1 then Return_ (NO_ERROR, None) else
       mret (error, numTypes, numRequests, state)
     else
       '(error, numTypes, numRequests) ←
         call (Validate (getId hwcDisplay)) (dev_validate dev (getId hwcDisplay));
       mret (error, numTypes, numRequests, UINT32_MAX));
  let acceptChanges := if canSkipValidate then negb (state =? 2) else true in
  (if negb (hasChangesError error)
   then RETURN_IF_HWC_ERROR_FOR error (BAD_INDEX, None)
   else mret ());;
  '(error, changedTypes) ←
    call (GetChangedCompositionTypes (getId hwcDisplay))
      (dev_getChangedCompositionTypes dev (getId hwcDisplay));
  RETURN_IF_HWC_ERROR_FOR error (BAD_INDEX, None);;
  '(error, displayRequests, layerRequests) ←
    call (GetRequests (getId hwcDisplay)) (dev_getRequests dev (getId hwcDisplay));
  RETURN_IF_HWC_ERROR_FOR error (BAD_INDEX, None);;
  '(error, clientTargetProperty) ←
    call (GetClientTargetProperty (getId hwcDisplay))
      (dev_getClientTargetProperty dev (getId hwcDisplay));
  let outChanges :=
    Some {| changedTypes := changedTypes; displayRequests := displayRequests;
            layerRequests := layerRequests;
            clientTargetProperty := clientTargetProperty |} in
  (if acceptChanges then
     error ← call (AcceptChanges (getId hwcDisplay))
                (dev_acceptChanges dev (getId hwcDisplay));
     RETURN_IF_HWC_ERROR_FOR error (BAD_INDEX, outChanges)
   else mret ());;
  mret (NO_ERROR, outChanges).

(** An error that the two guarded checks of [getDeviceCompositionChanges] let
    through: none, or the has-changes code. *)
Definition passesChangesCheck (error : Error) : bool :=
  hasChangesError error || bool_decide (error = NONE).

(** The replies under which a call on a connected display gets as far as
    emplacing [outChanges]: the fast-path call is let through and did not
    report state 1, on state 2 the error of the captured release fences (which
    is what line 540 re-checks) is let through, and the two queries succeed. *)
Definition producesChanges (dev : Composer) (hwcDisplayId : HWDisplayId) : bool :=
  let reply := dev_presentOrValidate dev hwcDisplayId in
  let state := default UINT32_MAX (pov_state reply) in
  passesChangesCheck (pov_error reply) &&
  negb (state =? 1) &&
  (if state =? 2
   then passesChangesCheck (dev_getReleaseFences dev hwcDisplayId).1
   else true) &&
  bool_decide ((dev_getChangedCompositionTypes dev hwcDisplayId).1 = NONE) &&
  bool_decide ((dev_getRequests dev hwcDisplayId).1.1 = NONE).

End Negotiator.

(** How often a log asks the device to accept the validated changes. *)
Definition isAcceptChanges (e : Event) : bool :=
  match e with AcceptChanges _ => true | _ => false end.

Definition acceptCalls (evs : list Event) : nat :=
  length (List.filter isAcceptChanges evs).

Definition presentAndGetReleaseFences (dev : Composer) (displayId : DisplayId)
    (earliestPresentTime : Z) (previousPresentFence : FenceTime)
  : Op status_t status_t :=
  displayData ← RETURN_IF_INVALID_DISPLAY displayId BAD_INDEX;
  let hwcDisplay := hwcDisplay displayData in
  if validateWasSkipped displayData then
    modifyDisplayData displayId (set_validateWasSkipped false);;
    error ← call ExecuteCommands (dev_executeCommands dev);
    RETURN_IF_HWC_ERROR_FOR error UNKNOWN_ERROR;;
    RETURN_IF_HWC_ERROR_FOR (presentError displayData) UNKNOWN_ERROR;;
    mret NO_ERROR
  else
    modifyDisplayData displayId (set_lastPresentFence NO_FENCE);;
    let previousFramePending :=
      getSignalTime previousPresentFence =? SIGNAL_TIME_PENDING in
    (if negb previousFramePending
     then call (SleepUntil earliestPresentTime) ()
     else mret ());;
    '(error, outPresentFence) ←
      call (Present (getId hwcDisplay)) (dev_present dev (getId hwcDisplay));
    match outPresentFence with
    | Some fence => modifyDisplayData displayId (set_lastPresentFence fence)
    | None => mret ()
    end;;
    RETURN_IF_HWC_ERROR_FOR error UNKNOWN_ERROR;;
    '(error, releaseFences) ←
      call (GetReleaseFences (getId hwcDisplay))
        (dev_getReleaseFences dev (getId hwcDisplay));
    RETURN_IF_HWC_ERROR_FOR error UNKNOWN_ERROR;;
    modifyDisplayData displayId (set_releaseFences releaseFences);;
    mret NO_ERROR.

(** The stored present fence and release fences of a display. *)
Definition storedPresentFence (this : HWComposer) (displayId : DisplayId)
  : option Fence :=
  lastPresentFence <$> mDisplayData this !! displayId.

Definition storedReleaseFences (this : HWComposer) (displayId : DisplayId)
  : option (gmap Z Fence) :=
  releaseFences <$> mDisplayData this !! displayId.

(** ** Display registry *)

Definition toPhysicalDisplayId (this : HWComposer) (hwcDisplayId : HWDisplayId)
  : option DisplayId :=
  mPhysicalDisplayIdMap this !! hwcDisplayId.

Definition fromPhysicalDisplayId (this : HWComposer) (displayId : DisplayId)
  : option HWDisplayId :=
  match mDisplayData this !! displayId with
  | Some displayData =>
      if negb (isVirtual displayData) then Some (getId (hwcDisplay displayData))
      else None
  | None => None
  end.

Definition fromVirtualDisplayId (this : HWComposer) (displayId : DisplayId)
  : option HWDisplayId :=
  match mDisplayData this !! displayId with
  | Some displayData =>
      if isVirtual displayData then Some (getId (hwcDisplay displayData))
      else None
  | None => None
  end.

Definition isConnected (this : HWComposer) (displayId : DisplayId) : bool :=
  match mDisplayData this !! displayId with
  | Some displayData => isConnected_ (hwcDisplay displayData)
  | None => false
  end.

(** The registry's lookup, as [RETURN_IF_INVALID_DISPLAY] does it. *)
Definition lookup_display (this : HWComposer) (displayId : DisplayId)
  : option DisplayData :=
  mDisplayData this !! displayId.

(** The range of [int32_t], the type of the two extents of a [ui::Size]. *)
Definition is_int32 (x : Z) : Prop := - 2 ^ 31 ≤ x < 2 ^ 31.

(** [mDisplayData[displayId]]: the record there, or a fresh one. *)
Definition displayData_at (this : HWComposer) (displayId : DisplayId)
    (display : Display) : DisplayData :=
  default (newDisplayData display) (mDisplayData this !! displayId).

Definition allocateVirtualDisplay (dev : Composer) (displayId : DisplayId)
    (resolution : Size) (format : Z) (mirror : option DisplayId) : Op bool bool :=
  if negb (isValid resolution) then Return_ false else
  let width := static_cast_uint32 (width resolution) in
  let height := static_cast_uint32 (height resolution) in
  this ← get_this;
  if (0 <? mMaxVirtualDisplayDimension this) &&
     ((mMaxVirtualDisplayDimension this <? width) ||
      (mMaxVirtualDisplayDimension this <? height))
  then Return_ false else
  let hwcMirrorId := mirror ≫= fromPhysicalDisplayId this in
  '(error, hwcDisplayId) ←
    call (CreateVirtualDisplay width height hwcMirrorId)
      (dev_createVirtualDisplay dev width height format hwcMirrorId);
  RETURN_IF_HWC_ERROR_FOR error false;;
  let display :=
    setConnected true
      {| getId := hwcDisplayId; getType := VIRTUAL; isConnected_ := false |} in
  modify_this (λ this,
    let displayData := displayData_at this displayId display in
    set_mDisplayData
      (<[displayId := set_isVirtual true (set_hwcDisplay display displayData)]>
         (mDisplayData this)) this);;
  mret true.

Definition allocatePhysicalDisplay {R} (hwcDisplayId : HWDisplayId)
    (displayId : DisplayId) : Op R () :=
  modify_this (λ this,
    set_mPhysicalDisplayIdMap (<[hwcDisplayId := displayId]> (mPhysicalDisplayIdMap this)) this);;
  this ← get_this;
  (if negb (bool_decide (is_Some (mInternalHwcDisplayId this))) then
     modify_this (set_mInternalHwcDisplayId (Some hwcDisplayId))
   else if bool_decide (mInternalHwcDisplayId this ≠ Some hwcDisplayId) &&
           negb (bool_decide (is_Some (mExternalHwcDisplayId this))) then
     modify_this (set_mExternalHwcDisplayId (Some hwcDisplayId))
   else mret ());;
  let newDisplay :=
    setConnected true
      {| getId := hwcDisplayId; getType := PHYSICAL; isConnected_ := false |} in
  modify_this (λ this,
    let displayData := displayData_at this displayId newDisplay in
    set_mDisplayData
      (<[displayId := set_hwcDisplay newDisplay displayData]> (mDisplayData this)) this).

Definition disconnectDisplay (displayId : DisplayId) : Op () () :=
  displayData ← RETURN_IF_INVALID_DISPLAY displayId ();
  let hwcDisplayId := getId (hwcDisplay displayData) in
  this ← get_this;
  (if bool_decide (mInternalHwcDisplayId this = Some hwcDisplayId) then
     modify_this (set_mInternalHwcDisplayId None)
   else if bool_decide (mExternalHwcDisplayId this = Some hwcDisplayId) then
     modify_this (set_mExternalHwcDisplayId None)
   else mret ());;
  modify_this (λ this,
    set_mPhysicalDisplayIdMap (delete hwcDisplayId (mPhysicalDisplayIdMap this)) this);;
  modify_this (λ this, set_mDisplayData (delete displayId (mDisplayData this)) this).

(** ** Hotplug resolver *)

(** The bool result, with the out-parameters [outPort] and [outData] as the
    device left them. *)
Definition getDisplayIdentificationData {R} (dev : Composer)
    (hwcDisplayId : HWDisplayId) : Op R (bool * Z * list Z) :=
  '(error, port, data) ←
    call (GetDisplayIdentificationData hwcDisplayId)
      (dev_getDisplayIdentificationData dev hwcDisplayId);
  if bool_decide (error ≠ NONE) then mret (false, port, data)
  else mret (true, port, data).

Definition shouldIgnoreHotplugConnect (this : HWComposer)
    (hwcDisplayId : HWDisplayId) (hasDisplayIdentificationData : bool) : bool :=
  if mHasMultiDisplaySupport this && negb hasDisplayIdentificationData then true
  else if negb (mHasMultiDisplaySupport this) &&
          bool_decide (is_Some (mInternalHwcDisplayId this)) &&
          bool_decide (is_Some (mExternalHwcDisplayId this)) then true
  else false.

Section Hotplug.

(** The identification-data parser, [PhysicalDisplayId::fromPort] and the two
    legacy port numbers are declared in DisplayIdentification.h and
    DisplayId.h, outside of this file. *)
Variable parseDisplayIdentificationData :
  Z → list Z → option DisplayIdentificationInfo.
Variable fromPort : Z → DisplayId.
Variable LEGACY_DISPLAY_TYPE_PRIMARY : Z.
Variable LEGACY_DISPLAY_TYPE_EXTERNAL : Z.

Definition onHotplugConnect (dev : Composer) (hwcDisplayId : HWDisplayId)
  : Op (option DisplayIdentificationInfo) (option DisplayIdentificationInfo) :=
  this ← get_this;
  info ←
    match toPhysicalDisplayId this hwcDisplayId with
    | Some displayId =>
        let info := {| id := displayId; name := ""; deviceProductInfo := None |} in
        if mUpdateDeviceProductInfoOnHotplugReconnect this then
          '(_, port, data) ← getDisplayIdentificationData dev hwcDisplayId;
          match parseDisplayIdentificationData port data with
          | Some newInfo =>
              mret {| id := id info; name := name info;
                      deviceProductInfo := deviceProductInfo newInfo |}
          | None => mret info
          end
        else mret info
    | None =>
        '(hasDisplayIdentificationData, port, data) ←
          getDisplayIdentificationData dev hwcDisplayId;
        (if bool_decide (mPhysicalDisplayIdMap this = ∅) then
           modify_this (set_mHasMultiDisplaySupport hasDisplayIdentificationData)
         else mret ());;
        this ← get_this;
        if shouldIgnoreHotplugConnect this hwcDisplayId hasDisplayIdentificationData
        then Return_ None else
        let isPrimary := negb (bool_decide (is_Some (mInternalHwcDisplayId this))) in
        let fallback port :=
          {| id := fromPort port;
             name := if isPrimary then "Internal display" else "External display";
             deviceProductInfo := None |} in
        if mHasMultiDisplaySupport this then
          match parseDisplayIdentificationData port data with
          | Some info => mret info
          | None => mret (fallback port)
          end
        else
          let port := if isPrimary then LEGACY_DISPLAY_TYPE_PRIMARY
                      else LEGACY_DISPLAY_TYPE_EXTERNAL in
          mret (fallback port)
    end;
  this ← get_this;
  (if negb (isConnected this (id info))
   then allocatePhysicalDisplay hwcDisplayId (id info)
   else mret ());;
  mret (Some info).

End Hotplug.

Definition onHotplugDisconnect (hwcDisplayId : HWDisplayId)
  : Op (option DisplayIdentificationInfo) (option DisplayIdentificationInfo) :=
  this ← get_this;
  match toPhysicalDisplayId this hwcDisplayId with
  | None => Return_ None
  | Some displayId =>
      (if isConnected this displayId then
         modifyDisplayData displayId
           (λ d, set_hwcDisplay (setConnected false (hwcDisplay d)) d)
       else mret ());;
      mret (Some {| id := displayId; name := ""; deviceProductInfo := None |})
  end.

(** ** Vsync filter *)

(** [LOG_FATAL_IF] is the debug-only assertion of liblog: where [LOG_NDEBUG]
    is set it is compiled out and the code goes on, whatever the condition;
    elsewhere a true condition aborts.  This file leaves its own
    [#define LOG_NDEBUG 0] commented out, so the build decides; the functions
    that assert take the flag as their first argument. *)
Definition fatalIf (LOG_NDEBUG cond : bool) : bool := negb LOG_NDEBUG && cond.

(** [None] stands for the abort. *)
Definition LOG_FATAL_IF {A} (LOG_NDEBUG cond : bool) : Op (option A) () :=
  if fatalIf LOG_NDEBUG cond then Return_ None else mret ().

Definition onVsync (LOG_NDEBUG : bool) (hwcDisplayId : HWDisplayId)
    (timestamp : nsecs_t) : Op (option bool) (option bool) :=
  this ← get_this;
  match toPhysicalDisplayId this hwcDisplayId with
  | None => Return_ (Some false)
  | Some displayId =>
      displayData ← RETURN_IF_INVALID_DISPLAY displayId (Some false);
      LOG_FATAL_IF LOG_NDEBUG (isVirtual displayData);;
      if timestamp =? lastHwVsync displayData then Return_ (Some false) else
      modifyDisplayData displayId (set_lastHwVsync timestamp);;
      call (ATRACE_INT displayId (vsyncTraceToggle displayData)) ();;
      modifyDisplayData displayId
        (set_vsyncTraceToggle (negb (vsyncTraceToggle displayData)));;
      mret (Some true)
  end.

(** [hwcDisplayId] is the handle of the physical display [displayId], whose
    record in [this] is [displayData]. *)
Definition physicalDisplay (this : HWComposer) (hwcDisplayId : HWDisplayId)
    (displayId : DisplayId) (displayData : DisplayData) : Prop :=
  toPhysicalDisplayId this hwcDisplayId = Some displayId ∧
  lookup_display this displayId = Some displayData ∧
  isVirtual displayData = false.

(** The two stores of an accepted vsync. *)
Definition acceptVsync (timestamp : nsecs_t) (d : DisplayData) : DisplayData :=
  set_vsyncTraceToggle (negb (vsyncTraceToggle d)) (set_lastHwVsync timestamp d).

(** The vsync callbacks of one display, delivered in order: the timestamps
    that [onVsync] accepted (reported [true]) and the object afterwards. *)
Fixpoint deliverVsyncs (LOG_NDEBUG : bool) (hwcDisplayId : HWDisplayId)
    (timestamps : list nsecs_t) (this : HWComposer) : list nsecs_t * HWComposer :=
  match timestamps with
  | [] => ([], this)
  | t :: rest =>
      let r := run (onVsync LOG_NDEBUG hwcDisplayId t) this in
      let '(accepted, final) := deliverVsyncs LOG_NDEBUG hwcDisplayId rest (after r) in
      (if bool_decide (result r = Some true) then t :: accepted else accepted, final)
  end.

(** ** The rest of the fence tracker *)

Definition getPresentFence (this : HWComposer) (displayId : DisplayId) : Fence :=
  match mDisplayData this !! displayId with
  | None => NO_FENCE
  | Some displayData => lastPresentFence displayData
  end.

Definition clearReleaseFences (displayId : DisplayId) : Op () () :=
  _ ← RETURN_IF_INVALID_DISPLAY displayId ();
  modifyDisplayData displayId (set_releaseFences ∅).

(** ** What a member function leaves alone

    [untouchedOutside displayId this that]: [that] differs from [this] at
    most in the fence and validate bookkeeping of the record of
    [displayId]; no record has come or gone. *)
Definition sameDisplayIdentity (d d' : DisplayData) : Prop :=
  isVirtual d' = isVirtual d ∧
  hwcDisplay d' = hwcDisplay d ∧
  vsyncTraceToggle d' = vsyncTraceToggle d ∧
  vsyncEnabled d' = vsyncEnabled d ∧
  lastHwVsync d' = lastHwVsync d.

Definition untouchedOutside (displayId : DisplayId) (this that : HWComposer) : Prop :=
  mPhysicalDisplayIdMap that = mPhysicalDisplayIdMap this ∧
  mInternalHwcDisplayId that = mInternalHwcDisplayId this ∧
  mExternalHwcDisplayId that = mExternalHwcDisplayId this ∧
  mHasMultiDisplaySupport that = mHasMultiDisplaySupport this ∧
  mMaxVirtualDisplayDimension that = mMaxVirtualDisplayDimension this ∧
  mUpdateDeviceProductInfoOnHotplugReconnect that =
    mUpdateDeviceProductInfoOnHotplugReconnect this ∧
  (∀ other, other ≠ displayId →
     mDisplayData that !! other = mDisplayData this !! other) ∧
  option_Forall2 sameDisplayIdentity
    (mDisplayData this !! displayId) (mDisplayData that !! displayId).

(** An operation all of whose runs end in a state related to the one they
    started from. *)
Definition stable {R A} (rel : relation HWComposer) (op : Op R A) : Prop :=
  ∀ this log, rel this (op this log).1.2.

(** ** The hotplug dispatcher and what the resolver derives *)

(** What [allocatePhysicalDisplay] leaves behind. *)
Definition afterAllocatePhysicalDisplay (hwcDisplayId : HWDisplayId)
    (displayId : DisplayId) (this : HWComposer) : HWComposer :=
  (@allocatePhysicalDisplay () hwcDisplayId displayId this []).1.2.

(** [hal::Connection]. *)
Inductive Connection : Type := INVALID | CONNECTED | DISCONNECTED.

Section HotplugDispatch.

Variable parseDisplayIdentificationData :
  Z → list Z → option DisplayIdentificationInfo.
Variable fromPort : Z → DisplayId.
Variable LEGACY_DISPLAY_TYPE_PRIMARY : Z.
Variable LEGACY_DISPLAY_TYPE_EXTERNAL : Z.

Definition onHotplug (dev : Composer) (hwcDisplayId : HWDisplayId)
    (connection : Connection)
  : Op (option DisplayIdentificationInfo) (option DisplayIdentificationInfo) :=
  match connection with
  | CONNECTED =>
      onHotplugConnect parseDisplayIdentificationData fromPort
        LEGACY_DISPLAY_TYPE_PRIMARY LEGACY_DISPLAY_TYPE_EXTERNAL dev hwcDisplayId
  | DISCONNECTED => onHotplugDisconnect hwcDisplayId
  | INVALID => Return_ None
  end.

(** The identity the resolver derives for a connection it does not ignore
    (the lambda of [onHotplugConnect]), as a function of the mode, of whether
    an internal handle is tracked, and of the identification data. *)
Definition deriveIdentity (generalized isPrimary : bool) (port : Z) (data : list Z)
  : DisplayIdentificationInfo :=
  let fallback port :=
    {| id := fromPort port;
       name := if isPrimary then "Internal display" else "External display";
       deviceProductInfo := None |} in
  if generalized then
    default (fallback port) (parseDisplayIdentificationData port data)
  else
    fallback (if isPrimary then LEGACY_DISPLAY_TYPE_PRIMARY
              else LEGACY_DISPLAY_TYPE_EXTERNAL).

End HotplugDispatch.

(** What a hotplug notification may do to the registry: nothing is
    forgotten, no tracked role changes hands. *)
Definition grows (this that : HWComposer) : Prop :=
  mPhysicalDisplayIdMap this ⊆ mPhysicalDisplayIdMap that ∧
  dom (mDisplayData this) ⊆ dom (mDisplayData that) ∧
  (is_Some (mInternalHwcDisplayId this) →
     mInternalHwcDisplayId that = mInternalHwcDisplayId this) ∧
  (is_Some (mExternalHwcDisplayId this) →
     mExternalHwcDisplayId that = mExternalHwcDisplayId this) ∧
  mMaxVirtualDisplayDimension that = mMaxVirtualDisplayDimension this ∧
  mUpdateDeviceProductInfoOnHotplugReconnect that =
    mUpdateDeviceProductInfoOnHotplugReconnect this.

(** ** Requests handed on to the device

    The member functions of this part hand a request to the [HWC2::Display]
    of a record, or to the composer, and translate the answer.  Only
    [setVsyncEnabled] stores anything.  They are written in direct style: the
    value is the caller-facing result together with what left the object, in
    order; [None] stands for the abort of a [LOG_FATAL_IF] in a build that
    keeps the assertion ([fatalIf]). *)

Inductive PowerMode : Type := OFF | DOZE | DOZE_SUSPEND | ON | ON_SUSPEND.

Inductive DisplayConnectionType : Type := Internal | External.

Global Instance Vsync_eq_dec : EqDecision Vsync.
Proof. solve_decision. Defined.

Global Instance PowerMode_eq_dec : EqDecision PowerMode.
Proof. solve_decision. Defined.

Definition set_vsyncEnabled (v : Vsync) (d : DisplayData) : DisplayData :=
  {| isVirtual := isVirtual d; hwcDisplay := hwcDisplay d;
     lastPresentFence := lastPresentFence d; releaseFences := releaseFences d;
     validateWasSkipped := validateWasSkipped d; presentError := presentError d;
     vsyncTraceToggle := vsyncTraceToggle d; vsyncEnabled := v;
     lastHwVsync := lastHwVsync d |}.

(** [hal::Attribute], as far as [getModes] asks for it. *)
Inductive Attribute : Type :=
  WIDTH | HEIGHT | VSYNC_PERIOD | DPI_X | DPI_Y | CONFIG_GROUP.

(** The fields [width] and [height] of the source carry the prefix [mode_]
    here, the names being taken by [Size]. *)
Record HWCDisplayMode : Type := {
  hwcId : Z;
  mode_width : Z;
  mode_height : Z;
  vsyncPeriod : Z;
  dpiX : Z;
  dpiY : Z;
  configGroup : Z;
}.

(** The replies of the display objects and of the composer to the requests
    of this part. *)
Record Hal : Type := {
  hal_setVsyncEnabled : HWDisplayId → Vsync → Error;
  hal_supportsDoze : HWDisplayId → Error * option bool;
  hal_setPowerMode : HWDisplayId → PowerMode → Error;
  hal_setOutputBuffer : HWDisplayId → Z → Fence → Error;
  hal_getConnectionType : HWDisplayId → Error * DisplayConnectionType;
  hal_getDisplayedContentSamplingAttributes : HWDisplayId → Error;
  hal_setDisplayContentSamplingEnabled : HWDisplayId → bool → Z → Z → Error;
  hal_setAutoLowLatencyMode : HWDisplayId → bool → Error;
  hal_setContentType : HWDisplayId → Z → Error;
  hal_setDisplayElapseTime : HWDisplayId → Z → Error;
  hal_getDisplayConfigs : HWDisplayId → Error * list Z;
  hal_getDisplayAttribute : HWDisplayId → Z → Attribute → Error * option Z;
}.

(** What leaves the object in this part: the requests, the error log of
    [LOG_HWC_ERROR] where a function does nothing else with an error, and the
    trace marker of [setVsyncEnabled]. *)
Inductive Request : Type :=
  | SetVsyncEnabled (hwcDisplayId : HWDisplayId) (enabled : Vsync)
  | ATRACE_HW_VSYNC_ON (displayId : DisplayId) (value : Z)
  | SupportsDoze (hwcDisplayId : HWDisplayId)
  | SetPowerMode (hwcDisplayId : HWDisplayId) (mode : PowerMode)
  | LOG_HWC_ERROR (error : Error)
  | SetOutputBuffer (hwcDisplayId : HWDisplayId) (buffer : Z) (acquireFence : Fence)
  | GetConnectionType (hwcDisplayId : HWDisplayId)
  | GetDisplayedContentSamplingAttributes (hwcDisplayId : HWDisplayId)
  | SetDisplayContentSamplingEnabled (hwcDisplayId : HWDisplayId) (enabled : bool)
      (componentMask maxFrames : Z)
  | SetAutoLowLatencyMode (hwcDisplayId : HWDisplayId) (on : bool)
  | SetContentType (hwcDisplayId : HWDisplayId) (contentType : Z)
  | SetDisplayElapseTime (hwcDisplayId : HWDisplayId) (timeStamp : Z)
  | GetDisplayConfigs (hwcDisplayId : HWDisplayId)
  | GetDisplayAttribute (hwcDisplayId : HWDisplayId) (configId : Z)
      (attribute : Attribute).

(** The lock of [vsyncEnabledLock] is held from the comparison to the end;
    the model is of one thread. *)
Definition setVsyncEnabled (LOG_NDEBUG : bool) (dev : Hal) (displayId : DisplayId)
    (enabled : Vsync) (this : HWComposer) : option (HWComposer * list Request) :=
  match mDisplayData this !! displayId with
  | None => Some (this, [])
  | Some displayData =>
      if fatalIf LOG_NDEBUG (isVirtual displayData) then None else
      if bool_decide (enabled = vsyncEnabled displayData) then Some (this, []) else
      let hwcDisplayId := getId (hwcDisplay displayData) in
      let error := hal_setVsyncEnabled dev hwcDisplayId enabled in
      if bool_decide (error ≠ NONE)
      then Some (this, [SetVsyncEnabled hwcDisplayId enabled]) else
      Some (set_mDisplayData
              (alter (set_vsyncEnabled enabled) displayId (mDisplayData this)) this,
            [SetVsyncEnabled hwcDisplayId enabled;
             ATRACE_HW_VSYNC_ON displayId
               (if bool_decide (enabled = ENABLE) then 1 else 0)])
  end.

(** The requests of a sequence of [setVsyncEnabled] calls for one display. *)
Fixpoint setVsyncEnabledAll (LOG_NDEBUG : bool) (dev : Hal) (displayId : DisplayId)
    (requests : list Vsync) (this : HWComposer)
  : option (HWComposer * list Request) :=
  match requests with
  | [] => Some (this, [])
  | enabled :: requests =>
      '(this, log) ← setVsyncEnabled LOG_NDEBUG dev displayId enabled this;
      '(this, log') ← setVsyncEnabledAll LOG_NDEBUG dev displayId requests this;
      Some (this, log ++ log')
  end.

(** [if (error != hal::Error::NONE) LOG_HWC_ERROR(...)]. *)
Definition logIfError (error : Error) : list Request :=
  if bool_decide (error ≠ NONE) then [LOG_HWC_ERROR error] else [].

(** The out-parameter of the doze query starts as [false]. *)
Definition setPowerMode (LOG_NDEBUG : bool) (dev : Hal) (this : HWComposer)
    (displayId : DisplayId) (mode : PowerMode) : option (status_t * list Request) :=
  match mDisplayData this !! displayId with
  | None => Some (BAD_INDEX, [])
  | Some displayData =>
      if fatalIf LOG_NDEBUG (isVirtual displayData) then None else
      let hwcDisplayId := getId (hwcDisplay displayData) in
      match mode with
      | OFF | ON =>
          let error := hal_setPowerMode dev hwcDisplayId mode in
          Some (NO_ERROR, SetPowerMode hwcDisplayId mode :: logIfError error)
      | DOZE | DOZE_SUSPEND =>
          let '(error, written) := hal_supportsDoze dev hwcDisplayId in
          let supportsDoze := default false written in
          let mode := if negb supportsDoze then ON else mode in
          let error' := hal_setPowerMode dev hwcDisplayId mode in
          Some (NO_ERROR,
                SupportsDoze hwcDisplayId :: logIfError error ++
                SetPowerMode hwcDisplayId mode :: logIfError error')
      | _ => Some (NO_ERROR, [])
      end
  end.

Definition setOutputBuffer (LOG_NDEBUG : bool) (dev : Hal) (this : HWComposer)
    (displayId : DisplayId) (acquireFence : Fence) (buffer : Z)
  : option (status_t * list Request) :=
  match mDisplayData this !! displayId with
  | None => Some (BAD_INDEX, [])
  | Some displayData =>
      if fatalIf LOG_NDEBUG (negb (isVirtual displayData)) then None else
      let hwcDisplayId := getId (hwcDisplay displayData) in
      let error := hal_setOutputBuffer dev hwcDisplayId buffer acquireFence in
      Some (if bool_decide (error ≠ NONE) then UNKNOWN_ERROR else NO_ERROR,
            [SetOutputBuffer hwcDisplayId buffer acquireFence])
  end.

Definition getDisplayConnectionType (dev : Hal) (this : HWComposer)
    (displayId : DisplayId) : DisplayConnectionType * list Request :=
  match mDisplayData this !! displayId with
  | None => (Internal, [])
  | Some displayData =>
      let hwcDisplay := hwcDisplay displayData in
      let '(error, type) := hal_getConnectionType dev (getId hwcDisplay) in
      let FALLBACK_TYPE :=
        if bool_decide (Some (getId hwcDisplay) = mInternalHwcDisplayId this)
        then Internal else External in
      (if bool_decide (error ≠ NONE) then FALLBACK_TYPE else type,
       [GetConnectionType (getId hwcDisplay)])
  end.

Section StatusTranslation.

(** Two codes of [hal::Error], whose values are declared with the HAL. *)
Variable UNSUPPORTED : Error.
Variable BAD_PARAMETER : Error.

Definition getDisplayedContentSamplingAttributes (dev : Hal) (this : HWComposer)
    (displayId : DisplayId) : status_t * list Request :=
  match mDisplayData this !! displayId with
  | None => (BAD_INDEX, [])
  | Some displayData =>
      let hwcDisplayId := getId (hwcDisplay displayData) in
      let error := hal_getDisplayedContentSamplingAttributes dev hwcDisplayId in
      let calls := [GetDisplayedContentSamplingAttributes hwcDisplayId] in
      if bool_decide (error = UNSUPPORTED) && bool_decide (error ≠ NONE)
      then (INVALID_OPERATION, calls) else
      if bool_decide (error ≠ NONE) then (UNKNOWN_ERROR, calls) else
      (NO_ERROR, calls)
  end.

Definition setDisplayContentSamplingEnabled (dev : Hal) (this : HWComposer)
    (displayId : DisplayId) (enabled : bool) (componentMask maxFrames : Z)
  : status_t * list Request :=
  match mDisplayData this !! displayId with
  | None => (BAD_INDEX, [])
  | Some displayData =>
      let hwcDisplayId := getId (hwcDisplay displayData) in
      let error :=
        hal_setDisplayContentSamplingEnabled dev hwcDisplayId enabled componentMask
          maxFrames in
      let calls :=
        [SetDisplayContentSamplingEnabled hwcDisplayId enabled componentMask
           maxFrames] in
      if bool_decide (error = UNSUPPORTED) && bool_decide (error ≠ NONE)
      then (INVALID_OPERATION, calls) else
      if bool_decide (error = BAD_PARAMETER) && bool_decide (error ≠ NONE)
      then (BAD_VALUE, calls) else
      if bool_decide (error ≠ NONE) then (UNKNOWN_ERROR, calls) else
      (NO_ERROR, calls)
  end.

Definition setAutoLowLatencyMode (dev : Hal) (this : HWComposer)
    (displayId : DisplayId) (on : bool) : status_t * list Request :=
  match mDisplayData this !! displayId with
  | None => (BAD_INDEX, [])
  | Some displayData =>
      let hwcDisplayId := getId (hwcDisplay displayData) in
      let error := hal_setAutoLowLatencyMode dev hwcDisplayId on in
      let calls := [SetAutoLowLatencyMode hwcDisplayId on] in
      if bool_decide (error = UNSUPPORTED) && bool_decide (error ≠ NONE)
      then (INVALID_OPERATION, calls) else
      if bool_decide (error = BAD_PARAMETER) && bool_decide (error ≠ NONE)
      then (BAD_VALUE, calls) else
      if bool_decide (error ≠ NONE) then (UNKNOWN_ERROR, calls) else
      (NO_ERROR, calls)
  end.

Definition setContentType (dev : Hal) (this : HWComposer)
    (displayId : DisplayId) (contentType : Z) : status_t * list Request :=
  match mDisplayData this !! displayId with
  | None => (BAD_INDEX, [])
  | Some displayData =>
      let hwcDisplayId := getId (hwcDisplay displayData) in
      let error := hal_setContentType dev hwcDisplayId contentType in
      let calls := [SetContentType hwcDisplayId contentType] in
      if bool_decide (error = UNSUPPORTED) && bool_decide (error ≠ NONE)
      then (INVALID_OPERATION, calls) else
      if bool_decide (error = BAD_PARAMETER) && bool_decide (error ≠ NONE)
      then (BAD_VALUE, calls) else
      if bool_decide (error ≠ NONE) then (UNKNOWN_ERROR, calls) else
      (NO_ERROR, calls)
  end.

Definition setDisplayElapseTime (dev : Hal) (this : HWComposer)
    (displayId : DisplayId) (timeStamp : Z) : status_t * list Request :=
  match mDisplayData this !! displayId with
  | None => (BAD_INDEX, [])
  | Some displayData =>
      let hwcDisplayId := getId (hwcDisplay displayData) in
      let error := hal_setDisplayElapseTime dev hwcDisplayId timeStamp in
      let calls := [SetDisplayElapseTime hwcDisplayId timeStamp] in
      if bool_decide (error = BAD_PARAMETER) && bool_decide (error ≠ NONE)
      then (BAD_VALUE, calls) else
      if bool_decide (error ≠ NONE) then (UNKNOWN_ERROR, calls) else
      (NO_ERROR, calls)
  end.

End StatusTranslation.

(** ** Display modes *)

(** [int32_t value = 0] is what the device call writes to.  Here and in
    [getModes] the identity of the handle is looked up for the error log
    only. *)
Definition getAttribute (dev : Hal) (hwcDisplayId : HWDisplayId) (configId : Z)
    (attribute : Attribute) : Z * list Request :=
  let '(error, written) := hal_getDisplayAttribute dev hwcDisplayId configId attribute in
  let value := default 0 written in
  (if bool_decide (error ≠ NONE) then -1 else value,
   [GetDisplayAttribute hwcDisplayId configId attribute]).

Definition getMode (dev : Hal) (hwcDisplayId : HWDisplayId) (configId : Z)
  : HWCDisplayMode * list Request :=
  let '(width, c1) := getAttribute dev hwcDisplayId configId WIDTH in
  let '(height, c2) := getAttribute dev hwcDisplayId configId HEIGHT in
  let '(vsyncPeriod, c3) := getAttribute dev hwcDisplayId configId VSYNC_PERIOD in
  let '(dpiX, c4) := getAttribute dev hwcDisplayId configId DPI_X in
  let '(dpiY, c5) := getAttribute dev hwcDisplayId configId DPI_Y in
  let '(configGroup, c6) := getAttribute dev hwcDisplayId configId CONFIG_GROUP in
  ({| hwcId := configId; mode_width := width; mode_height := height;
      vsyncPeriod := vsyncPeriod; dpiX := dpiX; dpiY := dpiY;
      configGroup := configGroup |},
   c1 ++ c2 ++ c3 ++ c4 ++ c5 ++ c6).

(** The loop of [getModes]: [modes.push_back] per config id. *)
Fixpoint pushModes (dev : Hal) (hwcDisplayId : HWDisplayId) (configIds : list Z)
    (modes : list HWCDisplayMode) (calls : list Request)
  : list HWCDisplayMode * list Request :=
  match configIds with
  | [] => (modes, calls)
  | configId :: configIds =>
      let '(mode, c) := getMode dev hwcDisplayId configId in
      pushModes dev hwcDisplayId configIds (modes ++ [mode]) (calls ++ c)
  end.

Definition getModes (dev : Hal) (this : HWComposer) (displayId : DisplayId)
  : list HWCDisplayMode * list Request :=
  match mDisplayData this !! displayId with
  | None => ([], [])
  | Some displayData =>
      let hwcDisplayId := getId (hwcDisplay displayData) in
      let '(error, configIds) := hal_getDisplayConfigs dev hwcDisplayId in
      if bool_decide (error ≠ NONE) then ([], [GetDisplayConfigs hwcDisplayId]) else
      pushModes dev hwcDisplayId configIds [] [GetDisplayConfigs hwcDisplayId]
  end.

(** The values of the [setVsyncEnabled] requests in a log, and the value a
    record caches. *)
Definition sentVsync (log : list Request) : list Vsync :=
  omap (λ r, match r with SetVsyncEnabled _ enabled => Some enabled | _ => None end) log.

Definition vsyncEnabledOf (this : HWComposer) (displayId : DisplayId) : option Vsync :=
  vsyncEnabled <$> mDisplayData this !! displayId.

(** ** The callback bridge *)

(** The typed notifications of [HWC2::ComposerCallback]. *)
Inductive Notification : Type :=
  | onComposerHalHotplug (display : HWDisplayId) (connection : Connection)
  | onComposerHalRefresh (display : HWDisplayId)
  | onComposerHalVsync (display : HWDisplayId) (timestamp : Z)
      (vsyncPeriod : option Z)
  | onComposerHalVsyncPeriodTimingChanged (display : HWDisplayId) (timeline : Z)
  | onComposerHalSeamlessPossible (display : HWDisplayId).

Module ComposerCallbackBridge.

Record t : Type := {
  mCallback : Z;
  mVsyncSwitchingSupported : bool;
}.

(** Each member function yields what it hands to [mCallback]. *)
Definition onHotplug (this : t) (display : HWDisplayId) (connection : Connection)
  : list Notification :=
  [onComposerHalHotplug display connection].

Definition onRefresh (this : t) (display : HWDisplayId) : list Notification :=
  [onComposerHalRefresh display].

Definition onVsync (this : t) (display : HWDisplayId) (timestamp : Z)
  : list Notification :=
  if negb (mVsyncSwitchingSupported this)
  then [onComposerHalVsync display timestamp None]
  else [].

Definition onVsync_2_4 (this : t) (display : HWDisplayId) (timestamp : Z)
    (vsyncPeriodNanos : Z) : list Notification :=
  if mVsyncSwitchingSupported this
  then [onComposerHalVsync display timestamp (Some vsyncPeriodNanos)]
  else [].

Definition onVsyncPeriodTimingChanged (this : t) (display : HWDisplayId)
    (timeline : Z) : list Notification :=
  [onComposerHalVsyncPeriodTimingChanged display timeline].

Definition onSeamlessPossible (this : t) (display : HWDisplayId)
  : list Notification :=
  [onComposerHalSeamlessPossible display].

End ComposerCallbackBridge.

(** ** Capabilities and the registration of the callback

    [setCallback] and the two loaders work on members that no function above
    reads or writes; they are kept in a record of their own. *)

Record Capabilities : Type := {
  mCapabilities : gset Z;
  mSupportedLayerGenericMetadata : gmap string bool;
  mRegisteredCallback : bool;
}.

Definition set_mCapabilities (v : gset Z) (c : Capabilities) : Capabilities :=
  {| mCapabilities := v;
     mSupportedLayerGenericMetadata := mSupportedLayerGenericMetadata c;
     mRegisteredCallback := mRegisteredCallback c |}.

Definition set_mSupportedLayerGenericMetadata (v : gmap string bool)
    (c : Capabilities) : Capabilities :=
  {| mCapabilities := mCapabilities c;
     mSupportedLayerGenericMetadata := v;
     mRegisteredCallback := mRegisteredCallback c |}.

Definition set_mRegisteredCallback (v : bool) (c : Capabilities) : Capabilities :=
  {| mCapabilities := mCapabilities c;
     mSupportedLayerGenericMetadata := mSupportedLayerGenericMetadata c;
     mRegisteredCallback := v |}.

(** The replies of the composer to the calls of this part. *)
Record ComposerInfo : Type := {
  info_getCapabilities : list Z;
  info_getLayerGenericMetadataKeys : Error * list (string * bool);
  info_isVsyncPeriodSwitchSupported : bool;
}.

Inductive ComposerCall : Type :=
  | GetCapabilities
  | GetLayerGenericMetadataKeys
  | IsVsyncPeriodSwitchSupported
  | RegisterCallback (bridge : ComposerCallbackBridge.t).

(** [std::unordered_map::emplace]: nothing is stored under a key that is
    there already. *)
Definition emplace {V} (key : string) (value : V) (m : gmap string V)
  : gmap string V :=
  match m !! key with
  | Some _ => m
  | None => <[key := value]> m
  end.

Definition hasCapability (this : Capabilities) (capability : Z) : bool :=
  bool_decide (capability ∈ mCapabilities this).

Definition loadCapabilities (dev : ComposerInfo) (this : Capabilities)
  : Capabilities * list ComposerCall :=
  let capabilities := info_getCapabilities dev in
  (set_mCapabilities
     (foldl (λ s capability, s ∪ {[capability]}) (mCapabilities this) capabilities)
     this,
   [GetCapabilities]).

Definition loadLayerMetadataSupport (dev : ComposerInfo) (this : Capabilities)
  : Capabilities * list ComposerCall :=
  let this := set_mSupportedLayerGenericMetadata ∅ this in
  let '(error, supportedMetadataKeyInfo) := info_getLayerGenericMetadataKeys dev in
  if bool_decide (error ≠ NONE) then (this, [GetLayerGenericMetadataKeys]) else
  (set_mSupportedLayerGenericMetadata
     (foldl (λ m '(name, mandatory), emplace name mandatory m)
        (mSupportedLayerGenericMetadata this) supportedMetadataKeyInfo)
     this,
   [GetLayerGenericMetadataKeys]).

Definition setCallback (dev : ComposerInfo) (callback : Z) (this : Capabilities)
  : Capabilities * list ComposerCall :=
  let '(this, calls) := loadCapabilities dev this in
  let '(this, calls') := loadLayerMetadataSupport dev this in
  if mRegisteredCallback this then (this, calls ++ calls') else
  let this := set_mRegisteredCallback true this in
  let bridge :=
    {| ComposerCallbackBridge.mCallback := callback;
       ComposerCallbackBridge.mVsyncSwitchingSupported :=
         info_isVsyncPeriodSwitchSupported dev |} in
  (this, calls ++ calls' ++ [IsVsyncPeriodSwitchSupported; RegisterCallback bridge]).

Definition isRegisterCallback (c : ComposerCall) : bool :=
  match c with RegisterCallback _ => true | _ => false end.

(** ** Sample objects and devices

    A registry with one connected physical display (identity 1, handle 7)
    that tracks one release fence, and devices that answer as told. *)

Definition sample_hasChangesError (error : Error) : bool := bool_decide (error = 5).

Definition sampleDisplay (connected : bool) : Display :=
  {| getId := 7; getType := PHYSICAL; isConnected_ := connected |}.

Definition sampleDisplayData (connected skipped : bool) : DisplayData :=
  {| isVirtual := false;
     hwcDisplay := sampleDisplay connected;
     lastPresentFence := FenceFd 11;
     releaseFences := {[ 100 := FenceFd 12 ]};
     validateWasSkipped := skipped;
     presentError := NONE;
     vsyncTraceToggle := false;
     vsyncEnabled := ENABLE;
     lastHwVsync := 0 |}.

Definition sampleHWComposer (connected skipped : bool) : HWComposer :=
  {| mDisplayData := {[ 1 := sampleDisplayData connected skipped ]};
     mPhysicalDisplayIdMap := {[ 7 := 1 ]};
     mInternalHwcDisplayId := Some 7;
     mExternalHwcDisplayId := None;
     mHasMultiDisplaySupport := false;
     mMaxVirtualDisplayDimension := 4096;
     mUpdateDeviceProductInfoOnHotplugReconnect := false |}.

(** [HWComposer] as constructed: nothing registered, no dimension bound. *)
Definition emptyHWComposer : HWComposer :=
  {| mDisplayData := ∅;
     mPhysicalDisplayIdMap := ∅;
     mInternalHwcDisplayId := None;
     mExternalHwcDisplayId := None;
     mHasMultiDisplaySupport := false;
     mMaxVirtualDisplayDimension := 0;
     mUpdateDeviceProductInfoOnHotplugReconnect := false |}.

(** A device whose fast path answers [povError] and [povState], whose
    release-fence and changed-types queries answer [releaseError] and
    [changedError], whose identification data query answers
    [identificationError], and that succeeds at everything else. *)
Definition sampleComposer (povError : Error) (povState : option Z)
    (releaseError changedError identificationError : Error) : Composer :=
  {| dev_createVirtualDisplay := λ _ _ _ _, (NONE, 20);
     dev_getDisplayIdentificationData := λ _, (identificationError, 3, [0; 255]);
     dev_presentOrValidate := λ _,
       {| pov_error := povError; pov_numTypes := Some 1; pov_numRequests := Some 0;
          pov_presentFence := Some (FenceFd 13); pov_state := povState |};
     dev_validate := λ _, (NONE, 0, 0);
     dev_getReleaseFences := λ _, (releaseError, {[ 200 := FenceFd 14 ]});
     dev_getChangedCompositionTypes := λ _, (changedError, {[ 200 := 1 ]});
     dev_getRequests := λ _, (NONE, 0, ∅);
     dev_getClientTargetProperty := λ _, (NONE, (1, 0));
     dev_acceptChanges := λ _, NONE;
     dev_present := λ _, (NONE, Some (FenceFd 15));
     dev_executeCommands := NONE;
     dev_setClientTarget := λ _ _ _ _ _, NONE |}.

(** A parser that never makes sense of the data, ports as identities, and the
    legacy ports 0 and 1. *)
Definition sample_parse (port : Z) (data : list Z) : option DisplayIdentificationInfo :=
  None.
Definition sample_fromPort (port : Z) : DisplayId := port.
Definition sample_LEGACY_DISPLAY_TYPE_PRIMARY : Z := 0.
Definition sample_LEGACY_DISPLAY_TYPE_EXTERNAL : Z := 1.

(** ** Sample objects for the second part

    A parser that reads identity 1 and the data as product info out of
    whatever it is given; the two HAL codes; a display object that answers
    [vsyncError] to [setVsyncEnabled], writes [doze] to the doze query, lists
    the configs 0 and 1 and answers [error] to everything else; a composer
    with two capabilities that lists one metadata key twice; an object that
    has loaded a key before and has no callback yet. *)

Definition sample_parse_panel (port : Z) (data : list Z)
  : option DisplayIdentificationInfo :=
  Some {| id := 1; name := "Panel"; deviceProductInfo := Some data |}.

Definition sample_UNSUPPORTED : Error := 8.
Definition sample_BAD_PARAMETER : Error := 4.

Definition sampleHal (vsyncError : Error) (doze : option bool) (error : Error) : Hal :=
  {| hal_setVsyncEnabled := λ _ _, vsyncError;
     hal_supportsDoze := λ _, (NONE, doze);
     hal_setPowerMode := λ _ _, error;
     hal_setOutputBuffer := λ _ _ _, error;
     hal_getConnectionType := λ _, (error, External);
     hal_getDisplayedContentSamplingAttributes := λ _, error;
     hal_setDisplayContentSamplingEnabled := λ _ _ _ _, error;
     hal_setAutoLowLatencyMode := λ _ _, error;
     hal_setContentType := λ _ _, error;
     hal_setDisplayElapseTime := λ _ _, error;
     hal_getDisplayConfigs := λ _, (NONE, [0; 1]);
     hal_getDisplayAttribute := λ _ configId _, (error, Some (configId + 60)) |}.

Definition sampleComposerInfo (error : Error) : ComposerInfo :=
  {| info_getCapabilities := [1; 3];
     info_getLayerGenericMetadataKeys :=
       (error, [("a", true); ("b", false); ("a", false)]);
     info_isVsyncPeriodSwitchSupported := true |}.

Definition sampleCapabilities : Capabilities :=
  {| mCapabilities := {[ 2 ]};
     mSupportedLayerGenericMetadata := {[ "stale" := true ]};
     mRegisteredCallback := false |}.

(** * Properties *)

(** Unfolding a member function down to the object and the log. *)
Ltac unfold_op :=
  unfold run, result, after, events, snapshots,
    RETURN_IF_INVALID_DISPLAY, RETURN_IF_HWC_ERROR_FOR, LOG_FATAL_IF, fatalIf,
    modifyDisplayData, modify_this, get_this, call, Return_,
    mbind, Op_bind, op_bind, mret, Op_ret, op_ret in *.

(** Whether a device error is [NONE], with the tests on it decided. *)
Ltac case_error e :=
  destruct (decide (e = NONE));
  [ rewrite ?(bool_decide_eq_true_2 (e = NONE)),
      ?(bool_decide_eq_false_2 (e ≠ NONE)) by (intuition congruence)
  | rewrite ?(bool_decide_eq_false_2 (e = NONE)),
      ?(bool_decide_eq_true_2 (e ≠ NONE)) by (intuition congruence) ];
  cbn.

(** A path that has returned: what is left is arithmetic on the replies. *)
Ltac closed_case :=
  unfold acceptCalls; cbn; repeat (case_bool_decide; cbn); first [done | congruence].

(** Every branch of a member function, each with its equations. *)
Ltac all_paths := repeat (case_match; cbn in *; simplify_eq/=; try done).

(** ** Fence tracker *)

(** C7: for a registered display, [getLayerReleaseFence] answers with the
    [NO_FENCE] sentinel when the layer has no entry in the display's
    release-fence map, and with the stored fence exactly when the layer has
    one; the answer is a fence in every case, there is no error result. *)
Theorem getLayerReleaseFence_untracked_is_NO_FENCE
    (this : HWComposer) (displayId : DisplayId) (displayData : DisplayData)
    (layer : LayerPtr) :
  lookup_display this displayId = Some displayData →
  (releaseFences displayData !! layer = None →
     getLayerReleaseFence this displayId layer = NO_FENCE) ∧
  (∀ fence, releaseFences displayData !! layer = Some fence →
     getLayerReleaseFence this displayId layer = fence) ∧
  (getLayerReleaseFence this displayId layer ≠ NO_FENCE →
     releaseFences displayData !! layer =
       Some (getLayerReleaseFence this displayId layer)).
Proof.
  unfold lookup_display, getLayerReleaseFence. intros ->. cbn.
  destruct (releaseFences displayData !! layer) as [f|] eqn:Hl.
  - split; [done|]. split; [by intros ? [= ->]|done].
  - split; [done|]. split; [done|]. by intros [].
Qed.

(** ** Composition negotiator *)

(** C9: on a registered display whose validate-was-skipped flag is set,
    [setClientTarget] returns [NO_ERROR] with no call on the device and with
    the object unchanged, whatever slot, fence, buffer and dataspace it is
    given. *)
Theorem setClientTarget_skipped_is_noop
    (dev : Composer) (this : HWComposer) (displayId : DisplayId)
    (displayData : DisplayData) (slot target dataspace : Z) (acquireFence : Fence) :
  lookup_display this displayId = Some displayData →
  validateWasSkipped displayData = true →
  run (setClientTarget dev displayId slot acquireFence target dataspace) this
    = (NO_ERROR, this, []).
Proof.
  unfold lookup_display, setClientTarget. intros Hd Hs.
  unfold_op. rewrite Hd. cbn. by rewrite Hs.
Qed.

(** The present step on a display whose validate was skipped: the queued
    commands are flushed, the captured error is surfaced, the flag is
    cleared, and the device is not asked to present. *)
Lemma presentAndGetReleaseFences_skipped
    (dev : Composer) (this : HWComposer) (displayId : DisplayId)
    (displayData : DisplayData) (earliestPresentTime : Z)
    (previousPresentFence : FenceTime) :
  mDisplayData this !! displayId = Some displayData →
  validateWasSkipped displayData = true →
  let present :=
    run (presentAndGetReleaseFences dev displayId earliestPresentTime
           previousPresentFence) this in
  events present = [ExecuteCommands] ∧
  result present =
    (if bool_decide (dev_executeCommands dev ≠ NONE) then UNKNOWN_ERROR
     else if bool_decide (presentError displayData ≠ NONE) then UNKNOWN_ERROR
     else NO_ERROR) ∧
  mDisplayData (after present) !! displayId =
    Some (set_validateWasSkipped false displayData).
Proof.
  intros Hd Hs. unfold presentAndGetReleaseFences. unfold_op.
  rewrite Hd. cbn. rewrite Hs. cbn.
  repeat case_bool_decide; cbn; rewrite lookup_alter_eq, Hd; done.
Qed.

(** C8 (amended): when validation was not skipped,
    [presentAndGetReleaseFences] first resets the stored present fence to
    [NO_FENCE] (it is [NO_FENCE] when the thread sleeps and when present is
    called); it sleeps until the earliest present time exactly when the signal
    time of the previous present fence is not pending, and otherwise calls
    present at once; present leaves its fence in the stored present fence;
    after a successful present the release fences are asked for, and they
    overwrite the stored map when that query succeeds too, while a failed
    query leaves the stored map as it was and reports [UNKNOWN_ERROR]. *)
Theorem presentAndGetReleaseFences_not_skipped
    (dev : Composer) (this : HWComposer) (displayId : DisplayId)
    (displayData : DisplayData) (earliestPresentTime : Z)
    (previousPresentFence : FenceTime) :
  let hwcDisplayId := getId (hwcDisplay displayData) in
  let previousFramePending :=
    bool_decide (getSignalTime previousPresentFence = SIGNAL_TIME_PENDING) in
  let presented := bool_decide ((dev_present dev hwcDisplayId).1 = NONE) in
  let retrieved := bool_decide ((dev_getReleaseFences dev hwcDisplayId).1 = NONE) in
  let present :=
    run (presentAndGetReleaseFences dev displayId earliestPresentTime
           previousPresentFence) this in
  lookup_display this displayId = Some displayData →
  validateWasSkipped displayData = false →
  events present =
    (if previousFramePending then [] else [SleepUntil earliestPresentTime]) ++
    [Present hwcDisplayId] ++
    (if presented then [GetReleaseFences hwcDisplayId] else []) ∧
  (∀ e snapshot, (e, snapshot) ∈ snapshots present →
     e = SleepUntil earliestPresentTime ∨ e = Present hwcDisplayId →
     storedPresentFence snapshot displayId = Some NO_FENCE) ∧
  storedPresentFence (after present) displayId =
    Some (default NO_FENCE (dev_present dev hwcDisplayId).2) ∧
  storedReleaseFences (after present) displayId =
    Some (if presented && retrieved then (dev_getReleaseFences dev hwcDisplayId).2
          else releaseFences displayData) ∧
  result present = (if presented && retrieved then NO_ERROR else UNKNOWN_ERROR).
Proof.
  intros hwcDisplayId pending presented retrieved present Hd Hs.
  unfold lookup_display in Hd.
  subst present presented retrieved pending.
  unfold storedPresentFence, storedReleaseFences, presentAndGetReleaseFences.
  unfold_op. rewrite Hd. cbn. rewrite Hs. cbn. fold hwcDisplayId.
  destruct (dev_present dev hwcDisplayId) as [eP fenceOut].
  destruct (dev_getReleaseFences dev hwcDisplayId) as [eR rf]. cbn.
  destruct (Z.eqb_spec (getSignalTime previousPresentFence) SIGNAL_TIME_PENDING)
    as [Hp|Hp];
    [rewrite (bool_decide_eq_true_2 _ Hp)|rewrite (bool_decide_eq_false_2 _ Hp)];
    cbn;
    destruct fenceOut as [fence|]; cbn;
    (case_error eP; [case_error eR|]);
    (split; [done|]); (split; [|by rewrite !lookup_alter_eq, Hd]).
  all: intros ev snapshot Hin [-> | ->];
    repeat (rewrite elem_of_cons in Hin; destruct Hin as [Hin|Hin]; [simplify_eq|]);
    try (by apply elem_of_nil in Hin); cbn; by rewrite ?lookup_alter_eq, ?Hd.
Qed.

Section NegotiatorProperties.

Variable hasChangesError : Error → bool.

(** C10: on a display that is registered but not connected,
    [getDeviceCompositionChanges] returns [NO_ERROR] at once: no call on the
    device, [outChanges] not populated, and the object (fences and
    validate-was-skipped flag included) unchanged. *)
Theorem getDeviceCompositionChanges_disconnected_is_noop
    (dev : Composer) (this : HWComposer) (displayId : DisplayId)
    (displayData : DisplayData) :
  lookup_display this displayId = Some displayData →
  isConnected_ (hwcDisplay displayData) = false →
  run (getDeviceCompositionChanges hasChangesError dev displayId) this
    = ((NO_ERROR, None), this, []).
Proof.
  unfold lookup_display, getDeviceCompositionChanges. intros Hd Hc.
  unfold_op. rewrite Hd. cbn. by rewrite Hc.
Qed.

(** The frame of state 1, for any reply that the error gate lets through
    (its error is [NONE] or the has-changes code). *)
Lemma state_1_let_through
    (dev : Composer) (this : HWComposer) (displayId : DisplayId)
    (displayData : DisplayData) :
  let hwcDisplayId := getId (hwcDisplay displayData) in
  let reply := dev_presentOrValidate dev hwcDisplayId in
  lookup_display this displayId = Some displayData →
  isConnected_ (hwcDisplay displayData) = true →
  pov_state reply = Some 1 →
  passesChangesCheck hasChangesError (pov_error reply) = true →
  let frame := run (getDeviceCompositionChanges hasChangesError dev displayId) this in
  result frame = (NO_ERROR, None) ∧
  events frame = [PresentOrValidate hwcDisplayId; GetReleaseFences hwcDisplayId] ∧
  ∀ (dev' : Composer) (earliestPresentTime : Z) (previousPresentFence : FenceTime),
    let present :=
      run (presentAndGetReleaseFences dev' displayId earliestPresentTime
             previousPresentFence) (after frame) in
    events present = [ExecuteCommands] ∧
    (∀ h, Present h ∉ events present) ∧
    result present =
      if bool_decide (dev_executeCommands dev' ≠ NONE) then UNKNOWN_ERROR
      else if bool_decide ((dev_getReleaseFences dev hwcDisplayId).1 ≠ NONE)
           then UNKNOWN_ERROR else NO_ERROR.
Proof.
  intros hwcDisplayId reply Hd Hc Hs He frame.
  unfold lookup_display in Hd.
  assert (Hgate : negb (hasChangesError (pov_error reply)) &&
                  bool_decide (pov_error reply ≠ NONE) = false).
  { unfold passesChangesCheck in He.
    destruct (hasChangesError (pov_error reply)); [done|]. cbn in *.
    apply bool_decide_eq_true_1 in He. by rewrite bool_decide_eq_false_2 by auto. }
  assert (Hrun : result frame = (NO_ERROR, None) ∧
     events frame = [PresentOrValidate hwcDisplayId; GetReleaseFences hwcDisplayId] ∧
     ∃ d', mDisplayData (after frame) !! displayId = Some d' ∧
       validateWasSkipped d' = true ∧
       presentError d' = (dev_getReleaseFences dev hwcDisplayId).1).
  { subst frame. unfold getDeviceCompositionChanges. unfold_op.
    rewrite Hd. cbn. rewrite Hc. cbn.
    fold hwcDisplayId. fold reply. rewrite Hs.
    destruct (dev_getReleaseFences dev hwcDisplayId) as [eR rf] eqn:HR.
    destruct (hasChangesError (pov_error reply)),
      (bool_decide (pov_error reply ≠ NONE)); try discriminate Hgate; cbn;
      (split; [done|]; split; [done|]; rewrite !lookup_alter_eq, Hd; cbn; eauto). }
  destruct Hrun as (Hr & Hev & d' & Hd' & Hsk & Hpe).
  split; [done|]. split; [done|]. intros dev' t prev present.
  destruct (presentAndGetReleaseFences_skipped dev' (after frame) displayId d' t prev
              Hd' Hsk) as (H1 & H2 & _).
  split; [done|]. split.
  - intros h. subst present. rewrite H1. by intros [=]%list_elem_of_singleton.
  - subst present. by rewrite H2, Hpe.
Qed.

(** C1: on a registered display, with a device that follows the protocol of
    the fast path (a reply that carries state 1 or 2 comes from a call that
    succeeded), when the presentOrValidate call of
    [getDeviceCompositionChanges] is made and reports state 1, the function
    returns [NO_ERROR] with [outChanges] not populated, having asked the
    device only for presentOrValidate and the release fences; the
    [presentAndGetReleaseFences] that follows makes one call,
    [executeCommands], and no present call, and reports [UNKNOWN_ERROR] when
    that flush fails or when capturing the release fences had failed, and
    [NO_ERROR] otherwise. *)
Theorem committed_no_changes_skips_present
    (dev : Composer) (this : HWComposer) (displayId : DisplayId)
    (displayData : DisplayData) :
  let hwcDisplayId := getId (hwcDisplay displayData) in
  let reply := dev_presentOrValidate dev hwcDisplayId in
  let frame := run (getDeviceCompositionChanges hasChangesError dev displayId) this in
  lookup_display this displayId = Some displayData →
  followsCommitProtocol reply →
  PresentOrValidate hwcDisplayId ∈ events frame →
  pov_state reply = Some 1 →
  result frame = (NO_ERROR, None) ∧
  events frame = [PresentOrValidate hwcDisplayId; GetReleaseFences hwcDisplayId] ∧
  ∀ (dev' : Composer) (earliestPresentTime : Z) (previousPresentFence : FenceTime),
    let present :=
      run (presentAndGetReleaseFences dev' displayId earliestPresentTime
             previousPresentFence) (after frame) in
    events present = [ExecuteCommands] ∧
    (∀ h, Present h ∉ events present) ∧
    result present =
      if bool_decide (dev_executeCommands dev' ≠ NONE) then UNKNOWN_ERROR
      else if bool_decide ((dev_getReleaseFences dev hwcDisplayId).1 ≠ NONE)
           then UNKNOWN_ERROR else NO_ERROR.
Proof.
  intros hwcDisplayId reply frame Hd Hprotocol Hcalled Hs.
  assert (Hc : isConnected_ (hwcDisplay displayData) = true).
  { destruct (isConnected_ (hwcDisplay displayData)) eqn:Hc; [done|].
    exfalso. revert Hcalled. subst frame.
    unfold lookup_display in Hd. unfold getDeviceCompositionChanges. unfold_op.
    rewrite Hd. cbn. rewrite Hc. cbn. apply not_elem_of_nil. }
  assert (He : passesChangesCheck hasChangesError (pov_error reply) = true).
  { unfold passesChangesCheck. rewrite (Hprotocol 1 Hs (or_introl eq_refl)).
    rewrite bool_decide_eq_true_2 by done. apply orb_true_r. }
  exact (state_1_let_through dev this displayId displayData Hd Hc Hs He).
Qed.

(** What a call on a registered, connected display hands back in
    [outChanges], and how often it asks the device to accept. *)
Lemma getDeviceCompositionChanges_outcome
    (dev : Composer) (this : HWComposer) (displayId : DisplayId)
    (displayData : DisplayData) :
  let hwcDisplayId := getId (hwcDisplay displayData) in
  let state := default UINT32_MAX (pov_state (dev_presentOrValidate dev hwcDisplayId)) in
  let frame := run (getDeviceCompositionChanges hasChangesError dev displayId) this in
  mDisplayData this !! displayId = Some displayData →
  isConnected_ (hwcDisplay displayData) = true →
  (result frame).2 =
    (if producesChanges hasChangesError dev hwcDisplayId then
       Some {| changedTypes := (dev_getChangedCompositionTypes dev hwcDisplayId).2;
               displayRequests := (dev_getRequests dev hwcDisplayId).1.2;
               layerRequests := (dev_getRequests dev hwcDisplayId).2;
               clientTargetProperty :=
                 (dev_getClientTargetProperty dev hwcDisplayId).2 |}
     else None) ∧
  acceptCalls (events frame) =
    (if producesChanges hasChangesError dev hwcDisplayId && negb (state =? 2)
     then 1%nat else 0%nat).
Proof.
  intros hwcDisplayId state frame Hd Hc.
  subst frame. unfold producesChanges, passesChangesCheck.
  unfold getDeviceCompositionChanges, canSkipValidate. unfold_op.
  rewrite Hd. cbn. rewrite Hc. cbn.
  fold hwcDisplayId. fold state.
  destruct (dev_getReleaseFences dev hwcDisplayId) as [eR rf].
  destruct (dev_getChangedCompositionTypes dev hwcDisplayId) as [eC ct].
  destruct (dev_getRequests dev hwcDisplayId) as [[eQ dr] lr].
  destruct (dev_getClientTargetProperty dev hwcDisplayId) as [eP cp].
  generalize (dev_acceptChanges dev hwcDisplayId); intros eA.
  generalize (pov_error (dev_presentOrValidate dev hwcDisplayId)); intros e0.
  clearbody state. clear.
  destruct (hasChangesError e0) eqn:Hh0; cbn; [|case_error e0; [|by closed_case]];
  (destruct (Z.eqb_spec state 1) as [->|H1]; cbn; [by closed_case|]);
  (destruct (Z.eqb_spec state 2) as [->|H2]; cbn;
    [destruct (hasChangesError eR) eqn:HhR; cbn; [|case_error eR; [|by closed_case]]
    |rewrite ?Hh0; cbn; try case_error NONE]).
  all: (case_error eC; [|by closed_case]);
    (case_error eQ; [|by closed_case]);
    rewrite ?(proj2 (Z.eqb_neq state 2)) by done; cbn;
    try case_error eA; by closed_case.
Qed.

(** C6 (amended): in one [getDeviceCompositionChanges] call on a registered,
    connected display, accept-changes is called at most once; it is called
    exactly when the call gets as far as producing a DeviceRequestedChanges
    result and the fast path had not committed (state is not 2); the result is
    produced exactly when the fast-path call is let through without reporting
    state 1, the release-fence capture of state 2 is let through, and the two
    queries succeed; with state 2 the result so produced is handed back and
    accept-changes is not called. *)
Theorem acceptChanges_iff_produced_and_not_committed
    (dev : Composer) (this : HWComposer) (displayId : DisplayId)
    (displayData : DisplayData) :
  let hwcDisplayId := getId (hwcDisplay displayData) in
  let state := default UINT32_MAX (pov_state (dev_presentOrValidate dev hwcDisplayId)) in
  let frame := run (getDeviceCompositionChanges hasChangesError dev displayId) this in
  let outChanges := (result frame).2 in
  let accepts := acceptCalls (events frame) in
  lookup_display this displayId = Some displayData →
  isConnected_ (hwcDisplay displayData) = true →
  (accepts ≤ 1)%nat ∧
  (accepts = 1%nat ↔ is_Some outChanges ∧ state ≠ 2) ∧
  (is_Some outChanges ↔ producesChanges hasChangesError dev hwcDisplayId = true) ∧
  (state = 2 → producesChanges hasChangesError dev hwcDisplayId = true →
     accepts = 0%nat ∧
     outChanges =
       Some {| changedTypes := (dev_getChangedCompositionTypes dev hwcDisplayId).2;
               displayRequests := (dev_getRequests dev hwcDisplayId).1.2;
               layerRequests := (dev_getRequests dev hwcDisplayId).2;
               clientTargetProperty :=
                 (dev_getClientTargetProperty dev hwcDisplayId).2 |}).
Proof.
  intros hwcDisplayId state frame outChanges accepts Hd Hc.
  destruct (getDeviceCompositionChanges_outcome dev this displayId displayData Hd Hc)
    as [Hout Hacc].
  fold hwcDisplayId state frame in Hout, Hacc. fold outChanges in Hout.
  fold accepts in Hacc. clearbody accepts outChanges state frame.
  rewrite Hout, Hacc.
  destruct (producesChanges hasChangesError dev hwcDisplayId); cbn;
    destruct (Z.eqb_spec state 2); cbn;
    rewrite ?is_Some_alt; repeat split; intros; destruct_and?; try done; lia.
Qed.

End NegotiatorProperties.

(** ** Display registry *)

Lemma static_cast_uint32_id (x : Z) : 0 ≤ x < 2 ^ 32 → static_cast_uint32 x = x.
Proof. intros H. unfold static_cast_uint32. by apply Z.mod_small. Qed.

(** C5: [allocateVirtualDisplay] returns false and leaves the registry as it
    was when the resolution is not valid or when a positive maximum dimension
    is exceeded by the width or the height (the device is not asked), and
    when the device refuses the creation; it returns true only when all three
    checks pass, and then the record of the display is virtual and its
    display is connected, virtual and carries the handle the device gave. *)
Theorem allocateVirtualDisplay_checks
    (dev : Composer) (this : HWComposer) (displayId : DisplayId)
    (resolution : Size) (format : Z) (mirror : option DisplayId) :
  let maxDimension := mMaxVirtualDisplayDimension this in
  let exceeds :=
    0 < maxDimension ∧
    (maxDimension < width resolution ∨ maxDimension < height resolution) in
  let reply :=
    dev_createVirtualDisplay dev (width resolution) (height resolution) format
      (mirror ≫= fromPhysicalDisplayId this) in
  let create :=
    CreateVirtualDisplay (width resolution) (height resolution)
      (mirror ≫= fromPhysicalDisplayId this) in
  let r := run (allocateVirtualDisplay dev displayId resolution format mirror) this in
  is_int32 (width resolution) → is_int32 (height resolution) →
  (isValid resolution = false ∨ exceeds →
     result r = false ∧ after r = this ∧ events r = []) ∧
  (isValid resolution = true → ¬ exceeds → reply.1 ≠ NONE →
     result r = false ∧ after r = this ∧ events r = [create]) ∧
  (isValid resolution = true → ¬ exceeds → reply.1 = NONE →
     result r = true ∧ events r = [create] ∧
     ∃ displayData,
       lookup_display (after r) displayId = Some displayData ∧
       isVirtual displayData = true ∧
       isConnected_ (hwcDisplay displayData) = true ∧
       getId (hwcDisplay displayData) = reply.2 ∧
       getType (hwcDisplay displayData) = VIRTUAL) ∧
  (result r = true ↔ isValid resolution = true ∧ ¬ exceeds ∧ reply.1 = NONE).
Proof.
  intros maxDimension exceeds reply create r Hw Hh.
  unfold is_int32 in *.
  assert (Hcast : isValid resolution = true →
            static_cast_uint32 (width resolution) = width resolution ∧
            static_cast_uint32 (height resolution) = height resolution).
  { unfold isValid. intros [H1 H2]%andb_true_iff.
    apply Z.ltb_lt in H1, H2. split; apply static_cast_uint32_id; lia. }
  assert (Hex : (0 <? maxDimension) &&
                ((maxDimension <? width resolution) ||
                 (maxDimension <? height resolution)) = true ↔ exceeds).
  { subst exceeds. by rewrite andb_true_iff, orb_true_iff, !Z.ltb_lt. }
  subst r. unfold lookup_display, allocateVirtualDisplay. unfold_op.
  destruct (isValid resolution) eqn:Hv; cbn.
  2:{ repeat split; try done; intros; destruct_and?; done. }
  destruct (Hcast eq_refl) as [-> ->]. fold maxDimension.
  destruct ((0 <? maxDimension) &&
            ((maxDimension <? width resolution) ||
             (maxDimension <? height resolution))) eqn:Hb; cbn.
  { assert exceeds by (by apply Hex).
    repeat split; try done; intros; destruct_and?; done. }
  assert (¬ exceeds) as Hne by (by intros ?%Hex).
  fold reply. destruct reply as [error hwcDisplayId] eqn:Hreply. cbn.
  case_error error.
  - split; [by intros [|]|]. split; [done|]. split; [|done].
    intros _ _ _. split; [done|]. split; [done|].
    eexists. by rewrite lookup_insert_eq.
  - split; [by intros [|]|]. split; [done|]. split; [done|].
    split; [done|]. by intros (_ & _ & ?).
Qed.

(** C2: after [disconnectDisplay] the identity is unknown to the registry,
    and the handle of the record that was there is mapped to nothing; after
    a bare [onHotplugDisconnect] for a handle mapped to a registered identity,
    the lookup still finds the record, unchanged but for its connected flag,
    which is false; the handle map and every other record are as before. *)
Theorem disconnectDisplay_erases_onHotplugDisconnect_keeps
    (this : HWComposer) (displayId : DisplayId) :
  let destroyed := after (run (disconnectDisplay displayId) this) in
  lookup_display destroyed displayId = None ∧
  ∀ displayData,
    lookup_display this displayId = Some displayData →
    toPhysicalDisplayId destroyed (getId (hwcDisplay displayData)) = None ∧
    ∀ hwcDisplayId,
      toPhysicalDisplayId this hwcDisplayId = Some displayId →
      let r := run (onHotplugDisconnect hwcDisplayId) this in
      lookup_display (after r) displayId =
        Some (set_hwcDisplay (setConnected false (hwcDisplay displayData))
                displayData) ∧
      isConnected (after r) displayId = false ∧
      mPhysicalDisplayIdMap (after r) = mPhysicalDisplayIdMap this ∧
      (∀ other, other ≠ displayId →
         lookup_display (after r) other = lookup_display this other) ∧
      result r = Some {| id := displayId; name := ""; deviceProductInfo := None |}.
Proof.
  intros destroyed. unfold lookup_display in *. subst destroyed.
  unfold toPhysicalDisplayId, disconnectDisplay, onHotplugDisconnect. unfold_op.
  split.
  { destruct (mDisplayData this !! displayId) eqn:Hd; cbn; [|done].
    repeat case_bool_decide; cbn; apply lookup_delete_eq. }
  intros displayData Hd. rewrite Hd. cbn. split.
  - repeat case_bool_decide; cbn; apply lookup_delete_eq.
  - intros hwcDisplayId Hh. unfold toPhysicalDisplayId. rewrite Hh.
    unfold isConnected. rewrite Hd. cbn.
    destruct (isConnected_ (hwcDisplay displayData)) eqn:Hc; cbn.
    + rewrite lookup_alter_eq, Hd. cbn. repeat split; try done.
      intros other Hne. by rewrite lookup_alter_ne.
    + rewrite Hd, Hc. repeat split; try done.
      destruct displayData as [? [] ? ? ? ? ? ? ?]. cbn in *. by subst.
Qed.

(** ** Vsync filter *)

Lemma onVsync_duplicate LOG_NDEBUG this hwcDisplayId displayId displayData :
  physicalDisplay this hwcDisplayId displayId displayData →
  run (onVsync LOG_NDEBUG hwcDisplayId (lastHwVsync displayData)) this
    = (Some false, this, []).
Proof.
  intros (Hh & Hd & Hv). unfold lookup_display, toPhysicalDisplayId in *.
  unfold onVsync, toPhysicalDisplayId. unfold_op. rewrite Hh, Hd. cbn. rewrite Hv.
  rewrite andb_false_r. cbn. by rewrite Z.eqb_refl.
Qed.

Lemma onVsync_fresh LOG_NDEBUG this hwcDisplayId displayId displayData timestamp :
  physicalDisplay this hwcDisplayId displayId displayData →
  timestamp ≠ lastHwVsync displayData →
  let r := run (onVsync LOG_NDEBUG hwcDisplayId timestamp) this in
  result r = Some true ∧
  events r = [ATRACE_INT displayId (vsyncTraceToggle displayData)] ∧
  physicalDisplay (after r) hwcDisplayId displayId (acceptVsync timestamp displayData).
Proof.
  intros (Hh & Hd & Hv) Hne.
  unfold physicalDisplay, lookup_display, toPhysicalDisplayId in *.
  unfold onVsync, toPhysicalDisplayId. unfold_op. rewrite Hh, Hd. cbn. rewrite Hv.
  rewrite andb_false_r. cbn.
  destruct (Z.eqb_spec timestamp (lastHwVsync displayData)) as [?|_]; [done|].
  cbn. by rewrite !lookup_alter_eq, Hd.
Qed.

(** Over a whole run of callbacks: an accepted timestamp differs from the one
    accepted before it, and the accepted ones increase strictly when the
    device delivers timestamps that never decrease. *)
Lemma deliverVsyncs_accepted LOG_NDEBUG hwcDisplayId displayId timestamps :
  ∀ this displayData,
    physicalDisplay this hwcDisplayId displayId displayData →
    Sorted (λ a b, a ≠ b)
      (lastHwVsync displayData ::
         (deliverVsyncs LOG_NDEBUG hwcDisplayId timestamps this).1) ∧
    (Sorted Z.le (lastHwVsync displayData :: timestamps) →
     Sorted Z.lt
       (lastHwVsync displayData ::
          (deliverVsyncs LOG_NDEBUG hwcDisplayId timestamps this).1)).
Proof.
  induction timestamps as [|t rest IH]; intros this displayData Hphys; cbn.
  { split; [|intros _]; repeat constructor. }
  destruct (decide (t = lastHwVsync displayData)) as [->|Hne].
  - rewrite (onVsync_duplicate LOG_NDEBUG _ _ _ _ Hphys). cbn.
    destruct (deliverVsyncs LOG_NDEBUG hwcDisplayId rest this)
      as [accepted final] eqn:Hrest.
    rewrite bool_decide_eq_false_2 by done. cbn.
    specialize (IH this displayData Hphys). rewrite Hrest in IH. cbn in IH.
    destruct IH as [IH1 IH2]. split; [done|].
    intros Hs. apply IH2. by apply Sorted_inv in Hs as [Hs _].
  - destruct (onVsync_fresh LOG_NDEBUG _ _ _ _ t Hphys Hne) as (Hr & _ & Hphys').
    unfold result, after in *.
    destruct (run (onVsync LOG_NDEBUG hwcDisplayId t) this) as [[r this'] log].
    cbn in *. subst r.
    destruct (deliverVsyncs LOG_NDEBUG hwcDisplayId rest this')
      as [accepted final] eqn:Hrest.
    rewrite bool_decide_eq_true_2 by done. cbn.
    specialize (IH this' _ Hphys'). rewrite Hrest in IH. cbn in IH.
    destruct IH as [IH1 IH2]. split.
    + constructor; [done|]. constructor. congruence.
    + intros Hs. apply Sorted_inv in Hs as [Hs Hhd]. apply HdRel_inv in Hhd.
      constructor; [by apply IH2|]. constructor. lia.
Qed.

(** C4 (amended): for a physical display, in a build with or without
    [LOG_NDEBUG], [onVsync] with the timestamp last
    seen reports failure with nothing stored and no trace marker; with any
    other timestamp, smaller ones included, it reports success, stores the
    timestamp and flips the marker once.  So an accepted timestamp always
    differs from the one accepted before it, two identical timestamps in a row
    yield one forwarded event, and the accepted timestamps increase strictly
    provided the device delivers timestamps that never decrease. *)
Theorem onVsync_filters_duplicates
    (LOG_NDEBUG : bool) (this : HWComposer) (hwcDisplayId : HWDisplayId)
    (displayId : DisplayId) (displayData : DisplayData) :
  physicalDisplay this hwcDisplayId displayId displayData →
  run (onVsync LOG_NDEBUG hwcDisplayId (lastHwVsync displayData)) this
    = (Some false, this, []) ∧
  (∀ timestamp, timestamp ≠ lastHwVsync displayData →
     let r := run (onVsync LOG_NDEBUG hwcDisplayId timestamp) this in
     result r = Some true ∧
     events r = [ATRACE_INT displayId (vsyncTraceToggle displayData)] ∧
     lookup_display (after r) displayId = Some (acceptVsync timestamp displayData) ∧
     (deliverVsyncs LOG_NDEBUG hwcDisplayId [timestamp; timestamp] this).1
       = [timestamp]) ∧
  (∀ timestamps,
     let accepted := (deliverVsyncs LOG_NDEBUG hwcDisplayId timestamps this).1 in
     Sorted (λ a b, a ≠ b) (lastHwVsync displayData :: accepted) ∧
     (Sorted Z.le (lastHwVsync displayData :: timestamps) →
      Sorted Z.lt (lastHwVsync displayData :: accepted))).
Proof.
  intros Hphys. split; [by eapply onVsync_duplicate|]. split.
  - intros t Hne r.
    destruct (onVsync_fresh LOG_NDEBUG _ _ _ _ t Hphys Hne) as (Hr & Hev & Hphys').
    fold r in Hr, Hev, Hphys'.
    split; [done|]. split; [done|]. split; [apply Hphys'|].
    cbn. fold r. rewrite Hr.
    pose proof (onVsync_duplicate LOG_NDEBUG _ _ _ _ Hphys') as Hdup. cbn in Hdup.
    rewrite Hdup. cbn.
    by rewrite bool_decide_eq_true_2, bool_decide_eq_false_2.
  - intros timestamps. by apply (deliverVsyncs_accepted _ _ displayId).
Qed.

(** ** Hotplug resolver *)

Section HotplugProperties.

Variable parseDisplayIdentificationData :
  Z → list Z → option DisplayIdentificationInfo.
Variable fromPort : Z → DisplayId.
Variable LEGACY_DISPLAY_TYPE_PRIMARY : Z.
Variable LEGACY_DISPLAY_TYPE_EXTERNAL : Z.

(** C3 (amended): a hotplug connection observed while the handle map is
    empty, as it is at the very first one, selects the mode: generalized when
    identification data is present, legacy when absent; a connection observed
    while the map is not empty, a bare disconnect and [disconnectDisplay]
    leave the mode as it is.
    In legacy mode, with primary and secondary both tracked, the connection
    of a handle that is not mapped is ignored (no identity, the object
    unchanged, the device asked for identification data only), provided the
    map is not empty or the connection carries no identification data. *)
Theorem hotplug_mode_selection
    (dev : Composer) (this : HWComposer) (hwcDisplayId : HWDisplayId) :
  let hasDisplayIdentificationData :=
    bool_decide ((dev_getDisplayIdentificationData dev hwcDisplayId).1.1 = NONE) in
  let r :=
    run (onHotplugConnect parseDisplayIdentificationData fromPort
           LEGACY_DISPLAY_TYPE_PRIMARY LEGACY_DISPLAY_TYPE_EXTERNAL dev hwcDisplayId)
      this in
  (mPhysicalDisplayIdMap this = ∅ →
     mHasMultiDisplaySupport (after r) = hasDisplayIdentificationData) ∧
  (mPhysicalDisplayIdMap this ≠ ∅ →
     mHasMultiDisplaySupport (after r) = mHasMultiDisplaySupport this) ∧
  (toPhysicalDisplayId this hwcDisplayId = None →
   mHasMultiDisplaySupport this = false →
   is_Some (mInternalHwcDisplayId this) →
   is_Some (mExternalHwcDisplayId this) →
   mPhysicalDisplayIdMap this ≠ ∅ ∨ hasDisplayIdentificationData = false →
     result r = None ∧ after r = this ∧
     events r = [GetDisplayIdentificationData hwcDisplayId]) ∧
  (∀ displayId,
     mHasMultiDisplaySupport (after (run (onHotplugDisconnect hwcDisplayId) this)) =
       mHasMultiDisplaySupport this ∧
     mHasMultiDisplaySupport (after (run (disconnectDisplay displayId) this)) =
       mHasMultiDisplaySupport this).
Proof.
  intros hasData r. subst r.
  unfold onHotplugConnect, getDisplayIdentificationData,
    toPhysicalDisplayId, shouldIgnoreHotplugConnect, allocatePhysicalDisplay,
    isConnected.
  unfold_op.
  destruct (dev_getDisplayIdentificationData dev hwcDisplayId)
    as [[error port] data] eqn:Hdev.
  cbn in hasData.
  split; [|split; [|split]].
  - intros Hempty. rewrite Hempty, lookup_empty. cbn.
    rewrite (bool_decide_eq_true_2 (∅ = ∅)) by done.
    subst hasData. case_error error; cbn; all_paths.
  - intros Hne. rewrite (bool_decide_eq_false_2 _ Hne). all_paths.
  - intros -> Hmode [internal Hint] [external Hext] Hor. cbn. subst hasData.
    case_error error; cbn.
    + destruct Hor as [Hne|Hf]; [|by rewrite bool_decide_eq_true_2 in Hf].
      rewrite (bool_decide_eq_false_2 _ Hne). cbn.
      by rewrite Hmode, Hint, Hext.
    + clear Hor.
      destruct (decide (mPhysicalDisplayIdMap this = ∅)) as [Hempty|Hne];
        [rewrite (bool_decide_eq_true_2 _ Hempty)
        |rewrite (bool_decide_eq_false_2 _ Hne)];
        unfold set_mHasMultiDisplaySupport; cbn;
        rewrite ?Hmode, Hint, Hext; cbn; [|done].
      destruct this; cbn in *; by subst.
  - intros displayId.
    unfold onHotplugDisconnect, disconnectDisplay, toPhysicalDisplayId, isConnected.
    unfold_op. cbn. split; all_paths.
Qed.

End HotplugProperties.

(** * The properties at the sample objects *)

(** ** Instances *)

Lemma getLayerReleaseFence_witness :
  lookup_display (sampleHWComposer true false) 1
    = Some (sampleDisplayData true false) ∧
  releaseFences (sampleDisplayData true false) !! 300 = None ∧
  getLayerReleaseFence (sampleHWComposer true false) 1 300 = NO_FENCE.
Proof.
  split; [reflexivity|]. split; [reflexivity|].
  exact (proj1 (getLayerReleaseFence_untracked_is_NO_FENCE
                  (sampleHWComposer true false) 1 (sampleDisplayData true false) 300
                  eq_refl) eq_refl).
Defined.

Lemma setClientTarget_witness :
  validateWasSkipped (sampleDisplayData true true) = true ∧
  run (setClientTarget (sampleComposer 0 None 0 0 0) 1 0 (FenceFd 16) 5 0)
      (sampleHWComposer true true)
    = (NO_ERROR, sampleHWComposer true true, []).
Proof.
  split; [reflexivity|].
  apply (setClientTarget_skipped_is_noop (sampleComposer 0 None 0 0 0)
           (sampleHWComposer true true) 1 (sampleDisplayData true true));
    reflexivity.
Defined.

Lemma getDeviceCompositionChanges_disconnected_witness :
  isConnected_ (hwcDisplay (sampleDisplayData false false)) = false ∧
  run (getDeviceCompositionChanges sample_hasChangesError
         (sampleComposer 0 (Some 0) 0 0 0) 1) (sampleHWComposer false false)
    = ((NO_ERROR, None), sampleHWComposer false false, []).
Proof.
  split; [reflexivity|].
  apply (getDeviceCompositionChanges_disconnected_is_noop sample_hasChangesError
           (sampleComposer 0 (Some 0) 0 0 0) (sampleHWComposer false false) 1
           (sampleDisplayData false false));
    reflexivity.
Defined.

Lemma committed_no_changes_witness :
  followsCommitProtocol (dev_presentOrValidate (sampleComposer 0 (Some 1) 0 0 0) 7) ∧
  PresentOrValidate 7 ∈
    events (run (getDeviceCompositionChanges sample_hasChangesError
                   (sampleComposer 0 (Some 1) 0 0 0) 1) (sampleHWComposer true false)) ∧
  result (run (getDeviceCompositionChanges sample_hasChangesError
                 (sampleComposer 0 (Some 1) 0 0 0) 1) (sampleHWComposer true false))
    = (NO_ERROR, None).
Proof.
  assert (Hprotocol : followsCommitProtocol
                        (dev_presentOrValidate (sampleComposer 0 (Some 1) 0 0 0) 7)).
  { intros state _ _. reflexivity. }
  assert (Hcalled : PresentOrValidate 7 ∈
            events (run (getDeviceCompositionChanges sample_hasChangesError
                           (sampleComposer 0 (Some 1) 0 0 0) 1)
                      (sampleHWComposer true false))).
  { vm_compute. apply list_elem_of_here. }
  split; [exact Hprotocol|]. split; [exact Hcalled|].
  exact (proj1 (committed_no_changes_skips_present sample_hasChangesError
                  (sampleComposer 0 (Some 1) 0 0 0) (sampleHWComposer true false) 1
                  (sampleDisplayData true false) eq_refl Hprotocol Hcalled eq_refl)).
Defined.

Lemma acceptChanges_witness :
  isConnected_ (hwcDisplay (sampleDisplayData true false)) = true ∧
  acceptCalls
    (events (run (getDeviceCompositionChanges sample_hasChangesError
                    (sampleComposer 0 (Some 0) 0 0 0) 1)
               (sampleHWComposer true false))) = 1%nat.
Proof.
  split; [reflexivity|].
  destruct (acceptChanges_iff_produced_and_not_committed sample_hasChangesError
              (sampleComposer 0 (Some 0) 0 0 0) (sampleHWComposer true false) 1
              (sampleDisplayData true false) eq_refl eq_refl)
    as (_ & Hcalled & Hproduced & _).
  apply Hcalled. split; [by apply Hproduced|]. by cbn.
Defined.

Lemma presentAndGetReleaseFences_witness :
  validateWasSkipped (sampleDisplayData true false) = false ∧
  result (run (presentAndGetReleaseFences (sampleComposer 0 None 0 0 0) 1 1000
                 {| getSignalTime := 900 |}) (sampleHWComposer true false))
    = NO_ERROR.
Proof.
  split; [reflexivity|].
  destruct (presentAndGetReleaseFences_not_skipped (sampleComposer 0 None 0 0 0)
              (sampleHWComposer true false) 1 (sampleDisplayData true false) 1000
              {| getSignalTime := 900 |} eq_refl eq_refl) as (_ & _ & _ & _ & H).
  exact H.
Defined.

Lemma allocateVirtualDisplay_witness :
  is_int32 1920 ∧ is_int32 1080 ∧
  result (run (allocateVirtualDisplay (sampleComposer 0 None 0 0 0) 2
                 {| width := 1920; height := 1080 |} 1 None)
            (sampleHWComposer true false)) = true.
Proof.
  assert (H1 : is_int32 1920) by (unfold is_int32; lia).
  assert (H2 : is_int32 1080) by (unfold is_int32; lia).
  split; [exact H1|]. split; [exact H2|].
  destruct (allocateVirtualDisplay_checks (sampleComposer 0 None 0 0 0)
              (sampleHWComposer true false) 2 {| width := 1920; height := 1080 |} 1
              None H1 H2) as (_ & _ & _ & Hiff).
  apply Hiff. split; [reflexivity|]. split; [|reflexivity].
  cbn. lia.
Defined.

Lemma disconnectDisplay_onHotplugDisconnect_witness :
  toPhysicalDisplayId (sampleHWComposer true false) 7 = Some 1 ∧
  lookup_display (after (run (disconnectDisplay 1) (sampleHWComposer true false))) 1
    = None ∧
  isConnected (after (run (onHotplugDisconnect 7) (sampleHWComposer true false))) 1
    = false.
Proof.
  split; [reflexivity|].
  destruct (disconnectDisplay_erases_onHotplugDisconnect_keeps
              (sampleHWComposer true false) 1) as [Hgone Hkept].
  split; [exact Hgone|].
  destruct (Hkept (sampleDisplayData true false) eq_refl) as [_ Hbare].
  destruct (Hbare 7 eq_refl) as (_ & Hflag & _).
  exact Hflag.
Defined.

Lemma onVsync_witness :
  physicalDisplay (sampleHWComposer true false) 7 1 (sampleDisplayData true false) ∧
  run (onVsync true 7 0) (sampleHWComposer true false)
    = (Some false, sampleHWComposer true false, []).
Proof.
  assert (H : physicalDisplay (sampleHWComposer true false) 7 1
                (sampleDisplayData true false)).
  { split; [reflexivity|]. split; reflexivity. }
  split; [exact H|].
  exact (proj1 (onVsync_filters_duplicates true (sampleHWComposer true false) 7 1
                  (sampleDisplayData true false) H)).
Defined.

Lemma hotplug_mode_selection_witness :
  result (run (onHotplugConnect sample_parse sample_fromPort
                 sample_LEGACY_DISPLAY_TYPE_PRIMARY sample_LEGACY_DISPLAY_TYPE_EXTERNAL
                 (sampleComposer 0 None 0 0 8) 9)
            (set_mExternalHwcDisplayId (Some 8) (sampleHWComposer true false)))
    = None.
Proof.
  destruct (hotplug_mode_selection sample_parse sample_fromPort
              sample_LEGACY_DISPLAY_TYPE_PRIMARY sample_LEGACY_DISPLAY_TYPE_EXTERNAL
              (sampleComposer 0 None 0 0 8)
              (set_mExternalHwcDisplayId (Some 8) (sampleHWComposer true false)) 9)
    as (_ & _ & Hignored & _).
  apply Hignored.
  - reflexivity.
  - reflexivity.
  - exists 7. reflexivity.
  - exists 8. reflexivity.
  - right. reflexivity.
Defined.

(** ** Where the claims, read to the letter, fail *)

(** C3 as stated: legacy mode, selected by a first connection without
    identification data, is left again when the display has been destroyed
    and the next connection carries identification data. *)
Lemma hotplug_mode_counterexample :
  mHasMultiDisplaySupport
    (after (run (onHotplugConnect sample_parse sample_fromPort
                   sample_LEGACY_DISPLAY_TYPE_PRIMARY
                   sample_LEGACY_DISPLAY_TYPE_EXTERNAL
                   (sampleComposer 0 None 0 0 8) 40) emptyHWComposer)) = false ∧
  mHasMultiDisplaySupport
    (after (run (onHotplugConnect sample_parse sample_fromPort
                   sample_LEGACY_DISPLAY_TYPE_PRIMARY
                   sample_LEGACY_DISPLAY_TYPE_EXTERNAL
                   (sampleComposer 0 None 0 0 0) 41)
              (after (run (disconnectDisplay 0)
                 (after (run (onHotplugConnect sample_parse sample_fromPort
                                sample_LEGACY_DISPLAY_TYPE_PRIMARY
                                sample_LEGACY_DISPLAY_TYPE_EXTERNAL
                                (sampleComposer 0 None 0 0 8) 40)
                           emptyHWComposer)))))) = true.
Proof. split; reflexivity. Qed.

(** C4 as stated: a timestamp smaller than the last one is accepted, so the
    accepted timestamps 10, 5 do not increase; the build makes no
    difference. *)
Lemma onVsync_counterexample :
  physicalDisplay (sampleHWComposer true false) 7 1 (sampleDisplayData true false) ∧
  (deliverVsyncs true 7 [10; 5] (sampleHWComposer true false)).1 = [10; 5] ∧
  (deliverVsyncs false 7 [10; 5] (sampleHWComposer true false)).1 = [10; 5] ∧
  ¬ Sorted Z.lt [10; 5].
Proof.
  split; [by repeat split|]. split; [reflexivity|]. split; [reflexivity|].
  intros H. apply Sorted_inv in H as [_ H]. apply HdRel_inv in H. lia.
Qed.

(** C6 as stated: the fast path only validates (state 0), the slow path is
    entered, the query for the changed composition types fails, and
    accept-changes is not called although the state is not 2. *)
Lemma acceptChanges_counterexample :
  default UINT32_MAX
    (pov_state (dev_presentOrValidate (sampleComposer 0 (Some 0) 0 2 0) 7)) = 0 ∧
  events (run (getDeviceCompositionChanges sample_hasChangesError
                 (sampleComposer 0 (Some 0) 0 2 0) 1) (sampleHWComposer true false))
    = [PresentOrValidate 7; GetChangedCompositionTypes 7] ∧
  acceptCalls
    (events (run (getDeviceCompositionChanges sample_hasChangesError
                    (sampleComposer 0 (Some 0) 0 2 0) 1)
               (sampleHWComposer true false))) = 0%nat.
Proof. repeat split; reflexivity. Qed.

(** C8 as stated: present succeeds, the release-fence query fails, and the
    stored map is still the one of the frame before, not what the device
    handed over. *)
Lemma presentAndGetReleaseFences_counterexample :
  (dev_present (sampleComposer 0 None 2 0 0) 7).1 = NONE ∧
  (dev_getReleaseFences (sampleComposer 0 None 2 0 0) 7).2 !! 100 = None ∧
  (storedReleaseFences
     (after (run (presentAndGetReleaseFences (sampleComposer 0 None 2 0 0) 1 1000
                    {| getSignalTime := 900 |}) (sampleHWComposer true false))) 1
     ≫= lookup 100) = Some (FenceFd 12) ∧
  result (run (presentAndGetReleaseFences (sampleComposer 0 None 2 0 0) 1 1000
                 {| getSignalTime := 900 |}) (sampleHWComposer true false))
    = UNKNOWN_ERROR.
Proof. repeat split; reflexivity. Qed.

(** * Further properties

    What the code shows beyond the properties above: the member functions
    those leave out, and how the member functions work together. *)

(** ** Frame reasoning

    [stable rel op] is kept by every building block of a member function, so
    a frame property of a whole function follows its source text. *)
Global Instance sameDisplayIdentity_refl : Reflexive sameDisplayIdentity.
Proof. by intros d. Qed.

Global Instance sameDisplayIdentity_trans : Transitive sameDisplayIdentity.
Proof.
  intros d1 d2 d3 (?&?&?&?&?) (?&?&?&?&?).
  unfold sameDisplayIdentity. by repeat split; etrans.
Qed.

Global Instance untouchedOutside_refl displayId : Reflexive (untouchedOutside displayId).
Proof.
  intros this. repeat split; try done.
Qed.

Global Instance untouchedOutside_trans displayId : Transitive (untouchedOutside displayId).
Proof.
  intros s1 s2 s3 (?&?&?&?&?&?&H12&F12) (?&?&?&?&?&?&H23&F23).
  repeat split; try congruence.
  - intros other Hne. by rewrite H23, H12.
  - destruct F12; inversion F23; simplify_eq; constructor. by etrans.
Qed.

Section Stable.
Context {R : Type} (rel : relation HWComposer) `{!Reflexive rel} `{!Transitive rel}.

Lemma stable_ret {A} (a : A) : stable rel (mret a : Op R A).
Proof. intros this log. apply reflexivity. Qed.

Lemma stable_Return {A} (r : R) : stable rel (Return_ r : Op R A).
Proof. intros this log. apply reflexivity. Qed.

Lemma stable_get : stable rel (get_this : Op R HWComposer).
Proof. intros this log. apply reflexivity. Qed.

Lemma stable_call {A} (e : Event) (a : A) : stable rel (call e a : Op R A).
Proof. intros this log. apply reflexivity. Qed.

Lemma stable_invalid_display displayId (r : R) :
  stable rel (RETURN_IF_INVALID_DISPLAY displayId r).
Proof.
  intros this log. unfold RETURN_IF_INVALID_DISPLAY.
  destruct (mDisplayData this !! displayId); apply reflexivity.
Qed.

Lemma stable_hwc_error error (r : R) : stable rel (RETURN_IF_HWC_ERROR_FOR error r).
Proof.
  intros this log. unfold RETURN_IF_HWC_ERROR_FOR.
  case_bool_decide; apply reflexivity.
Qed.

Lemma stable_modify (f : HWComposer → HWComposer) :
  (∀ this, rel this (f this)) → stable rel (modify_this f : Op R ()).
Proof. intros Hf this log. apply Hf. Qed.

Lemma stable_bind {A B} (m : Op R A) (k : A → Op R B) :
  stable rel m → (∀ a, stable rel (k a)) → stable rel (m ≫= k).
Proof.
  intros Hm Hk this log. unfold mbind, Op_bind, op_bind.
  specialize (Hm this log).
  destruct (m this log) as [[[r|a] this'] log']; cbn in *; [done|].
  etrans; [done|]. apply Hk.
Qed.

Lemma stable_run (op : Op R R) this : stable rel op → rel this (after (run op this)).
Proof.
  intros Hop. specialize (Hop this []). unfold after, run.
  by destruct (op this []) as [[[r|a] this'] log'].
Qed.

End Stable.

Lemma stable_modifyDisplayData {R} displayId (f : DisplayData → DisplayData) :
  (∀ d, sameDisplayIdentity d (f d)) →
  stable (untouchedOutside displayId) (modifyDisplayData displayId f : Op R ()).
Proof.
  intros Hf. apply stable_modify. intros this. repeat split; try done; cbn.
  - intros other Hne. by rewrite lookup_alter_ne.
  - rewrite lookup_alter_eq.
    destruct (mDisplayData this !! displayId); constructor. apply Hf.
Qed.

(** One step along the source text of a member function. *)
Ltac stable_step :=
  lazymatch goal with
  | |- Reflexive _ => apply _
  | |- Transitive _ => apply _
  | |- stable _ (if ?b then _ else _) => destruct b
  | |- stable _ (match ?x with _ => _ end) => destruct x
  | |- stable _ (_ ≫= _) => apply stable_bind; [| |intros ?]
  | |- stable _ (modifyDisplayData _ _) => apply stable_modifyDisplayData; by intros []
  | |- stable _ _ =>
      first [ apply stable_ret | apply stable_Return | apply stable_get
            | apply stable_call | apply stable_invalid_display
            | apply stable_hwc_error ]
  end.

Ltac stable_op := cbv zeta; repeat stable_step.

(** ** Fence tracker and composition negotiator *)

(** The end of a path of [getDeviceCompositionChanges]: the stored record is
    read back and compared. *)
Ltac stored_record :=
  cbn; repeat (case_bool_decide; cbn);
  match goal with
  | H : mDisplayData _ !! _ = Some _ |- _ => rewrite ?lookup_alter_eq, ?H
  end;
  rewrite ?(proj2 (Z.eqb_neq _ _)) by done;
  cbn; rewrite ?andb_false_r; first [done | congruence].

Section FurtherNegotiatorProperties.

Variable hasChangesError : Error → bool.

(** X1: a display id that is not registered is turned away before the device
    is asked.  [getDeviceCompositionChanges], [presentAndGetReleaseFences] and
    [setClientTarget] return [BAD_INDEX], [clearReleaseFences] and
    [disconnectDisplay] just return, all with the object as it was and an
    empty log; the two fence getters answer [NO_FENCE], [isConnected] answers
    false and both conversions to a device handle answer nothing. *)
Theorem invalid_display_is_rejected_without_device_call
    (dev : Composer) (this : HWComposer) (displayId : DisplayId)
    (earliestPresentTime slot target dataspace : Z)
    (previousPresentFence : FenceTime) (acquireFence : Fence) (layer : LayerPtr) :
  lookup_display this displayId = None →
  run (getDeviceCompositionChanges hasChangesError dev displayId) this
    = ((BAD_INDEX, None), this, []) ∧
  run (presentAndGetReleaseFences dev displayId earliestPresentTime
         previousPresentFence) this = (BAD_INDEX, this, []) ∧
  run (setClientTarget dev displayId slot acquireFence target dataspace) this
    = (BAD_INDEX, this, []) ∧
  run (clearReleaseFences displayId) this = ((), this, []) ∧
  run (disconnectDisplay displayId) this = ((), this, []) ∧
  getLayerReleaseFence this displayId layer = NO_FENCE ∧
  getPresentFence this displayId = NO_FENCE ∧
  isConnected this displayId = false ∧
  fromPhysicalDisplayId this displayId = None ∧
  fromVirtualDisplayId this displayId = None.
Proof.
  unfold lookup_display. intros Hd.
  unfold getDeviceCompositionChanges, presentAndGetReleaseFences, setClientTarget,
    clearReleaseFences, disconnectDisplay, getLayerReleaseFence, getPresentFence,
    isConnected, fromPhysicalDisplayId, fromVirtualDisplayId.
  unfold_op. by rewrite Hd.
Qed.

(** X3: the frame of the per-display functions.  Whatever the device
    replies, [getDeviceCompositionChanges], [presentAndGetReleaseFences] and
    [clearReleaseFences] leave the handle map, both tracked roles, the mode and
    the two configuration values as they were, touch no record but that of
    their display, add or remove no record, and keep that record's display
    object, virtual flag and vsync state; [setClientTarget] changes nothing
    at all. *)
Theorem per_display_functions_keep_the_registry
    (dev : Composer) (this : HWComposer) (displayId : DisplayId)
    (earliestPresentTime : Z) (previousPresentFence : FenceTime)
    (slot target dataspace : Z) (acquireFence : Fence) :
  untouchedOutside displayId this
    (after (run (getDeviceCompositionChanges hasChangesError dev displayId) this)) ∧
  untouchedOutside displayId this
    (after (run (presentAndGetReleaseFences dev displayId earliestPresentTime
                   previousPresentFence) this)) ∧
  untouchedOutside displayId this (after (run (clearReleaseFences displayId) this)) ∧
  after (run (setClientTarget dev displayId slot acquireFence target dataspace) this)
    = this.
Proof.
  split; [|split; [|split]].
  - apply (stable_run (untouchedOutside displayId)).
    unfold getDeviceCompositionChanges, canSkipValidate. stable_op.
  - apply (stable_run (untouchedOutside displayId)).
    unfold presentAndGetReleaseFences. stable_op.
  - apply (stable_run (untouchedOutside displayId)).
    unfold clearReleaseFences. stable_op.
  - symmetry. apply (stable_run eq). unfold setClientTarget. stable_op.
Qed.

(** X5: what the fast path of [getDeviceCompositionChanges] stores.  For a
    connected display the record afterwards is the old one with the flag
    cleared, unless the fast-path call was let through and reported state 1
    or 2: then the flag is set, the present fence is the one the device wrote
    (a null fence if it wrote none), and the release fences and the present
    error are those of the release-fence query, kept whether that query
    succeeded or not.  [getPresentFence] and [getLayerReleaseFence] read these
    values back. *)
Theorem fast_path_capture
    (dev : Composer) (this : HWComposer) (displayId : DisplayId)
    (displayData : DisplayData) :
  let hwcDisplayId := getId (hwcDisplay displayData) in
  let reply := dev_presentOrValidate dev hwcDisplayId in
  let state := default UINT32_MAX (pov_state reply) in
  let committed :=
    passesChangesCheck hasChangesError (pov_error reply) &&
    ((state =? 1) || (state =? 2)) in
  let that := after (run (getDeviceCompositionChanges hasChangesError dev displayId) this) in
  lookup_display this displayId = Some displayData →
  isConnected_ (hwcDisplay displayData) = true →
  lookup_display that displayId =
    Some (if committed then
            set_presentError (dev_getReleaseFences dev hwcDisplayId).1
              (set_validateWasSkipped true
                 (set_lastPresentFence (default NullFence (pov_presentFence reply))
                    (set_releaseFences (dev_getReleaseFences dev hwcDisplayId).2
                       displayData)))
          else set_validateWasSkipped false displayData) ∧
  (committed = true →
     getPresentFence that displayId = default NullFence (pov_presentFence reply) ∧
     ∀ layer, getLayerReleaseFence that displayId layer =
                default NO_FENCE ((dev_getReleaseFences dev hwcDisplayId).2 !! layer)) ∧
  (committed = false →
     getPresentFence that displayId = getPresentFence this displayId ∧
     ∀ layer, getLayerReleaseFence that displayId layer =
                getLayerReleaseFence this displayId layer).
Proof.
  intros hwcDisplayId reply state committed that Hd Hc. unfold lookup_display in *.
  assert (Hthat : mDisplayData that !! displayId =
    Some (if committed then
            set_presentError (dev_getReleaseFences dev hwcDisplayId).1
              (set_validateWasSkipped true
                 (set_lastPresentFence (default NullFence (pov_presentFence reply))
                    (set_releaseFences (dev_getReleaseFences dev hwcDisplayId).2
                       displayData)))
          else set_validateWasSkipped false displayData)).
  { subst that committed. unfold passesChangesCheck, getDeviceCompositionChanges, canSkipValidate.
    unfold_op. rewrite Hd. cbn. rewrite Hc. cbn. fold hwcDisplayId reply state.
    destruct (dev_getReleaseFences dev hwcDisplayId) as [eR rf].
    destruct (dev_getChangedCompositionTypes dev hwcDisplayId) as [eC ct].
    destruct (dev_getRequests dev hwcDisplayId) as [[eQ dr] lr].
    destruct (dev_getClientTargetProperty dev hwcDisplayId) as [eP cp].
    generalize (dev_acceptChanges dev hwcDisplayId); intros eA.
    generalize (pov_error reply); intros e0. clearbody state.
    destruct (hasChangesError e0) eqn:Hh0; cbn;
      [|case_error e0; [|stored_record]];
      (destruct (Z.eqb_spec state 1) as [->|H1]; cbn;
         [stored_record|]);
      (destruct (Z.eqb_spec state 2) as [->|H2]; cbn;
         [destruct (hasChangesError eR) eqn:HhR; cbn;
            [|case_error eR; [|stored_record]]
         |rewrite ?Hh0; cbn; try case_error NONE]).
    all: (case_error eC; [|stored_record]);
      (case_error eQ; [|stored_record]);
      rewrite ?(proj2 (Z.eqb_neq state 2)) by done; cbn;
      try case_error eA; stored_record. }
  split; [done|]. unfold getPresentFence, getLayerReleaseFence. rewrite Hthat, Hd.
  split; intros ->; cbn; split; try done.
Qed.

End FurtherNegotiatorProperties.

(** X2: when validation was not skipped, [setClientTarget] hands exactly one
    call to the device, for the handle of the record and with its own
    arguments, stores nothing, and returns [NO_ERROR] exactly when the device
    succeeds and [BAD_VALUE] exactly when it does not. *)
Theorem setClientTarget_forwards_once
    (dev : Composer) (this : HWComposer) (displayId : DisplayId)
    (displayData : DisplayData) (slot target dataspace : Z) (acquireFence : Fence) :
  let hwcDisplayId := getId (hwcDisplay displayData) in
  let r := run (setClientTarget dev displayId slot acquireFence target dataspace) this in
  lookup_display this displayId = Some displayData →
  validateWasSkipped displayData = false →
  events r = [SetClientTarget hwcDisplayId slot target acquireFence dataspace] ∧
  after r = this ∧
  (result r = NO_ERROR ↔
     dev_setClientTarget dev hwcDisplayId slot target acquireFence dataspace = NONE) ∧
  (result r = BAD_VALUE ↔
     dev_setClientTarget dev hwcDisplayId slot target acquireFence dataspace ≠ NONE).
Proof.
  intros hwcDisplayId r Hd Hs. subst r. unfold lookup_display in Hd.
  unfold setClientTarget. unfold_op. rewrite Hd. cbn. rewrite Hs. cbn.
  fold hwcDisplayId.
  case_error (dev_setClientTarget dev hwcDisplayId slot target acquireFence dataspace);
    repeat split; try done.
Qed.

(** X4: [presentAndGetReleaseFences] always leaves the skipped-validate flag
    of its display cleared, whichever path it took and whatever the device
    replied.  Hence a second present without a negotiation in between calls
    the device's present and never takes the flush-only path. *)
Theorem presentAndGetReleaseFences_consumes_skip
    (dev dev' : Composer) (this : HWComposer) (displayId : DisplayId)
    (displayData : DisplayData) (t t' : Z) (prev prev' : FenceTime) :
  let first := run (presentAndGetReleaseFences dev displayId t prev) this in
  let second := run (presentAndGetReleaseFences dev' displayId t' prev') (after first) in
  lookup_display this displayId = Some displayData →
  (validateWasSkipped <$> lookup_display (after first) displayId) = Some false ∧
  Present (getId (hwcDisplay displayData)) ∈ events second ∧
  ExecuteCommands ∉ events second.
Proof.
  intros first second Hd. unfold lookup_display in *.
  assert (Hfirst : ∃ d', mDisplayData (after first) !! displayId = Some d' ∧
            validateWasSkipped d' = false ∧ hwcDisplay d' = hwcDisplay displayData).
  { subst first. unfold presentAndGetReleaseFences. unfold_op. rewrite Hd. cbn.
    destruct (validateWasSkipped displayData) eqn:Hs; cbn.
    - repeat (case_bool_decide; cbn); rewrite lookup_alter_eq, Hd; cbn; eauto.
    - destruct (dev_present dev _) as [eP [f|]]; destruct (dev_getReleaseFences dev _) as [eR rf];
        destruct (getSignalTime prev =? SIGNAL_TIME_PENDING); cbn;
        repeat (case_bool_decide; cbn); rewrite !lookup_alter_eq, Hd; cbn; eauto. }
  destruct Hfirst as (d' & Hd' & Hs' & Hh').
  split; [by rewrite Hd'; cbn; rewrite Hs'|].
  subst second. unfold presentAndGetReleaseFences. unfold_op. rewrite Hd'. cbn.
  rewrite Hs', Hh'. cbn.
  destruct (dev_present dev' _) as [eP [f|]]; destruct (dev_getReleaseFences dev' _) as [eR rf];
    destruct (getSignalTime prev' =? SIGNAL_TIME_PENDING); cbn;
    repeat (case_bool_decide; cbn);
    (split;
     [ repeat first [apply list_elem_of_here | apply list_elem_of_further]
     | rewrite ?not_elem_of_cons; repeat split; first [done | apply not_elem_of_nil] ]).
Qed.

(** X6: [clearReleaseFences] empties the release-fence map of its display and
    nothing else: every layer then reads [NO_FENCE], the present fence stays,
    other displays keep their fences, and the device is not called. *)
Theorem clearReleaseFences_forgets_every_layer
    (this : HWComposer) (displayId : DisplayId) (displayData : DisplayData) :
  let that := after (run (clearReleaseFences displayId) this) in
  lookup_display this displayId = Some displayData →
  lookup_display that displayId = Some (set_releaseFences ∅ displayData) ∧
  (∀ layer, getLayerReleaseFence that displayId layer = NO_FENCE) ∧
  getPresentFence that displayId = getPresentFence this displayId ∧
  (∀ other layer, other ≠ displayId →
     getLayerReleaseFence that other layer = getLayerReleaseFence this other layer) ∧
  events (run (clearReleaseFences displayId) this) = [].
Proof.
  intros that Hd. unfold lookup_display in *. subst that.
  unfold clearReleaseFences, getLayerReleaseFence, getPresentFence. unfold_op.
  rewrite Hd. cbn. rewrite lookup_alter_eq, Hd. cbn.
  repeat split; try done.
  intros other layer Hne. by rewrite lookup_alter_ne.
Qed.

(** ** Display registry *)

Lemma allocatePhysicalDisplay_run {R} hwcDisplayId displayId this log :
  @allocatePhysicalDisplay R hwcDisplayId displayId this log =
    (Continue (), afterAllocatePhysicalDisplay hwcDisplayId displayId this, log).
Proof.
  unfold afterAllocatePhysicalDisplay, allocatePhysicalDisplay. unfold_op. cbn.
  repeat (case_bool_decide; cbn); done.
Qed.

Lemma afterAllocatePhysicalDisplay_fields hwcDisplayId displayId this :
  let that := afterAllocatePhysicalDisplay hwcDisplayId displayId this in
  let display := {| getId := hwcDisplayId; getType := PHYSICAL; isConnected_ := true |} in
  mPhysicalDisplayIdMap that = <[hwcDisplayId := displayId]> (mPhysicalDisplayIdMap this) ∧
  mDisplayData that =
    <[displayId := set_hwcDisplay display (displayData_at this displayId display)]>
      (mDisplayData this) ∧
  mInternalHwcDisplayId that =
    Some (default hwcDisplayId (mInternalHwcDisplayId this)) ∧
  mExternalHwcDisplayId that =
    match mInternalHwcDisplayId this, mExternalHwcDisplayId this with
    | Some internal, None =>
        if bool_decide (internal = hwcDisplayId) then None else Some hwcDisplayId
    | _, external => external
    end ∧
  mHasMultiDisplaySupport that = mHasMultiDisplaySupport this ∧
  mMaxVirtualDisplayDimension that = mMaxVirtualDisplayDimension this ∧
  mUpdateDeviceProductInfoOnHotplugReconnect that =
    mUpdateDeviceProductInfoOnHotplugReconnect this.
Proof.
  unfold afterAllocatePhysicalDisplay, allocatePhysicalDisplay, displayData_at.
  unfold_op. cbn.
  destruct (mInternalHwcDisplayId this) as [internal|] eqn:Hi;
    destruct (mExternalHwcDisplayId this) as [external|] eqn:He; cbn;
    repeat (case_bool_decide; cbn); rewrite ?Hi, ?He; simplify_eq; try done;
    repeat match goal with H : ¬ is_Some (Some _) |- _ => by destruct H end.
Qed.

Lemma disconnectDisplay_releases_role_aux
    (this : HWComposer) (displayId : DisplayId) (displayData : DisplayData) :
  lookup_display this displayId = Some displayData →
  mPhysicalDisplayIdMap (after (run (disconnectDisplay displayId) this)) =
    delete (getId (hwcDisplay displayData)) (mPhysicalDisplayIdMap this).
Proof.
  intros Hd. unfold lookup_display in Hd.
  unfold disconnectDisplay. unfold_op. rewrite Hd. cbn.
  repeat (case_bool_decide; cbn); done.
Qed.

(** X7: [disconnectDisplay] gives up the role of the handle it destroys.  A
    handle tracked as internal clears the internal role only (the external
    one stays, even if it holds the same handle); otherwise a handle tracked
    as external clears the external role; the handle leaves the map, the
    record leaves the registry, and the device is not called. *)
Theorem disconnectDisplay_releases_role
    (this : HWComposer) (displayId : DisplayId) (displayData : DisplayData) :
  let hwcDisplayId := getId (hwcDisplay displayData) in
  let that := after (run (disconnectDisplay displayId) this) in
  lookup_display this displayId = Some displayData →
  mInternalHwcDisplayId that =
    (if bool_decide (mInternalHwcDisplayId this = Some hwcDisplayId) then None
     else mInternalHwcDisplayId this) ∧
  mExternalHwcDisplayId that =
    (if bool_decide (mInternalHwcDisplayId this = Some hwcDisplayId)
     then mExternalHwcDisplayId this
     else if bool_decide (mExternalHwcDisplayId this = Some hwcDisplayId) then None
     else mExternalHwcDisplayId this) ∧
  mPhysicalDisplayIdMap that = delete hwcDisplayId (mPhysicalDisplayIdMap this) ∧
  mDisplayData that = delete displayId (mDisplayData this) ∧
  events (run (disconnectDisplay displayId) this) = [].
Proof.
  intros hwcDisplayId that Hd. unfold lookup_display in Hd. subst that.
  unfold disconnectDisplay. unfold_op. rewrite Hd. cbn. fold hwcDisplayId.
  repeat (case_bool_decide; cbn); done.
Qed.

(** X9: after [allocatePhysicalDisplay] the handle resolves to the identity
    and the identity back to the handle, the display is connected and not
    virtual, no other handle and no other record has changed, the internal
    role is taken, and a role that was tracked already stays with its
    handle.  The record found at the identity must not be a virtual one. *)
Theorem allocatePhysicalDisplay_round_trip
    (this : HWComposer) (hwcDisplayId : HWDisplayId) (displayId : DisplayId) :
  let that := after (run (allocatePhysicalDisplay hwcDisplayId displayId) this) in
  (∀ displayData, lookup_display this displayId = Some displayData →
     isVirtual displayData = false) →
  toPhysicalDisplayId that hwcDisplayId = Some displayId ∧
  fromPhysicalDisplayId that displayId = Some hwcDisplayId ∧
  fromVirtualDisplayId that displayId = None ∧
  isConnected that displayId = true ∧
  (∀ other, other ≠ hwcDisplayId →
     toPhysicalDisplayId that other = toPhysicalDisplayId this other) ∧
  (∀ other, other ≠ displayId →
     lookup_display that other = lookup_display this other) ∧
  is_Some (mInternalHwcDisplayId that) ∧
  (is_Some (mInternalHwcDisplayId this) →
     mInternalHwcDisplayId that = mInternalHwcDisplayId this) ∧
  (is_Some (mExternalHwcDisplayId this) →
     mExternalHwcDisplayId that = mExternalHwcDisplayId this).
Proof.
  intros that Hphys.
  assert (Hthat : that = afterAllocatePhysicalDisplay hwcDisplayId displayId this).
  { subst that. unfold run. by rewrite allocatePhysicalDisplay_run. }
  rewrite Hthat. clear Hthat that.
  destruct (afterAllocatePhysicalDisplay_fields hwcDisplayId displayId this)
    as (Hm & Hdata & Hi & He & _).
  unfold toPhysicalDisplayId, fromPhysicalDisplayId, fromVirtualDisplayId, isConnected,
    lookup_display in *.
  rewrite Hm, Hdata, Hi, He, !lookup_insert_eq. cbn.
  assert (Hv : isVirtual (displayData_at this displayId
                 {| getId := hwcDisplayId; getType := PHYSICAL; isConnected_ := true |})
               = false).
  { unfold displayData_at. destruct (mDisplayData this !! displayId) eqn:E; cbn; auto. }
  rewrite Hv. cbn. repeat split; try done.
  - intros other Hne. by rewrite lookup_insert_ne.
  - intros other Hne. by rewrite lookup_insert_ne.
  - by intros [? ->].
  - intros [e ->]. by destruct (mInternalHwcDisplayId this).
Qed.

(** X13: [allocateVirtualDisplay] is isolated from the physical side.  It
    never changes the handle map, the tracked roles, the mode or another
    record; a refused allocation changes nothing; a successful one leaves a
    connected record that converts to a handle as a virtual display only, and
    asks the device once, passing the mirror's physical handle if it has one. *)
Theorem allocateVirtualDisplay_is_isolated
    (dev : Composer) (this : HWComposer) (displayId : DisplayId)
    (resolution : Size) (format : Z) (mirror : option DisplayId) :
  let r := run (allocateVirtualDisplay dev displayId resolution format mirror) this in
  (∀ other, other ≠ displayId →
     lookup_display (after r) other = lookup_display this other) ∧
  mPhysicalDisplayIdMap (after r) = mPhysicalDisplayIdMap this ∧
  mInternalHwcDisplayId (after r) = mInternalHwcDisplayId this ∧
  mExternalHwcDisplayId (after r) = mExternalHwcDisplayId this ∧
  mHasMultiDisplaySupport (after r) = mHasMultiDisplaySupport this ∧
  (result r = false → after r = this) ∧
  (result r = true →
     is_Some (fromVirtualDisplayId (after r) displayId) ∧
     fromPhysicalDisplayId (after r) displayId = None ∧
     isConnected (after r) displayId = true ∧
     ∃ w h, events r = [CreateVirtualDisplay w h (mirror ≫= fromPhysicalDisplayId this)]).
Proof.
  intros r. subst r. unfold lookup_display, allocateVirtualDisplay. unfold_op.
  destruct (isValid resolution); cbn; [|by repeat split].
  destruct (_ && _); cbn; [by repeat split|].
  destruct (dev_createVirtualDisplay _ _ _ _ _) as [error h]. cbn.
  unfold RETURN_IF_HWC_ERROR_FOR.
  case_error error; unfold_op; cbn; [|by repeat split].
  unfold fromVirtualDisplayId, fromPhysicalDisplayId, isConnected.
  cbn. rewrite !lookup_insert_eq. cbn.
  repeat split; try done.
  - intros other Hne. by rewrite lookup_insert_ne.
  - eauto.
Qed.

(** X14: after [disconnectDisplay] the device's late callbacks for the
    destroyed handle are dropped: a vsync is reported as not accepted and a
    disconnect notification yields nothing, both without any change, in
    every build. *)
Theorem callbacks_after_destroy_are_dropped
    (LOG_NDEBUG : bool) (this : HWComposer) (displayId : DisplayId)
    (displayData : DisplayData) (timestamp : nsecs_t) :
  let hwcDisplayId := getId (hwcDisplay displayData) in
  let that := after (run (disconnectDisplay displayId) this) in
  lookup_display this displayId = Some displayData →
  run (onVsync LOG_NDEBUG hwcDisplayId timestamp) that = (Some false, that, []) ∧
  run (onHotplugDisconnect hwcDisplayId) that = (None, that, []).
Proof.
  intros hwcDisplayId that Hd.
  pose proof (disconnectDisplay_releases_role_aux this displayId displayData Hd) as Hm.
  fold hwcDisplayId that in Hm.
  unfold onVsync, onHotplugDisconnect, toPhysicalDisplayId. unfold_op.
  by rewrite Hm, lookup_delete_eq.
Qed.

(** ** Hotplug resolver *)

Lemma grows_refl this : grows this this.
Proof. by repeat split. Qed.

Lemma grows_set_mHasMultiDisplaySupport b this :
  grows this (set_mHasMultiDisplaySupport b this).
Proof. by repeat split. Qed.

Lemma grows_afterAllocatePhysicalDisplay hwcDisplayId displayId this :
  (∀ other, mPhysicalDisplayIdMap this !! hwcDisplayId = Some other → other = displayId) →
  grows this (afterAllocatePhysicalDisplay hwcDisplayId displayId this).
Proof.
  intros Hsame.
  destruct (afterAllocatePhysicalDisplay_fields hwcDisplayId displayId this)
    as (Hm & Hd & Hi & He & _ & Hx & Hu).
  unfold grows. rewrite Hm, Hd, Hi, He, Hx, Hu.
  split; [|split; [|split; [|split]]]; try done.
  - apply map_subseteq_spec. intros h i Hh.
    destruct (decide (h = hwcDisplayId)) as [->|Hne].
    + rewrite lookup_insert_eq. f_equal. symmetry. by apply Hsame.
    + by rewrite lookup_insert_ne.
  - rewrite dom_insert_L. set_solver.
  - by intros [i ->].
  - intros [e ->]. by destruct (mInternalHwcDisplayId this).
Qed.

(** [onHotplugDisconnect] from entry to exit. *)
Lemma onHotplugDisconnect_run (this : HWComposer) (hwcDisplayId : HWDisplayId) :
  run (onHotplugDisconnect hwcDisplayId) this =
    match toPhysicalDisplayId this hwcDisplayId with
    | None => (None, this, [])
    | Some displayId =>
        (Some {| id := displayId; name := ""; deviceProductInfo := None |},
         if isConnected this displayId then
           set_mDisplayData
             (alter (λ d, set_hwcDisplay (setConnected false (hwcDisplay d)) d)
                displayId (mDisplayData this)) this
         else this, [])
    end.
Proof.
  unfold onHotplugDisconnect. unfold_op.
  destruct (toPhysicalDisplayId this hwcDisplayId); [|done].
  by destruct (isConnected this _).
Qed.

(** X15: [onHotplugDisconnect] of a handle that is not mapped yields nothing
    and changes nothing; for a mapped handle it reports the identity with no
    name and no product info and leaves the display disconnected.  It never
    calls the device, never removes a record or a map entry, and a repeated
    notification changes nothing further and reports the same. *)
Theorem onHotplugDisconnect_unknown_and_repeated
    (this : HWComposer) (hwcDisplayId : HWDisplayId) :
  let once := run (onHotplugDisconnect hwcDisplayId) this in
  let twice := run (onHotplugDisconnect hwcDisplayId) (after once) in
  (toPhysicalDisplayId this hwcDisplayId = None → once = (None, this, [])) ∧
  (∀ displayId, toPhysicalDisplayId this hwcDisplayId = Some displayId →
     result once =
       Some {| id := displayId; name := ""; deviceProductInfo := None |} ∧
     isConnected (after once) displayId = false) ∧
  after twice = after once ∧ result twice = result once ∧
  events once = [] ∧
  dom (mDisplayData (after once)) = dom (mDisplayData this) ∧
  mPhysicalDisplayIdMap (after once) = mPhysicalDisplayIdMap this.
Proof.
  intros once twice. subst twice once.
  unfold onHotplugDisconnect, toPhysicalDisplayId, isConnected. unfold_op.
  destruct (mPhysicalDisplayIdMap this !! hwcDisplayId) as [displayId|] eqn:Hh; cbn.
  2:{ rewrite Hh. repeat split; done. }
  destruct (mDisplayData this !! displayId) as [d|] eqn:Hd; cbn.
  2:{ rewrite Hh. cbn. rewrite Hd. cbn.
      repeat split; intros; simplify_eq; by rewrite ?Hd. }
  destruct (isConnected_ (hwcDisplay d)) eqn:Hc; cbn; rewrite Hh; cbn.
  - rewrite lookup_alter_eq, Hd. cbn.
    repeat split; intros; simplify_eq; rewrite ?lookup_alter_eq, ?Hd; try done.
    apply dom_alter_L.
  - rewrite Hd, Hc. cbn.
    repeat split; intros; simplify_eq; by rewrite ?Hd, ?Hc.
Qed.

Section FurtherHotplugProperties.

Variable parseDisplayIdentificationData :
  Z → list Z → option DisplayIdentificationInfo.
Variable fromPort : Z → DisplayId.
Variable LEGACY_DISPLAY_TYPE_PRIMARY : Z.
Variable LEGACY_DISPLAY_TYPE_EXTERNAL : Z.

Local Abbreviation connect :=
  (onHotplugConnect parseDisplayIdentificationData fromPort
     LEGACY_DISPLAY_TYPE_PRIMARY LEGACY_DISPLAY_TYPE_EXTERNAL).
Local Abbreviation hotplug :=
  (onHotplug parseDisplayIdentificationData fromPort
     LEGACY_DISPLAY_TYPE_PRIMARY LEGACY_DISPLAY_TYPE_EXTERNAL).
Local Abbreviation derive :=
  (deriveIdentity parseDisplayIdentificationData fromPort
     LEGACY_DISPLAY_TYPE_PRIMARY LEGACY_DISPLAY_TYPE_EXTERNAL).

(** A connection notification for a handle that is not mapped yet, from
    entry to exit. *)
Lemma onHotplugConnect_new (dev : Composer) (this : HWComposer)
    (hwcDisplayId : HWDisplayId) :
  let reply := dev_getDisplayIdentificationData dev hwcDisplayId in
  let hasData := bool_decide (reply.1.1 = NONE) in
  let selected :=
    if bool_decide (mPhysicalDisplayIdMap this = ∅)
    then set_mHasMultiDisplaySupport hasData this else this in
  let info :=
    derive (mHasMultiDisplaySupport selected)
      (negb (bool_decide (is_Some (mInternalHwcDisplayId this)))) reply.1.2 reply.2 in
  toPhysicalDisplayId this hwcDisplayId = None →
  run (onHotplugConnect parseDisplayIdentificationData fromPort
         LEGACY_DISPLAY_TYPE_PRIMARY LEGACY_DISPLAY_TYPE_EXTERNAL dev hwcDisplayId) this
  = if shouldIgnoreHotplugConnect selected hwcDisplayId hasData then
      (None, selected, [(GetDisplayIdentificationData hwcDisplayId, this)])
    else
      (Some info,
       if isConnected selected (id info) then selected
       else afterAllocatePhysicalDisplay hwcDisplayId (id info) selected,
       [(GetDisplayIdentificationData hwcDisplayId, this)]).
Proof.
  intros reply hasData selected info Hnew.
  unfold toPhysicalDisplayId in Hnew.
  unfold onHotplugConnect, getDisplayIdentificationData, toPhysicalDisplayId.
  unfold run, get_this, modify_this, call, Return_, mbind, Op_bind, op_bind, mret,
    Op_ret, op_ret.
  rewrite Hnew. subst info selected hasData reply.
  destruct (dev_getDisplayIdentificationData dev hwcDisplayId) as [[error port] data].
  cbn [fst snd].
  assert (Hflag : ∀ b, mInternalHwcDisplayId (set_mHasMultiDisplaySupport b this)
                         = mInternalHwcDisplayId this) by done.
  case_error error;
    (destruct (bool_decide (mPhysicalDisplayIdMap this = ∅)); cbn [fst snd];
     rewrite ?Hflag;
     match goal with
     | |- context [shouldIgnoreHotplugConnect ?s _ _] =>
         destruct (shouldIgnoreHotplugConnect s hwcDisplayId _); [done|];
         unfold deriveIdentity;
         destruct (mHasMultiDisplaySupport s);
         [destruct (parseDisplayIdentificationData port data); cbn|cbn]
     end;
     match goal with
     | |- context [isConnected ?s ?i] =>
         destruct (isConnected s i); cbn; [done|];
         by rewrite allocatePhysicalDisplay_run
     end).
Qed.

(** A connection notification for a handle that is mapped already. *)
Lemma onHotplugConnect_known (dev : Composer) (this : HWComposer)
    (hwcDisplayId : HWDisplayId) (displayId : DisplayId) :
  let reply := dev_getDisplayIdentificationData dev hwcDisplayId in
  let update := mUpdateDeviceProductInfoOnHotplugReconnect this in
  toPhysicalDisplayId this hwcDisplayId = Some displayId →
  run (connect dev hwcDisplayId) this =
    (Some {| id := displayId; name := "";
             deviceProductInfo :=
               if update
               then parseDisplayIdentificationData reply.1.2 reply.2
                      ≫= deviceProductInfo
               else None |},
     if isConnected this displayId then this
     else afterAllocatePhysicalDisplay hwcDisplayId displayId this,
     if update then [(GetDisplayIdentificationData hwcDisplayId, this)] else []).
Proof.
  intros reply update Hknown. unfold toPhysicalDisplayId in Hknown.
  unfold onHotplugConnect, getDisplayIdentificationData, toPhysicalDisplayId.
  unfold run, get_this, modify_this, call, Return_, mbind, Op_bind, op_bind, mret,
    Op_ret, op_ret.
  rewrite Hknown. subst update reply.
  destruct (mUpdateDeviceProductInfoOnHotplugReconnect this); cbn [fst snd].
  - destruct (dev_getDisplayIdentificationData dev hwcDisplayId) as [[error port] data].
    cbn [fst snd].
    destruct (bool_decide (error ≠ NONE)); cbn [fst snd];
      destruct (parseDisplayIdentificationData port data); cbn;
      destruct (isConnected this displayId); cbn;
      by rewrite ?allocatePhysicalDisplay_run.
  - cbn. destruct (isConnected this displayId); cbn;
      by rewrite ?allocatePhysicalDisplay_run.
Qed.

(** X8: legacy mode from first boot.  On an empty registry, a first
    connection without identification data becomes the internal display on
    the legacy primary port, a second handle becomes the external display on
    the legacy external port, and a third handle is ignored: it yields no
    identity and changes nothing.  Both tracked displays are connected and
    the conversions between handle and identity are inverse to each other. *)
Theorem legacy_primary_secondary_tertiary
    (devA devB devC : Composer) (this : HWComposer) (hA hB hC : HWDisplayId) :
  let primary := fromPort LEGACY_DISPLAY_TYPE_PRIMARY in
  let external := fromPort LEGACY_DISPLAY_TYPE_EXTERNAL in
  let a := run (connect devA hA) this in
  let b := run (connect devB hB) (after a) in
  let c := run (connect devC hC) (after b) in
  mDisplayData this = ∅ → mPhysicalDisplayIdMap this = ∅ →
  mInternalHwcDisplayId this = None → mExternalHwcDisplayId this = None →
  (dev_getDisplayIdentificationData devA hA).1.1 ≠ NONE →
  hA ≠ hB → hC ≠ hA → hC ≠ hB → primary ≠ external →
  result a =
    Some {| id := primary; name := "Internal display"; deviceProductInfo := None |} ∧
  result b =
    Some {| id := external; name := "External display"; deviceProductInfo := None |} ∧
  result c = None ∧ after c = after b ∧
  toPhysicalDisplayId (after b) hA = Some primary ∧
  toPhysicalDisplayId (after b) hB = Some external ∧
  toPhysicalDisplayId (after b) hC = None ∧
  fromPhysicalDisplayId (after b) primary = Some hA ∧
  fromPhysicalDisplayId (after b) external = Some hB ∧
  isConnected (after b) primary = true ∧
  isConnected (after b) external = true.
Proof.
  intros primary external a b c Hdata Hmap Hint Hext HnoA HAB HCA HCB Hports.
  (* first connection *)
  assert (Ha : a = (Some {| id := primary; name := "Internal display";
                            deviceProductInfo := None |},
                    afterAllocatePhysicalDisplay hA primary
                      (set_mHasMultiDisplaySupport false this),
                    [(GetDisplayIdentificationData hA, this)])).
  { unfold a. rewrite onHotplugConnect_new by (unfold toPhysicalDisplayId; by rewrite Hmap).
    rewrite (bool_decide_eq_true_2 _ Hmap), (bool_decide_eq_false_2 _ HnoA).
    unfold shouldIgnoreHotplugConnect, deriveIdentity, isConnected. cbn.
    by rewrite Hint, Hdata, lookup_empty. }
  set (sA := afterAllocatePhysicalDisplay hA primary
               (set_mHasMultiDisplaySupport false this)) in *.
  destruct (afterAllocatePhysicalDisplay_fields hA primary
              (set_mHasMultiDisplaySupport false this))
    as (HmA & HdA & HiA & HeA & HgA & _).
  fold sA in HmA, HdA, HiA, HeA, HgA. cbn in HmA, HdA, HiA, HeA, HgA.
  rewrite Hint in HiA, HeA. rewrite Hmap in HmA. rewrite Hdata in HdA. cbn in HiA, HeA.
  rewrite ?Hext in HeA.
  unfold displayData_at in HdA. cbn in HdA. rewrite Hdata, lookup_empty in HdA. cbn in HdA.
  (* second connection *)
  assert (Hb : b = (Some {| id := external; name := "External display";
                            deviceProductInfo := None |},
                    afterAllocatePhysicalDisplay hB external sA,
                    [(GetDisplayIdentificationData hB, sA)])).
  { unfold b. rewrite Ha. unfold after. cbn [fst snd].
    rewrite onHotplugConnect_new
      by (unfold toPhysicalDisplayId; by rewrite HmA, lookup_insert_ne, lookup_empty).
    rewrite (bool_decide_eq_false_2 (mPhysicalDisplayIdMap sA = ∅))
      by (rewrite HmA; apply insert_non_empty).
    unfold shouldIgnoreHotplugConnect, deriveIdentity, isConnected.
    rewrite HgA, HiA, HeA, HdA. cbn. fold external.
    by rewrite lookup_insert_ne, lookup_empty. }
  set (sB := afterAllocatePhysicalDisplay hB external sA) in *.
  destruct (afterAllocatePhysicalDisplay_fields hB external sA)
    as (HmB & HdB & HiB & HeB & HgB & _).
  fold sB in HmB, HdB, HiB, HeB, HgB. cbn in HmB, HdB, HiB, HeB, HgB.
  rewrite HiA in HiB, HeB. rewrite HeA in HeB. rewrite HmA in HmB.
  rewrite HgA in HgB. cbn in HiB, HeB.
  rewrite (bool_decide_eq_false_2 (hA = hB)) in HeB by done.
  unfold displayData_at in HdB. rewrite HdA, lookup_insert_ne, lookup_empty in HdB by done.
  cbn in HdB.
  (* third connection *)
  assert (Hc : c = (None, sB, [(GetDisplayIdentificationData hC, sB)])).
  { unfold c. rewrite Hb. unfold after. cbn [fst snd].
    rewrite onHotplugConnect_new
      by (unfold toPhysicalDisplayId;
          by rewrite HmB, !lookup_insert_ne, lookup_empty).
    rewrite (bool_decide_eq_false_2 (mPhysicalDisplayIdMap sB = ∅))
      by (rewrite HmB; apply insert_non_empty).
    unfold shouldIgnoreHotplugConnect. by rewrite HgB, HiB, HeB. }
  rewrite Ha, Hb, Hc. unfold result, after. cbn [fst snd].
  unfold toPhysicalDisplayId, fromPhysicalDisplayId, isConnected.
  rewrite HmB, HdB.
  rewrite !lookup_insert_eq, !(lookup_insert_ne _ hB), !(lookup_insert_ne _ external),
    ?lookup_insert_eq, ?lookup_empty by done.
  by rewrite lookup_insert_ne, lookup_empty.
Qed.

(** X10: a display that was unplugged ([onHotplugDisconnect]) and is plugged
    in again under its handle gets its identity back and a fresh, connected
    display object, while its record keeps everything else (fences, vsync
    state); the map and the other records are as before the unplugging, and
    the device is asked for identification data only if the product-info
    update is configured. *)
Theorem reconnect_restores_the_display
    (dev : Composer) (this : HWComposer) (hwcDisplayId : HWDisplayId)
    (displayId : DisplayId) (displayData : DisplayData) :
  let unplugged := after (run (onHotplugDisconnect hwcDisplayId) this) in
  let r := run (connect dev hwcDisplayId) unplugged in
  toPhysicalDisplayId this hwcDisplayId = Some displayId →
  lookup_display this displayId = Some displayData →
  id <$> result r = Some displayId ∧
  lookup_display (after r) displayId =
    Some (set_hwcDisplay
            {| getId := hwcDisplayId; getType := PHYSICAL; isConnected_ := true |}
            displayData) ∧
  isConnected (after r) displayId = true ∧
  mPhysicalDisplayIdMap (after r) = mPhysicalDisplayIdMap this ∧
  (∀ other, other ≠ displayId →
     lookup_display (after r) other = lookup_display this other) ∧
  events r =
    (if mUpdateDeviceProductInfoOnHotplugReconnect this
     then [GetDisplayIdentificationData hwcDisplayId] else []).
Proof.
  intros unplugged r Hh Hd. unfold lookup_display in *.
  assert (Hun : mPhysicalDisplayIdMap unplugged = mPhysicalDisplayIdMap this ∧
                mDisplayData unplugged =
                  <[displayId := set_hwcDisplay (setConnected false (hwcDisplay displayData))
                                   displayData]> (mDisplayData this) ∧
                mUpdateDeviceProductInfoOnHotplugReconnect unplugged =
                  mUpdateDeviceProductInfoOnHotplugReconnect this).
  { subst unplugged. unfold onHotplugDisconnect, isConnected. unfold_op.
    unfold toPhysicalDisplayId in *. rewrite Hh. cbn. rewrite Hd. cbn.
    destruct (isConnected_ (hwcDisplay displayData)) eqn:Hc; cbn.
    - split; [done|]. split; [|done]. apply map_eq. intros i.
      destruct (decide (i = displayId)) as [->|Hne].
      + by rewrite lookup_alter_eq, lookup_insert_eq, Hd.
      + by rewrite lookup_alter_ne, lookup_insert_ne.
    - split; [done|]. split; [|done]. symmetry. apply insert_id. rewrite Hd. f_equal.
      destruct displayData as [? [] ? ? ? ? ? ? ?]. cbn in *. by subst. }
  destruct Hun as (Hum & Hud & Huu).
  assert (Hr : r = _) by (apply onHotplugConnect_known with (displayId := displayId);
                          unfold toPhysicalDisplayId; by rewrite Hum).
  assert (Hoff : isConnected unplugged displayId = false)
    by (unfold isConnected; by rewrite Hud, lookup_insert_eq).
  cbv zeta in Hr. rewrite Hoff in Hr. rewrite Hr.
  unfold result, after, events. cbn [fst snd].
  destruct (afterAllocatePhysicalDisplay_fields hwcDisplayId displayId unplugged)
    as (Hm & Hdata & _).
  unfold isConnected. rewrite Hm, Hdata, Hum, Huu. unfold displayData_at.
  rewrite Hud, !lookup_insert_eq. cbn.
  split; [done|]. split; [done|]. split; [done|].
  split; [by apply insert_id|]. split.
  - intros other Hne. by rewrite !lookup_insert_ne.
  - by destruct (mUpdateDeviceProductInfoOnHotplugReconnect this).
Qed.

(** X11: generalized mode with displays already mapped.  A new handle whose
    identification data cannot be read is ignored: the result is empty and
    the object unchanged.  With data, the connection is never refused, however
    many displays are tracked; the identity is the parser's, or the port's if
    the data does not parse; it is registered for the handle unless that
    identity is already connected, in which case nothing is stored. *)
Theorem generalized_mode_requires_identification
    (dev : Composer) (this : HWComposer) (hwcDisplayId : HWDisplayId) :
  let reply := dev_getDisplayIdentificationData dev hwcDisplayId in
  let r := run (connect dev hwcDisplayId) this in
  mHasMultiDisplaySupport this = true →
  mPhysicalDisplayIdMap this ≠ ∅ →
  toPhysicalDisplayId this hwcDisplayId = None →
  (reply.1.1 ≠ NONE →
     r = (None, this, [(GetDisplayIdentificationData hwcDisplayId, this)])) ∧
  (reply.1.1 = NONE →
     ∃ info, result r = Some info ∧
       id info = default (fromPort reply.1.2)
                   (id <$> parseDisplayIdentificationData reply.1.2 reply.2) ∧
       (isConnected this (id info) = true → after r = this) ∧
       (isConnected this (id info) = false →
          toPhysicalDisplayId (after r) hwcDisplayId = Some (id info) ∧
          isConnected (after r) (id info) = true)).
Proof.
  intros reply r Hmode Hmap Hnew. subst r.
  rewrite (onHotplugConnect_new dev this hwcDisplayId Hnew).
  rewrite (bool_decide_eq_false_2 _ Hmap). fold reply.
  unfold shouldIgnoreHotplugConnect, deriveIdentity. rewrite Hmode. cbn [andb negb].
  split; intros He.
  - by rewrite (bool_decide_eq_false_2 _ He).
  - rewrite (bool_decide_eq_true_2 _ He). cbn [negb].
    eexists. split; [reflexivity|]. unfold after. cbn [fst snd].
    split; [by destruct (parseDisplayIdentificationData _ _)|].
    split; [by intros ->|]. intros ->.
    match goal with |- context [afterAllocatePhysicalDisplay _ ?i _] =>
      destruct (afterAllocatePhysicalDisplay_fields hwcDisplayId i this)
        as (Hm & Hd & _) end.
    unfold toPhysicalDisplayId, isConnected. rewrite Hm, Hd, !lookup_insert_eq.
    done.
Qed.

(** X12: the handle map only grows on hotplug.  When a display that was
    unplugged comes back under a new handle with the same identity, the new
    handle is mapped and drives the record, and the old handle still resolves
    to that identity: a late disconnect notification for the old handle marks
    the display disconnected. *)
Theorem stale_handle_keeps_resolving
    (dev : Composer) (this : HWComposer) (stale hwcDisplayId : HWDisplayId)
    (info : DisplayIdentificationInfo) :
  let reply := dev_getDisplayIdentificationData dev hwcDisplayId in
  let r := run (connect dev hwcDisplayId) this in
  let late := run (onHotplugDisconnect stale) (after r) in
  mHasMultiDisplaySupport this = true →
  toPhysicalDisplayId this stale = Some (id info) →
  toPhysicalDisplayId this hwcDisplayId = None →
  isConnected this (id info) = false →
  reply.1.1 = NONE →
  parseDisplayIdentificationData reply.1.2 reply.2 = Some info →
  result r = Some info ∧
  toPhysicalDisplayId (after r) hwcDisplayId = Some (id info) ∧
  toPhysicalDisplayId (after r) stale = Some (id info) ∧
  isConnected (after r) (id info) = true ∧
  (getId ∘ hwcDisplay) <$> lookup_display (after r) (id info) = Some hwcDisplayId ∧
  isConnected (after late) (id info) = false.
Proof.
  intros reply r late Hmode Hstale Hnew Hoff He Hparse.
  assert (Hmap : mPhysicalDisplayIdMap this ≠ ∅).
  { intros Hempty. unfold toPhysicalDisplayId in Hstale.
    by rewrite Hempty, lookup_empty in Hstale. }
  assert (Hne : stale ≠ hwcDisplayId) by (intros ->; congruence).
  assert (Hr : r = (Some info, afterAllocatePhysicalDisplay hwcDisplayId (id info) this,
                    [(GetDisplayIdentificationData hwcDisplayId, this)])).
  { subst r. rewrite (onHotplugConnect_new dev this hwcDisplayId Hnew).
    rewrite (bool_decide_eq_false_2 _ Hmap). fold reply.
    unfold shouldIgnoreHotplugConnect, deriveIdentity.
    rewrite Hmode, (bool_decide_eq_true_2 _ He), Hparse. cbn [andb negb default].
    cbn. by rewrite Hoff. }
  destruct (afterAllocatePhysicalDisplay_fields hwcDisplayId (id info) this)
    as (Hm & Hd & _).
  assert (Hlate : isConnected (after late) (id info) = false).
  { subst late. rewrite onHotplugDisconnect_run, Hr. unfold after. cbn [fst snd].
    unfold toPhysicalDisplayId. rewrite Hm, lookup_insert_ne by done.
    unfold toPhysicalDisplayId in Hstale. rewrite Hstale. cbn [fst snd].
    unfold isConnected. rewrite Hd, lookup_insert_eq. cbn.
    by rewrite lookup_alter_eq, lookup_insert_eq. }
  split; [by rewrite Hr|]. rewrite Hr. unfold after. cbn [fst snd].
  unfold toPhysicalDisplayId, isConnected, lookup_display in *.
  rewrite Hm, Hd, !lookup_insert_eq, lookup_insert_ne by done.
  repeat split; try done.
Qed.

(** X16: no hotplug notification makes the registry forget anything.
    Whatever the connection kind and the device's reply, every map entry and
    every record is still there afterwards, a tracked role keeps its handle,
    and the two configuration values are unchanged; the device is asked at
    most once, and only on a connection; an invalid connection kind does
    nothing. *)
Theorem onHotplug_never_forgets
    (dev : Composer) (this : HWComposer) (hwcDisplayId : HWDisplayId)
    (connection : Connection) :
  let r := run (hotplug dev hwcDisplayId connection) this in
  grows this (after r) ∧
  Nat.le (length (events r)) 1 ∧
  (connection = INVALID → r = (None, this, [])) ∧
  (connection ≠ CONNECTED → events r = []).
Proof.
  intros r. subst r. destruct connection; cbn [onHotplug].
  - split; [apply grows_refl|]. cbn. repeat split; first [done | lia].
  - destruct (toPhysicalDisplayId this hwcDisplayId) as [displayId|] eqn:Hh.
    + rewrite (onHotplugConnect_known dev this hwcDisplayId displayId Hh).
      unfold after, events. cbn [fst snd].
      split; [|split; [|split]]; try done.
      * destruct (isConnected this displayId); [apply grows_refl|].
        apply grows_afterAllocatePhysicalDisplay.
        unfold toPhysicalDisplayId in Hh. rewrite Hh. by intros ? [= <-].
      * destruct (mUpdateDeviceProductInfoOnHotplugReconnect this); cbn; lia.
    + rewrite (onHotplugConnect_new dev this hwcDisplayId Hh).
      set (selected := if bool_decide (mPhysicalDisplayIdMap this = ∅) then _ else this).
      assert (Hsel : grows this selected).
      { subst selected. destruct (bool_decide _);
          [apply grows_set_mHasMultiDisplaySupport | apply grows_refl]. }
      assert (Hmap : mPhysicalDisplayIdMap selected = mPhysicalDisplayIdMap this).
      { subst selected. by destruct (bool_decide _). }
      destruct (shouldIgnoreHotplugConnect selected hwcDisplayId _);
        unfold after, events; cbn [fst snd].
      * split; [done|]. split; [cbn; lia|]. done.
      * split; [|split; [cbn; lia|done]].
        match goal with |- context [isConnected selected ?i] =>
          destruct (isConnected selected i); [done|];
          pose proof (grows_afterAllocatePhysicalDisplay hwcDisplayId i selected) as Hg
        end.
        unfold toPhysicalDisplayId in Hh. rewrite Hmap, Hh in Hg.
        specialize (Hg ltac:(done)).
        destruct Hsel as (S1 & S2 & S3 & S4 & S5 & S6).
        destruct Hg as (G1 & G2 & G3 & G4 & G5 & G6).
        unfold grows. rewrite G5, G6.
        split; [by etrans|]. split; [by etrans|].
        split; [intros Hi; rewrite G3; [by apply S3|by rewrite S3]|].
        split; [intros He; rewrite G4; [by apply S4|by rewrite S4]|]. done.
  - rewrite onHotplugDisconnect_run.
    destruct (toPhysicalDisplayId this hwcDisplayId) as [displayId|];
      unfold after, events; cbn [fst snd].
    2:{ split; [apply grows_refl|]. cbn. repeat split; first [done | lia]. }
    split; [|cbn; repeat split; first [done | lia]].
    destruct (isConnected this displayId); [|apply grows_refl].
    unfold grows; cbn. rewrite dom_alter_L. by repeat split.
Qed.

End FurtherHotplugProperties.

(** ** Requests handed on to the device *)

Lemma fatalIf_false (LOG_NDEBUG : bool) : fatalIf LOG_NDEBUG false = false.
Proof. by destruct LOG_NDEBUG. Qed.

(** X17: [setVsyncEnabled] caches.  For a physical display, in every
    build, the device is asked exactly when the requested value differs from the cached one; the
    cache takes the value only if the device accepts it, and on a refusal the
    object is unchanged; no other record is touched; repeating an accepted
    request does nothing. *)
Theorem setVsyncEnabled_caches
    (LOG_NDEBUG : bool) (dev : Hal) (this : HWComposer) (displayId : DisplayId)
    (enabled : Vsync) (displayData : DisplayData) :
  let hwcDisplayId := getId (hwcDisplay displayData) in
  let error := hal_setVsyncEnabled dev hwcDisplayId enabled in
  let stored := if bool_decide (error = NONE) then enabled else vsyncEnabled displayData in
  lookup_display this displayId = Some displayData →
  isVirtual displayData = false →
  ∃ that log,
    setVsyncEnabled LOG_NDEBUG dev displayId enabled this = Some (that, log) ∧
    sentVsync log =
      (if bool_decide (enabled = vsyncEnabled displayData) then [] else [enabled]) ∧
    lookup_display that displayId = Some (set_vsyncEnabled stored displayData) ∧
    (∀ other, other ≠ displayId →
       lookup_display that other = lookup_display this other) ∧
    (error ≠ NONE → that = this) ∧
    (error = NONE →
       setVsyncEnabled LOG_NDEBUG dev displayId enabled that = Some (that, [])).
Proof.
  intros hwcDisplayId error stored Hd Hphys. unfold lookup_display in *.
  unfold setVsyncEnabled. rewrite Hd, Hphys, fatalIf_false.
  assert (Hid : ∀ v, v = vsyncEnabled displayData →
                     set_vsyncEnabled v displayData = displayData).
  { intros v ->. by destruct displayData. }
  destruct (decide (enabled = vsyncEnabled displayData)) as [Heq|Hne].
  { rewrite (bool_decide_eq_true_2 _ Heq). eexists _, _. split; [done|].
    subst stored. rewrite Hd, Hphys, fatalIf_false, (bool_decide_eq_true_2 _ Heq).
    repeat split; try done. rewrite Hid; [done|]. by destruct (bool_decide _). }
  rewrite (bool_decide_eq_false_2 _ Hne). fold hwcDisplayId. fold error.
  subst stored. case_error error.
  - eexists _, _. split; [done|]. cbn. rewrite lookup_alter_eq, Hd. cbn.
    rewrite bool_decide_eq_true_2 by done.
    repeat split; try done; [|by rewrite Hphys, fatalIf_false].
    intros other Ho. by rewrite lookup_alter_ne.
  - eexists _, _. split; [done|]. cbn. rewrite Hd, Hid by done.
    repeat split; done.
Qed.

Lemma last_cons_default {A} (x d : A) (l : list A) :
  List.last (x :: l) d = List.last l x.
Proof.
  revert x d. induction l as [|y l IH]; intros x d; [done|].
  change (List.last (x :: y :: l) d) with (List.last (y :: l) d).
  by rewrite !IH.
Qed.

(** An accepted request, from entry to exit. *)
Lemma setVsyncEnabled_accepted
    (LOG_NDEBUG : bool) (dev : Hal) (this : HWComposer) (displayId : DisplayId)
    (enabled : Vsync) (displayData : DisplayData) :
  let hwcDisplayId := getId (hwcDisplay displayData) in
  mDisplayData this !! displayId = Some displayData →
  isVirtual displayData = false →
  hal_setVsyncEnabled dev hwcDisplayId enabled = NONE →
  ∃ that log,
    setVsyncEnabled LOG_NDEBUG dev displayId enabled this = Some (that, log) ∧
    mDisplayData that !! displayId = Some (set_vsyncEnabled enabled displayData) ∧
    sentVsync log =
      (if bool_decide (enabled = vsyncEnabled displayData) then [] else [enabled]).
Proof.
  intros hwcDisplayId Hd Hphys Hok. unfold setVsyncEnabled.
  rewrite Hd, Hphys, fatalIf_false. fold hwcDisplayId. rewrite Hok.
  case_bool_decide as Heq.
  - eexists _, _. split; [done|]. split; [|done].
    rewrite Hd, Heq. by destruct displayData.
  - rewrite bool_decide_eq_false_2 by (by intros ?).
    eexists _, _. split; [done|]. cbn. by rewrite lookup_alter_eq, Hd.
Qed.

(** X18: over any sequence of [setVsyncEnabled] requests for one physical
    display, in every build, with a device that accepts them, the values that reach the
    device alternate: each differs from the one before it, the first from the
    value cached at the start.  The cache ends at the last request, and the
    device is asked at most once per request. *)
Theorem setVsyncEnabledAll_sends_changes_only
    (LOG_NDEBUG : bool) (dev : Hal) (displayId : DisplayId) (requests : list Vsync)
    (this : HWComposer) (displayData : DisplayData) :
  lookup_display this displayId = Some displayData →
  isVirtual displayData = false →
  (∀ enabled, hal_setVsyncEnabled dev (getId (hwcDisplay displayData)) enabled = NONE) →
  ∃ that log,
    setVsyncEnabledAll LOG_NDEBUG dev displayId requests this = Some (that, log) ∧
    Sorted (λ a b, a ≠ b) (vsyncEnabled displayData :: sentVsync log) ∧
    vsyncEnabledOf that displayId = Some (List.last requests (vsyncEnabled displayData)) ∧
    Nat.le (length (sentVsync log)) (length requests).
Proof.
  unfold lookup_display, vsyncEnabledOf.
  revert this displayData. induction requests as [|enabled requests IH];
    intros this displayData Hd Hphys Hdev.
  { eexists _, _. split; [done|]. rewrite Hd. cbn.
    split; [repeat constructor|]. split; [done|lia]. }
  rewrite last_cons_default. cbn [setVsyncEnabledAll].
  destruct (setVsyncEnabled_accepted LOG_NDEBUG dev this displayId enabled displayData
              Hd Hphys
              (Hdev enabled)) as (that & log & Hrun & Hthat & Hsent).
  rewrite Hrun. cbn.
  destruct (IH that _ Hthat Hphys Hdev) as (that' & log' & Hrun' & Hsorted & Hlast & Hlen).
  rewrite Hrun'. cbn. eexists _, _. split; [done|].
  unfold sentVsync in *. rewrite omap_app, Hsent, length_app.
  cbn [vsyncEnabled set_vsyncEnabled] in Hsorted, Hlast.
  split; [|split].
  - case_bool_decide as Heq; cbn.
    + by rewrite <- Heq.
    + constructor; [done|]. constructor. congruence.
  - done.
  - case_bool_decide; cbn; lia.
Qed.

Lemma elem_of_logIfError (e : Error) (r : Request) :
  r ∈ logIfError e ↔ r = LOG_HWC_ERROR e ∧ e ≠ NONE.
Proof.
  unfold logIfError. case_bool_decide.
  - rewrite list_elem_of_singleton. intuition.
  - rewrite elem_of_nil. intuition.
Qed.

(** Membership in a log, entry by entry. *)
Ltac mem :=
  repeat first [ rewrite elem_of_cons | rewrite elem_of_app
               | rewrite elem_of_logIfError | rewrite elem_of_nil ].
Ltac mem_in H :=
  repeat first [ rewrite elem_of_cons in H | rewrite elem_of_app in H
               | rewrite elem_of_logIfError in H | rewrite elem_of_nil in H ].

(** X19: [setPowerMode] on a physical display returns [NO_ERROR], in every
    build, whatever the device replies; errors are only logged.  The device is told the requested
    mode or ON, on the handle of the record; a doze mode reaches it only if
    its doze query wrote true; doze support is queried exactly for the two
    doze modes; every mode but ON_SUSPEND results in a request, ON_SUSPEND in
    none. *)
Theorem setPowerMode_never_fails
    (LOG_NDEBUG : bool) (dev : Hal) (this : HWComposer) (displayId : DisplayId)
    (mode : PowerMode) (displayData : DisplayData) :
  let hwcDisplayId := getId (hwcDisplay displayData) in
  lookup_display this displayId = Some displayData →
  isVirtual displayData = false →
  ∃ log,
    setPowerMode LOG_NDEBUG dev this displayId mode = Some (NO_ERROR, log) ∧
    (∀ h sent, SetPowerMode h sent ∈ log →
       h = hwcDisplayId ∧ (sent = mode ∨ sent = ON) ∧
       (sent = DOZE ∨ sent = DOZE_SUSPEND →
          (hal_supportsDoze dev hwcDisplayId).2 = Some true)) ∧
    (mode ≠ ON_SUSPEND → ∃ sent, SetPowerMode hwcDisplayId sent ∈ log) ∧
    (mode = ON_SUSPEND → log = []) ∧
    (SupportsDoze hwcDisplayId ∈ log ↔ mode = DOZE ∨ mode = DOZE_SUSPEND) ∧
    (∀ error, LOG_HWC_ERROR error ∈ log → error ≠ NONE).
Proof.
  intros hwcDisplayId Hd Hphys. unfold lookup_display in Hd.
  unfold setPowerMode. rewrite Hd, Hphys, fatalIf_false. fold hwcDisplayId.
  destruct (hal_supportsDoze dev hwcDisplayId) as [error [[]|]];
    destruct mode; cbn -[logIfError]; eexists; (split; [reflexivity|]);
    (split; [intros h sent Hin|split; [intros Hm|split; [intros Hm|split; [|intros e Hin]]]]);
    try mem_in Hin; mem;
    first [ done | by intuition (simplify_eq; eauto) | eexists; mem; by eauto 6 ].
Qed.

Section StatusTranslationProperties.

Variable UNSUPPORTED : Error.
Variable BAD_PARAMETER : Error.

(** X20: [setAutoLowLatencyMode], [setContentType] and
    [setDisplayContentSamplingEnabled] translate the device's answer alike:
    success to [NO_ERROR], unsupported to [INVALID_OPERATION], bad parameter
    to [BAD_VALUE], anything else to [UNKNOWN_ERROR], each after exactly one
    request on the handle of the record.
    [getDisplayedContentSamplingAttributes] does not tell a bad parameter from
    a generic failure, and [setDisplayElapseTime] does not tell an unsupported
    request from one. *)
Theorem device_errors_are_translated_alike
    (dev : Hal) (this : HWComposer) (displayId : DisplayId)
    (displayData : DisplayData) (on enabled : bool)
    (contentType componentMask maxFrames timeStamp : Z) :
  let h := getId (hwcDisplay displayData) in
  let translate (error : Error) : status_t :=
    if bool_decide (error = NONE) then NO_ERROR
    else if bool_decide (error = UNSUPPORTED) then INVALID_OPERATION
    else if bool_decide (error = BAD_PARAMETER) then BAD_VALUE
    else UNKNOWN_ERROR in
  lookup_display this displayId = Some displayData →
  UNSUPPORTED ≠ NONE → BAD_PARAMETER ≠ NONE → UNSUPPORTED ≠ BAD_PARAMETER →
  setAutoLowLatencyMode UNSUPPORTED BAD_PARAMETER dev this displayId on =
    (translate (hal_setAutoLowLatencyMode dev h on), [SetAutoLowLatencyMode h on]) ∧
  setContentType UNSUPPORTED BAD_PARAMETER dev this displayId contentType =
    (translate (hal_setContentType dev h contentType), [SetContentType h contentType]) ∧
  setDisplayContentSamplingEnabled UNSUPPORTED BAD_PARAMETER dev this displayId
      enabled componentMask maxFrames =
    (translate (hal_setDisplayContentSamplingEnabled dev h enabled componentMask maxFrames),
     [SetDisplayContentSamplingEnabled h enabled componentMask maxFrames]) ∧
  (let error := hal_getDisplayedContentSamplingAttributes dev h in
   (getDisplayedContentSamplingAttributes UNSUPPORTED dev this displayId).1 =
     if bool_decide (error = BAD_PARAMETER) then UNKNOWN_ERROR else translate error) ∧
  (let error := hal_setDisplayElapseTime dev h timeStamp in
   (setDisplayElapseTime BAD_PARAMETER dev this displayId timeStamp).1 =
     if bool_decide (error = UNSUPPORTED) then UNKNOWN_ERROR else translate error).
Proof.
  intros h translate Hd Hu Hb Hub. unfold lookup_display in Hd.
  unfold setAutoLowLatencyMode, setContentType, setDisplayContentSamplingEnabled,
    getDisplayedContentSamplingAttributes, setDisplayElapseTime.
  rewrite Hd. fold h. subst translate. cbv beta zeta.
  repeat split;
    match goal with |- context [bool_decide (?e = NONE)] => generalize e end;
    intros e; repeat (case_bool_decide; cbn [andb fst]); congruence.
Qed.

End StatusTranslationProperties.

(** X21: the assertions that tell physical-only from virtual-only requests
    are debug-only.  In a build without [LOG_NDEBUG], on a registered display
    [setOutputBuffer] aborts exactly when the record is not virtual, and
    [setVsyncEnabled], [setPowerMode] and a vsync delivered for a handle
    mapped to it abort exactly when it is.  In a build with [LOG_NDEBUG] none
    of the four aborts: [setOutputBuffer] hands the buffer to the device
    whatever the kind of the record, and a vsync for a virtual record goes
    through the duplicate filter like any other. *)
Theorem kind_assertions_abort_in_debug_builds_only
    (LOG_NDEBUG : bool) (dev : Hal) (this : HWComposer) (displayId : DisplayId)
    (displayData : DisplayData) (enabled : Vsync) (mode : PowerMode)
    (acquireFence : Fence) (buffer : Z) (timestamp : nsecs_t) :
  let hwcDisplayId := getId (hwcDisplay displayData) in
  lookup_display this displayId = Some displayData →
  (setOutputBuffer LOG_NDEBUG dev this displayId acquireFence buffer = None ↔
     LOG_NDEBUG = false ∧ isVirtual displayData = false) ∧
  (setVsyncEnabled LOG_NDEBUG dev displayId enabled this = None ↔
     LOG_NDEBUG = false ∧ isVirtual displayData = true) ∧
  (setPowerMode LOG_NDEBUG dev this displayId mode = None ↔
     LOG_NDEBUG = false ∧ isVirtual displayData = true) ∧
  (∀ handle, toPhysicalDisplayId this handle = Some displayId →
     (result (run (onVsync LOG_NDEBUG handle timestamp) this) = None ↔
        LOG_NDEBUG = false ∧ isVirtual displayData = true) ∧
     (LOG_NDEBUG = true →
        result (run (onVsync LOG_NDEBUG handle timestamp) this) =
          Some (negb (timestamp =? lastHwVsync displayData)))) ∧
  (LOG_NDEBUG = true →
     ∃ status,
       setOutputBuffer LOG_NDEBUG dev this displayId acquireFence buffer =
         Some (status, [SetOutputBuffer hwcDisplayId buffer acquireFence])).
Proof.
  intros hwcDisplayId Hd. unfold lookup_display in Hd.
  assert (Hv : ∀ handle, toPhysicalDisplayId this handle = Some displayId →
     (result (run (onVsync LOG_NDEBUG handle timestamp) this) = None ↔
        LOG_NDEBUG = false ∧ isVirtual displayData = true) ∧
     (LOG_NDEBUG = true →
        result (run (onVsync LOG_NDEBUG handle timestamp) this) =
          Some (negb (timestamp =? lastHwVsync displayData)))).
  { intros handle Hh. unfold onVsync. unfold_op. rewrite Hh. cbn. rewrite Hd. cbn.
    destruct LOG_NDEBUG, (isVirtual displayData),
      (timestamp =? lastHwVsync displayData); cbn;
      repeat split; intros; destruct_and?; by simplify_eq. }
  unfold setOutputBuffer, setVsyncEnabled, setPowerMode, fatalIf. rewrite Hd.
  fold hwcDisplayId.
  split; [|split; [|split; [|split; [exact Hv|]]]].
  - destruct LOG_NDEBUG, (isVirtual displayData); cbn;
      split; intros; destruct_and?; by simplify_eq.
  - destruct LOG_NDEBUG, (isVirtual displayData); cbn;
      repeat (case_bool_decide; cbn);
      split; intros; destruct_and?; by simplify_eq.
  - destruct LOG_NDEBUG, (isVirtual displayData); cbn;
      destruct mode; try destruct (hal_supportsDoze _ _);
      split; intros; destruct_and?; by simplify_eq.
  - intros ->. cbn. eauto.
Qed.

(** X22: the connection type of a freshly allocated physical display is the
    device's answer when the query succeeds; when it fails, the display is
    internal exactly if no internal handle was tracked before the allocation
    or the tracked one is its own handle, and external otherwise.  An id that
    is not registered is reported as internal without asking the device. *)
Theorem connection_type_falls_back_on_allocation_order
    (dev : Hal) (this : HWComposer) (hwcDisplayId : HWDisplayId)
    (displayId : DisplayId) :
  let that := after (run (allocatePhysicalDisplay hwcDisplayId displayId) this) in
  let reply := hal_getConnectionType dev hwcDisplayId in
  let type := (getDisplayConnectionType dev that displayId).1 in
  (getDisplayConnectionType dev that displayId).2 = [GetConnectionType hwcDisplayId] ∧
  (reply.1 = NONE → type = reply.2) ∧
  (reply.1 ≠ NONE →
     (type = Internal ↔
        mInternalHwcDisplayId this = None ∨
        mInternalHwcDisplayId this = Some hwcDisplayId)) ∧
  (∀ unknown, lookup_display that unknown = None →
     getDisplayConnectionType dev that unknown = (Internal, [])).
Proof.
  intros that reply type. subst type reply.
  assert (Hthat : that = afterAllocatePhysicalDisplay hwcDisplayId displayId this).
  { subst that. unfold run. by rewrite allocatePhysicalDisplay_run. }
  destruct (afterAllocatePhysicalDisplay_fields hwcDisplayId displayId this)
    as (_ & Hdata & Hint & _).
  rewrite <- Hthat in Hdata, Hint. clearbody that.
  unfold getDisplayConnectionType, lookup_display.
  rewrite Hdata, lookup_insert_eq, Hint. cbn.
  destruct (hal_getConnectionType dev hwcDisplayId) as [error type]. cbn.
  split; [done|]. split; [|split].
  - intros ->. by rewrite bool_decide_eq_false_2 by (by intros ?).
  - intros He. rewrite (bool_decide_eq_true_2 _ He).
    destruct (mInternalHwcDisplayId this) as [internal|]; cbn.
    + case_bool_decide; simplify_eq; split; try done; eauto.
      intros [|[= ->]]; done.
    + rewrite bool_decide_eq_true_2 by done. split; eauto.
  - intros unknown Hu. by rewrite Hu.
Qed.

Lemma pushModes_spec (dev : Hal) (hwcDisplayId : HWDisplayId) (configIds : list Z)
    (modes : list HWCDisplayMode) (calls : list Request) :
  let r := pushModes dev hwcDisplayId configIds modes calls in
  r.1 = modes ++ ((λ configId, (getMode dev hwcDisplayId configId).1) <$> configIds) ∧
  r.2 = calls ++ (configIds ≫= λ configId, (getMode dev hwcDisplayId configId).2).
Proof.
  revert modes calls. induction configIds as [|configId configIds IH];
    intros modes calls; cbn.
  { by rewrite !app_nil_r. }
  destruct (getMode dev hwcDisplayId configId) as [mode c] eqn:Hm.
  destruct (IH (modes ++ [mode]) (calls ++ c)) as [-> ->].
  cbn. by rewrite <- !app_assoc.
Qed.

Lemma getMode_fields (dev : Hal) (hwcDisplayId : HWDisplayId) (configId : Z) :
  let mode := (getMode dev hwcDisplayId configId).1 in
  hwcId mode = configId ∧
  mode_width mode = (getAttribute dev hwcDisplayId configId WIDTH).1 ∧
  length (getMode dev hwcDisplayId configId).2 = 6%nat.
Proof.
  unfold getMode, getAttribute.
  by repeat destruct (hal_getDisplayAttribute _ _ _ _) as [? ?].
Qed.

(** X23: [getModes] answers one mode per config id the device lists, in the
    device's order, after one query for the list and six attribute queries
    per config; an attribute the device fails to give reads -1 (shown for the
    width); if the list query fails the answer is empty. *)
Theorem getModes_one_mode_per_config
    (dev : Hal) (this : HWComposer) (displayId : DisplayId)
    (displayData : DisplayData) :
  let h := getId (hwcDisplay displayData) in
  let reply := hal_getDisplayConfigs dev h in
  let r := getModes dev this displayId in
  lookup_display this displayId = Some displayData →
  (reply.1 ≠ NONE → r = ([], [GetDisplayConfigs h])) ∧
  (reply.1 = NONE →
     hwcId <$> r.1 = reply.2 ∧
     length r.2 = (1 + 6 * length reply.2)%nat ∧
     ∀ mode, mode ∈ r.1 →
       (hal_getDisplayAttribute dev h (hwcId mode) WIDTH).1 ≠ NONE →
       mode_width mode = -1).
Proof.
  intros h reply r Hd. subst r reply. unfold lookup_display in Hd.
  unfold getModes. rewrite Hd. fold h.
  destruct (hal_getDisplayConfigs dev h) as [error configIds]. cbn [fst snd].
  split; intros He.
  { by rewrite (bool_decide_eq_true_2 _ He). }
  rewrite bool_decide_eq_false_2 by (by intros ?).
  destruct (pushModes_spec dev h configIds [] [GetDisplayConfigs h]) as [-> ->].
  cbn [app]. split; [|split].
  - rewrite <- list_fmap_compose. clear. induction configIds as [|c l IH]; [done|].
    cbn. rewrite IH. f_equal. apply getMode_fields.
  - cbn. f_equal. clear. induction configIds as [|c l IH]; [done|].
    cbn. rewrite length_app, IH.
    destruct (getMode_fields dev h c) as (_ & _ & ->). lia.
  - intros mode [c [-> _]]%list_elem_of_fmap.
    destruct (getMode_fields dev h c) as (-> & -> & _).
    unfold getAttribute. destruct (hal_getDisplayAttribute _ _ _ _) as [? ?]. cbn.
    intros Hw. by rewrite (bool_decide_eq_true_2 _ Hw).
Qed.

(** ** Capabilities and the callback bridge *)

Lemma loadCapabilities_set (dev : ComposerInfo) (this : Capabilities) :
  mCapabilities (loadCapabilities dev this).1 =
    mCapabilities this ∪ list_to_set (info_getCapabilities dev).
Proof.
  unfold loadCapabilities. cbn. generalize (mCapabilities this).
  induction (info_getCapabilities dev) as [|c l IH]; intros s; cbn.
  - by rewrite (right_id_L ∅ (∪)).
  - by rewrite IH, (assoc_L (∪)).
Qed.

Lemma foldl_emplace (keys : list (string * bool)) (m : gmap string bool) :
  foldl (λ m '(name, mandatory), emplace name mandatory m) m keys =
    m ∪ list_to_map keys.
Proof.
  revert m. induction keys as [|[name mandatory] keys IH]; intros m; cbn.
  - by rewrite (right_id_L ∅ (∪)).
  - rewrite IH. unfold emplace. apply map_eq. intros k.
    rewrite !lookup_union.
    destruct (m !! name) as [v|] eqn:Hn.
    + destruct (decide (k = name)) as [->|Hne].
      * rewrite Hn, lookup_insert_eq. by destruct (list_to_map keys !! name).
      * by rewrite lookup_insert_ne.
    + destruct (decide (k = name)) as [->|Hne].
      * rewrite !lookup_insert_eq, Hn. cbn.
        by destruct (list_to_map keys !! name).
      * by rewrite !lookup_insert_ne.
Qed.

(** X24: [setCallback] registers with the device at most once.  After any
    call the registration flag is set; the first call on an unregistered
    object registers a bridge made from its callback and the device's
    vsync-switching support, a later call registers nothing, whatever
    callback it brings; capabilities and metadata keys are loaded again on
    every call, and capabilities accumulate. *)
Theorem setCallback_registers_once
    (dev dev' : ComposerInfo) (callback callback' : Z) (this : Capabilities) :
  let first := setCallback dev callback this in
  let second := setCallback dev' callback' first.1 in
  mRegisteredCallback first.1 = true ∧
  List.filter isRegisterCallback first.2 =
    (if mRegisteredCallback this then []
     else [RegisterCallback
             {| ComposerCallbackBridge.mCallback := callback;
                ComposerCallbackBridge.mVsyncSwitchingSupported :=
                  info_isVsyncPeriodSwitchSupported dev |}]) ∧
  List.filter isRegisterCallback second.2 = [] ∧
  GetCapabilities ∈ second.2 ∧ GetLayerGenericMetadataKeys ∈ second.2 ∧
  mCapabilities second.1 =
    mCapabilities this ∪ list_to_set (info_getCapabilities dev)
      ∪ list_to_set (info_getCapabilities dev').
Proof.
  intros first second.
  assert (Hrun : ∀ dev callback this,
    let r := setCallback dev callback this in
    mRegisteredCallback r.1 = true ∧
    mCapabilities r.1 = mCapabilities this ∪ list_to_set (info_getCapabilities dev) ∧
    List.filter isRegisterCallback r.2 =
      (if mRegisteredCallback this then []
       else [RegisterCallback
               {| ComposerCallbackBridge.mCallback := callback;
                  ComposerCallbackBridge.mVsyncSwitchingSupported :=
                    info_isVsyncPeriodSwitchSupported dev |}]) ∧
    GetCapabilities ∈ r.2 ∧ GetLayerGenericMetadataKeys ∈ r.2).
  { clear. intros dev callback this r. subst r.
    pose proof (loadCapabilities_set dev this) as Hc.
    unfold setCallback, loadLayerMetadataSupport. unfold loadCapabilities in *.
    cbn [fst snd] in *.
    destruct (info_getLayerGenericMetadataKeys dev) as [error keys].
    destruct (bool_decide (error ≠ NONE)); cbn;
      destruct (mRegisteredCallback this) eqn:Hr; cbn; rewrite ?Hc;
      repeat split; try done;
      repeat first [apply list_elem_of_here | apply list_elem_of_further]. }
  destruct (Hrun dev callback this) as (H1 & H2 & H3 & _).
  destruct (Hrun dev' callback' first.1) as (_ & H5 & H6 & H7 & H8).
  fold first in H1, H2, H3. fold second in H5, H6, H7, H8.
  rewrite H1 in H6. rewrite H5, H2. done.
Qed.

(** X25: the loaders.  [loadCapabilities] only adds: a capability is known
    afterwards exactly if it was known or the device lists it.
    [loadLayerMetadataSupport] forgets what was loaded before: after a
    failed query the metadata map is empty, after a successful one it holds
    exactly the listed keys, the first entry winning where a key is listed
    twice.  Neither loader touches the other's member. *)
Theorem loaders_reload
    (dev : ComposerInfo) (this : Capabilities) :
  let reply := info_getLayerGenericMetadataKeys dev in
  let caps := (loadCapabilities dev this).1 in
  let meta := (loadLayerMetadataSupport dev this).1 in
  (∀ capability,
     hasCapability caps capability =
       hasCapability this capability ||
       bool_decide (capability ∈ info_getCapabilities dev)) ∧
  mSupportedLayerGenericMetadata meta =
    (if bool_decide (reply.1 = NONE) then list_to_map reply.2 else ∅) ∧
  (∀ name mandatory,
     reply.1 = NONE → (name, mandatory) ∈ reply.2 →
     is_Some (mSupportedLayerGenericMetadata meta !! name)) ∧
  mCapabilities meta = mCapabilities this ∧
  mSupportedLayerGenericMetadata caps = mSupportedLayerGenericMetadata this.
Proof.
  intros reply caps meta.
  assert (Hmeta : mSupportedLayerGenericMetadata meta =
            (if bool_decide (reply.1 = NONE) then list_to_map reply.2 else ∅) ∧
          mCapabilities meta = mCapabilities this).
  { subst reply meta. unfold loadLayerMetadataSupport.
    destruct (info_getLayerGenericMetadataKeys dev) as [error keys]. cbn [fst snd].
    case_error error; [|done].
    by rewrite foldl_emplace, (left_id_L ∅ (∪)). }
  destruct Hmeta as [Hmeta Hcaps].
  split; [|split; [done|split; [|done]]].
  - intros capability. subst caps. unfold hasCapability.
    rewrite loadCapabilities_set, <- bool_decide_or.
    apply bool_decide_ext. by rewrite elem_of_union, elem_of_list_to_set.
  - intros name mandatory He Hin. rewrite Hmeta, (bool_decide_eq_true_2 _ He).
    apply elem_of_dom. rewrite dom_list_to_map_L. apply elem_of_list_to_set.
    apply list_elem_of_fmap. by exists (name, mandatory).
Qed.

(** X26: of the two vsync callbacks of the bridge exactly one is forwarded,
    whichever composer version the bridge was made for: the plain one without
    a period when vsync switching is not supported, the 2.4 one with its
    period when it is. *)
Theorem bridge_forwards_one_vsync_variant
    (bridge : ComposerCallbackBridge.t) (display : HWDisplayId)
    (timestamp vsyncPeriodNanos : Z) :
  ComposerCallbackBridge.onVsync bridge display timestamp ++
  ComposerCallbackBridge.onVsync_2_4 bridge display timestamp vsyncPeriodNanos =
    [onComposerHalVsync display timestamp
       (if ComposerCallbackBridge.mVsyncSwitchingSupported bridge
        then Some vsyncPeriodNanos else None)] ∧
  (ComposerCallbackBridge.onVsync bridge display timestamp = [] ↔
     ComposerCallbackBridge.onVsync_2_4 bridge display timestamp vsyncPeriodNanos ≠ []).
Proof.
  unfold ComposerCallbackBridge.onVsync, ComposerCallbackBridge.onVsync_2_4.
  by destruct (ComposerCallbackBridge.mVsyncSwitchingSupported bridge).
Qed.

(** * The further properties at the sample objects *)

Lemma invalid_display_witness :
  lookup_display (sampleHWComposer true false) 2 = None ∧
  run (presentAndGetReleaseFences (sampleComposer 0 None 0 0 0) 2 1000
         {| getSignalTime := 900 |}) (sampleHWComposer true false)
    = (BAD_INDEX, sampleHWComposer true false, []).
Proof.
  split; [reflexivity|].
  destruct (invalid_display_is_rejected_without_device_call sample_hasChangesError
              (sampleComposer 0 None 0 0 0) (sampleHWComposer true false) 2
              1000 0 5 0 {| getSignalTime := 900 |} (FenceFd 16) 300 eq_refl)
    as (_ & H & _).
  exact H.
Defined.

Lemma setClientTarget_forwards_witness :
  validateWasSkipped (sampleDisplayData true false) = false ∧
  events (run (setClientTarget (sampleComposer 0 None 0 0 0) 1 0 (FenceFd 16) 5 0)
            (sampleHWComposer true false))
    = [SetClientTarget 7 0 5 (FenceFd 16) 0].
Proof.
  split; [reflexivity|].
  exact (proj1 (setClientTarget_forwards_once (sampleComposer 0 None 0 0 0)
                  (sampleHWComposer true false) 1 (sampleDisplayData true false)
                  0 5 0 (FenceFd 16) eq_refl eq_refl)).
Defined.

Lemma presentAndGetReleaseFences_consumes_skip_witness :
  validateWasSkipped (sampleDisplayData true true) = true ∧
  Present 7 ∈
    events (run (presentAndGetReleaseFences (sampleComposer 0 None 0 0 0) 1 1000
                   {| getSignalTime := 900 |})
              (after (run (presentAndGetReleaseFences (sampleComposer 0 None 0 0 0) 1
                             1000 {| getSignalTime := 900 |})
                        (sampleHWComposer true true)))).
Proof.
  split; [reflexivity|].
  destruct (presentAndGetReleaseFences_consumes_skip (sampleComposer 0 None 0 0 0)
              (sampleComposer 0 None 0 0 0) (sampleHWComposer true true) 1
              (sampleDisplayData true true) 1000 1000 {| getSignalTime := 900 |}
              {| getSignalTime := 900 |} eq_refl) as (_ & H & _).
  exact H.
Defined.

Lemma fast_path_capture_witness :
  isConnected_ (hwcDisplay (sampleDisplayData true false)) = true ∧
  getPresentFence
    (after (run (getDeviceCompositionChanges sample_hasChangesError
                   (sampleComposer 0 (Some 1) 0 0 0) 1) (sampleHWComposer true false)))
    1 = FenceFd 13.
Proof.
  split; [reflexivity|].
  destruct (fast_path_capture sample_hasChangesError (sampleComposer 0 (Some 1) 0 0 0)
              (sampleHWComposer true false) 1 (sampleDisplayData true false)
              eq_refl eq_refl) as (_ & H & _).
  exact (proj1 (H eq_refl)).
Defined.

Lemma clearReleaseFences_witness :
  getLayerReleaseFence (sampleHWComposer true false) 1 100 = FenceFd 12 ∧
  getLayerReleaseFence
    (after (run (clearReleaseFences 1) (sampleHWComposer true false))) 1 100
    = NO_FENCE.
Proof.
  split; [reflexivity|].
  destruct (clearReleaseFences_forgets_every_layer (sampleHWComposer true false) 1
              (sampleDisplayData true false) eq_refl) as (_ & H & _).
  exact (H 100).
Defined.

Lemma disconnectDisplay_releases_role_witness :
  mInternalHwcDisplayId (sampleHWComposer true false) = Some 7 ∧
  mInternalHwcDisplayId
    (after (run (disconnectDisplay 1) (sampleHWComposer true false))) = None.
Proof.
  split; [reflexivity|].
  exact (proj1 (disconnectDisplay_releases_role (sampleHWComposer true false) 1
                  (sampleDisplayData true false) eq_refl)).
Defined.

Lemma allocatePhysicalDisplay_round_trip_witness :
  lookup_display (sampleHWComposer true false) 2 = None ∧
  fromPhysicalDisplayId
    (after (run (allocatePhysicalDisplay 8 2) (sampleHWComposer true false))) 2
    = Some 8.
Proof.
  split; [reflexivity|].
  assert (H : ∀ displayData,
            lookup_display (sampleHWComposer true false) 2 = Some displayData →
            isVirtual displayData = false).
  { intros displayData Hd. vm_compute in Hd. discriminate Hd. }
  destruct (allocatePhysicalDisplay_round_trip (sampleHWComposer true false) 8 2 H)
    as (_ & Hback & _).
  exact Hback.
Defined.

Lemma allocateVirtualDisplay_is_isolated_witness :
  result (run (allocateVirtualDisplay (sampleComposer 0 None 0 0 0) 2
                 {| width := 1920; height := 1080 |} 1 (Some 1))
            (sampleHWComposer true false)) = true ∧
  fromPhysicalDisplayId
    (after (run (allocateVirtualDisplay (sampleComposer 0 None 0 0 0) 2
                   {| width := 1920; height := 1080 |} 1 (Some 1))
              (sampleHWComposer true false))) 2 = None.
Proof.
  split; [reflexivity|].
  destruct (allocateVirtualDisplay_is_isolated (sampleComposer 0 None 0 0 0)
              (sampleHWComposer true false) 2 {| width := 1920; height := 1080 |} 1
              (Some 1)) as (_ & _ & _ & _ & _ & _ & H).
  exact (proj1 (proj2 (H eq_refl))).
Defined.

Lemma callbacks_after_destroy_witness :
  toPhysicalDisplayId (sampleHWComposer true false) 7 = Some 1 ∧
  result (run (onVsync true 7 5)
            (after (run (disconnectDisplay 1) (sampleHWComposer true false))))
    = Some false.
Proof.
  split; [reflexivity|].
  destruct (callbacks_after_destroy_are_dropped true (sampleHWComposer true false) 1
              (sampleDisplayData true false) 5 eq_refl) as [H _].
  exact (f_equal result H).
Defined.

Lemma onHotplugDisconnect_unknown_witness :
  toPhysicalDisplayId (sampleHWComposer true false) 9 = None ∧
  run (onHotplugDisconnect 9) (sampleHWComposer true false)
    = (None, sampleHWComposer true false, []).
Proof.
  split; [reflexivity|].
  exact (proj1 (onHotplugDisconnect_unknown_and_repeated (sampleHWComposer true false) 9)
           eq_refl).
Defined.

Lemma legacy_primary_secondary_tertiary_witness :
  (dev_getDisplayIdentificationData (sampleComposer 0 None 0 0 8) 7).1.1 ≠ NONE ∧
  result (run (onHotplugConnect sample_parse sample_fromPort
                 sample_LEGACY_DISPLAY_TYPE_PRIMARY sample_LEGACY_DISPLAY_TYPE_EXTERNAL
                 (sampleComposer 0 None 0 0 8) 7) emptyHWComposer)
    = Some {| id := 0; name := "Internal display"; deviceProductInfo := None |}.
Proof.
  assert (H : (dev_getDisplayIdentificationData (sampleComposer 0 None 0 0 8) 7).1.1
              ≠ NONE) by (vm_compute; discriminate).
  split; [exact H|].
  exact (proj1 (legacy_primary_secondary_tertiary sample_parse sample_fromPort
                  sample_LEGACY_DISPLAY_TYPE_PRIMARY sample_LEGACY_DISPLAY_TYPE_EXTERNAL
                  (sampleComposer 0 None 0 0 8) (sampleComposer 0 None 0 0 8)
                  (sampleComposer 0 None 0 0 8) emptyHWComposer 7 8 9
                  eq_refl eq_refl eq_refl eq_refl H
                  ltac:(discriminate) ltac:(discriminate) ltac:(discriminate)
                  ltac:(discriminate))).
Defined.

Lemma reconnect_restores_witness :
  toPhysicalDisplayId (sampleHWComposer true false) 7 = Some 1 ∧
  isConnected
    (after (run (onHotplugConnect sample_parse sample_fromPort
                   sample_LEGACY_DISPLAY_TYPE_PRIMARY
                   sample_LEGACY_DISPLAY_TYPE_EXTERNAL (sampleComposer 0 None 0 0 0) 7)
              (after (run (onHotplugDisconnect 7) (sampleHWComposer true false)))))
    1 = true.
Proof.
  split; [reflexivity|].
  destruct (reconnect_restores_the_display sample_parse sample_fromPort
              sample_LEGACY_DISPLAY_TYPE_PRIMARY sample_LEGACY_DISPLAY_TYPE_EXTERNAL
              (sampleComposer 0 None 0 0 0) (sampleHWComposer true false) 7 1
              (sampleDisplayData true false) eq_refl eq_refl) as (_ & _ & H & _).
  exact H.
Defined.

Lemma generalized_mode_witness :
  mHasMultiDisplaySupport
    (set_mHasMultiDisplaySupport true (sampleHWComposer true false)) = true ∧
  run (onHotplugConnect sample_parse sample_fromPort
         sample_LEGACY_DISPLAY_TYPE_PRIMARY sample_LEGACY_DISPLAY_TYPE_EXTERNAL
         (sampleComposer 0 None 0 0 8) 9)
      (set_mHasMultiDisplaySupport true (sampleHWComposer true false))
    = (None, set_mHasMultiDisplaySupport true (sampleHWComposer true false),
       [(GetDisplayIdentificationData 9,
         set_mHasMultiDisplaySupport true (sampleHWComposer true false))]).
Proof.
  split; [reflexivity|].
  assert (Hmap : mPhysicalDisplayIdMap
                   (set_mHasMultiDisplaySupport true (sampleHWComposer true false)) ≠ ∅).
  { intros H. apply (f_equal (λ m, m !! 7)) in H. vm_compute in H. discriminate H. }
  refine (proj1 (generalized_mode_requires_identification sample_parse sample_fromPort
                   sample_LEGACY_DISPLAY_TYPE_PRIMARY sample_LEGACY_DISPLAY_TYPE_EXTERNAL
                   (sampleComposer 0 None 0 0 8)
                   (set_mHasMultiDisplaySupport true (sampleHWComposer true false)) 9
                   eq_refl Hmap eq_refl) _).
  vm_compute. discriminate.
Defined.

Lemma stale_handle_witness :
  toPhysicalDisplayId
    (set_mHasMultiDisplaySupport true (sampleHWComposer false false)) 7 = Some 1 ∧
  isConnected (set_mHasMultiDisplaySupport true (sampleHWComposer false false)) 1
    = false ∧
  toPhysicalDisplayId
    (after (run (onHotplugConnect sample_parse_panel sample_fromPort
                   sample_LEGACY_DISPLAY_TYPE_PRIMARY
                   sample_LEGACY_DISPLAY_TYPE_EXTERNAL (sampleComposer 0 None 0 0 0) 9)
              (set_mHasMultiDisplaySupport true (sampleHWComposer false false))))
    7 = Some 1.
Proof.
  split; [reflexivity|]. split; [reflexivity|].
  destruct (stale_handle_keeps_resolving sample_parse_panel sample_fromPort
              sample_LEGACY_DISPLAY_TYPE_PRIMARY sample_LEGACY_DISPLAY_TYPE_EXTERNAL
              (sampleComposer 0 None 0 0 0)
              (set_mHasMultiDisplaySupport true (sampleHWComposer false false)) 7 9
              {| id := 1; name := "Panel"; deviceProductInfo := Some [0; 255] |}
              eq_refl eq_refl eq_refl eq_refl eq_refl eq_refl) as (_ & _ & H & _).
  exact H.
Defined.

Lemma onHotplug_never_forgets_witness :
  run (onHotplug sample_parse sample_fromPort sample_LEGACY_DISPLAY_TYPE_PRIMARY
         sample_LEGACY_DISPLAY_TYPE_EXTERNAL (sampleComposer 0 None 0 0 0) 7 INVALID)
      (sampleHWComposer true false)
    = (None, sampleHWComposer true false, []).
Proof.
  destruct (onHotplug_never_forgets sample_parse sample_fromPort
              sample_LEGACY_DISPLAY_TYPE_PRIMARY sample_LEGACY_DISPLAY_TYPE_EXTERNAL
              (sampleComposer 0 None 0 0 0) (sampleHWComposer true false) 7 INVALID)
    as (_ & _ & H & _).
  exact (H eq_refl).
Defined.

Lemma setVsyncEnabled_caches_witness :
  isVirtual (sampleDisplayData true false) = false ∧
  ∃ that log,
    setVsyncEnabled true (sampleHal 0 None 0) 1 DISABLE (sampleHWComposer true false)
      = Some (that, log) ∧
    sentVsync log = [DISABLE].
Proof.
  split; [reflexivity|].
  destruct (setVsyncEnabled_caches true (sampleHal 0 None 0)
              (sampleHWComposer true false) 1 DISABLE (sampleDisplayData true false)
              eq_refl eq_refl)
    as (that & log & Hrun & Hsent & _).
  exists that, log. split; [exact Hrun|exact Hsent].
Defined.

Lemma setVsyncEnabledAll_witness :
  (∀ enabled, hal_setVsyncEnabled (sampleHal 0 None 0) 7 enabled = NONE) ∧
  ∃ that log,
    setVsyncEnabledAll true (sampleHal 0 None 0) 1 [ENABLE; DISABLE; DISABLE; ENABLE]
      (sampleHWComposer true false) = Some (that, log) ∧
    vsyncEnabledOf that 1 = Some ENABLE.
Proof.
  split; [reflexivity|].
  destruct (setVsyncEnabledAll_sends_changes_only true (sampleHal 0 None 0) 1
              [ENABLE; DISABLE; DISABLE; ENABLE] (sampleHWComposer true false)
              (sampleDisplayData true false) eq_refl eq_refl (λ _, eq_refl))
    as (that & log & Hrun & _ & Hlast & _).
  exists that, log. split; [exact Hrun|exact Hlast].
Defined.

Lemma setPowerMode_witness :
  isVirtual (sampleDisplayData true false) = false ∧
  ∃ log,
    setPowerMode true (sampleHal 0 None 3) (sampleHWComposer true false) 1 DOZE
      = Some (NO_ERROR, log).
Proof.
  split; [reflexivity|].
  destruct (setPowerMode_never_fails true (sampleHal 0 None 3)
              (sampleHWComposer true false) 1 DOZE (sampleDisplayData true false)
              eq_refl eq_refl)
    as (log & Hrun & _).
  exists log. exact Hrun.
Defined.

Lemma device_errors_witness :
  sample_UNSUPPORTED ≠ NONE ∧ sample_BAD_PARAMETER ≠ NONE ∧
  sample_UNSUPPORTED ≠ sample_BAD_PARAMETER ∧
  setContentType sample_UNSUPPORTED sample_BAD_PARAMETER (sampleHal 0 None 8)
      (sampleHWComposer true false) 1 2
    = (INVALID_OPERATION, [SetContentType 7 2]).
Proof.
  assert (H1 : sample_UNSUPPORTED ≠ NONE) by discriminate.
  assert (H2 : sample_BAD_PARAMETER ≠ NONE) by discriminate.
  assert (H3 : sample_UNSUPPORTED ≠ sample_BAD_PARAMETER) by discriminate.
  split; [exact H1|]. split; [exact H2|]. split; [exact H3|].
  destruct (device_errors_are_translated_alike sample_UNSUPPORTED sample_BAD_PARAMETER
              (sampleHal 0 None 8) (sampleHWComposer true false) 1
              (sampleDisplayData true false) true true 2 0 0 0 eq_refl H1 H2 H3)
    as (_ & H & _).
  exact H.
Defined.

Lemma kind_assertions_witness :
  isVirtual (sampleDisplayData true false) = false ∧
  setOutputBuffer false (sampleHal 0 None 0) (sampleHWComposer true false) 1
    (FenceFd 16) 5 = None ∧
  ∃ status,
    setOutputBuffer true (sampleHal 0 None 0) (sampleHWComposer true false) 1
      (FenceFd 16) 5 = Some (status, [SetOutputBuffer 7 5 (FenceFd 16)]).
Proof.
  split; [reflexivity|]. split.
  - destruct (kind_assertions_abort_in_debug_builds_only false (sampleHal 0 None 0)
                (sampleHWComposer true false) 1 (sampleDisplayData true false) ENABLE
                ON (FenceFd 16) 5 0 eq_refl) as (H & _).
    exact (proj2 H (conj eq_refl eq_refl)).
  - destruct (kind_assertions_abort_in_debug_builds_only true (sampleHal 0 None 0)
                (sampleHWComposer true false) 1 (sampleDisplayData true false) ENABLE
                ON (FenceFd 16) 5 0 eq_refl) as (_ & _ & _ & _ & H).
    exact (H eq_refl).
Defined.

Lemma connection_type_witness :
  (hal_getConnectionType (sampleHal 0 None 8) 8).1 ≠ NONE ∧
  mInternalHwcDisplayId (sampleHWComposer true false) = Some 7 ∧
  (getDisplayConnectionType (sampleHal 0 None 8)
     (after (run (allocatePhysicalDisplay 8 2) (sampleHWComposer true false))) 2).1
    ≠ Internal.
Proof.
  assert (H : (hal_getConnectionType (sampleHal 0 None 8) 8).1 ≠ NONE)
    by (vm_compute; discriminate).
  split; [exact H|]. split; [reflexivity|].
  destruct (connection_type_falls_back_on_allocation_order (sampleHal 0 None 8)
              (sampleHWComposer true false) 8 2) as (_ & _ & Hfallback & _).
  intros Hi. destruct (proj1 (Hfallback H) Hi) as [Hnone|Hown]; discriminate.
Defined.

Lemma getModes_witness :
  (hal_getDisplayConfigs (sampleHal 0 None 0) 7).1 = NONE ∧
  hwcId <$> (getModes (sampleHal 0 None 0) (sampleHWComposer true false) 1).1 = [0; 1].
Proof.
  split; [reflexivity|].
  destruct (getModes_one_mode_per_config (sampleHal 0 None 0)
              (sampleHWComposer true false) 1 (sampleDisplayData true false) eq_refl)
    as [_ H].
  exact (proj1 (H eq_refl)).
Defined.

Lemma loaders_reload_witness :
  (info_getLayerGenericMetadataKeys (sampleComposerInfo 0)).1 = NONE ∧
  is_Some
    (mSupportedLayerGenericMetadata
       (loadLayerMetadataSupport (sampleComposerInfo 0) sampleCapabilities).1 !! "b").
Proof.
  split; [reflexivity|].
  destruct (loaders_reload (sampleComposerInfo 0) sampleCapabilities)
    as (_ & _ & H & _).
  apply (H "b" false eq_refl).
  vm_compute. apply list_elem_of_further, list_elem_of_here.
Defined.
